(** * submeta-dl: a shallow embedding of [submeta-dl.py]

    The script fetches a course page, extracts the JSON payload embedded in
    it, parses the chapter/video tree, logs in, and hands every video to an
    external download tool.  This development embeds the script's functions
    and proves the properties its specification states about them.

    Modelling conventions.
    - A Python [str] is a list of Unicode code points ([N]).
    - A value produced by [json.loads] is a [json] tree; Python's [None]
      is [JNull]; a [dict] is an association list in insertion order.
    - An exception is the left injection of a [sum].  Inside a [try] block
      it is a value the handler inspects; every [try] of the script catches
      [Exception].  [os.makedirs], [input] and [getpass] are called outside
      every [try]: an exception of theirs ends the run, and the interpreter
      exits with status 1.  [print] and [logging] are assumed not to raise.
    - The network, the console and the download tool are an oracle
      ([World]) threaded through the run; the run's observable behaviour is
      the list of [event]s it emits.  [create_session] only configures the
      transport, so its retry policy is part of the oracle.
    - Paths are joined as [posixpath] joins them; progress bars are not
      recorded. *)

From Stdlib Require Import String Ascii.
From Stdlib Require Import List NArith ZArith Bool Lia.
From Stdlib Require Import DecimalString DecimalNat.
From ExtLib Require Import Structures.Monad Data.Monads.EitherMonad.
Import ListNotations.
Import MonadNotation.
Local Open Scope monad_scope.
Set Warnings "-register-all".

(** ** Python strings *)

Module PyStr.

Definition char := N.
Definition pystr := list char.

(** A literal of the source, written as a Rocq string of ASCII characters. *)
Definition str (s : string) : pystr :=
  map N_of_ascii (list_ascii_of_string s).

Fixpoint eqb (a b : pystr) : bool :=
  match a, b with
  | [], [] => true
  | x :: a', y :: b' => N.eqb x y && eqb a' b'
  | _, _ => false
  end.

Definition space : char := 32%N.
Definition dot : char := 46%N.
Definition underscore : char := 95%N.
Definition slash : char := 47%N.

Definition in_range (lo hi c : N) : bool := (lo <=? c)%N && (c <=? hi)%N.

(** The class [[A-Za-z0-9]]. *)
Definition ascii_alnum (c : char) : bool :=
  in_range 48 57 c || in_range 65 90 c || in_range 97 122 c.

(** [str.isalnum] on the Latin-1 supplement U+0080..U+00FF: the letters
    (feminine/masculine ordinal, micro sign, U+00C0..U+00FF except the
    multiplication and division signs) and the numeric characters
    (superscripts one, two, three and the vulgar fractions). *)
Definition latin1_alnum (c : char) : bool :=
  N.eqb c 0xAA || N.eqb c 0xB2 || N.eqb c 0xB3 || N.eqb c 0xB5 ||
  N.eqb c 0xB9 || N.eqb c 0xBA || in_range 0xBC 0xBE c ||
  in_range 0xC0 0xD6 c || in_range 0xD8 0xF6 c || in_range 0xF8 0xFF c.

(** The interpreter's Unicode database decides [str.isalnum] beyond
    Latin-1; the script does not fix it, so it is an interface. *)
Class UnicodeData := { unicode_alnum : char -> bool }.

Section Chars.
Context `{UnicodeData}.

(** [c.isalnum()] for a one-character string. *)
Definition isalnum (c : char) : bool :=
  if (c <? 0x80)%N then ascii_alnum c
  else if (c <? 0x100)%N then latin1_alnum c
  else unicode_alnum c.

(** [s.isalnum()]: every character is alphanumeric and there is at least
    one character. *)
Definition str_isalnum (s : pystr) : bool :=
  match s with
  | [] => false
  | _ => forallb isalnum s
  end.

End Chars.

(** Iterating over a [str] yields its one-character substrings. *)
Definition chars (s : pystr) : list pystr := map (fun c => [c]) s.

(** [sep.join(items)] with the empty separator. *)
Definition join (items : list pystr) : pystr := concat items.

Definition startswith (pre s : pystr) : bool :=
  eqb (firstn (length pre) s) pre.

Definition endswith (suf s : pystr) : bool :=
  eqb (skipn (length s - length suf) s) suf.

(** [str(n)] for a non-negative [int]. *)
Definition of_nat (n : nat) : pystr :=
  str (NilEmpty.string_of_uint (Nat.to_uint n)).

End PyStr.
Import PyStr.

(** ** sanitize_filename *)

Section Sanitize.
Context `{UnicodeData}.

(** The element of the comprehension:
    [c if c.isalnum() or c in (' ', '.', '_') else '_']. *)
Definition sanitize_item (c : pystr) : pystr :=
  if str_isalnum c
     || existsb (PyStr.eqb c) [str " "; str "."; str "_"]
  then c else str "_".

(** The comprehension over any iterable of strings, then the join. *)
Definition sanitize_items (items : list pystr) : pystr :=
  join (map sanitize_item items).

Definition sanitize_filename (filename : pystr) : pystr :=
  sanitize_items (chars filename).

(** The test of the comprehension on a single code point. *)
Definition kept (c : char) : bool :=
  isalnum c || N.eqb c space || N.eqb c dot || N.eqb c underscore.

(** The comprehension's element for a single code point. *)
Definition sanitize_char (c : char) : char :=
  if kept c then c else underscore.

End Sanitize.

(** The character class the specification names: [[A-Za-z0-9 ._]]. *)
Definition spec_allowed (c : char) : bool :=
  ascii_alnum c || N.eqb c space || N.eqb c dot || N.eqb c underscore.

(** Sanitization as the specification words it: every character outside
    [[A-Za-z0-9 ._]] becomes an underscore. *)
Definition spec_sanitize (s : pystr) : pystr :=
  map (fun c => if spec_allowed c then c else underscore) s.

(** ** Python values, dictionaries and exceptions *)

(** A value as [json.loads] builds it.  A float is its IEEE 754 binary64
    bit pattern; only its truth value is ever inspected. *)
Inductive json : Type :=
| JNull
| JBool (b : bool)
| JInt (z : Z)
| JFloat (bits : Z)
| JStr (s : pystr)
| JArr (items : list json)
| JObj (d : list (pystr * json)).

(** Insertion-ordered dictionaries with [str] keys. *)
Module Dict.
Section Dict.
Context {V : Type}.

Definition t := list (pystr * V).

Definition keys (d : t) : list pystr := map fst d.

Fixpoint get (k : pystr) (d : t) : option V :=
  match d with
  | [] => None
  | (k', v) :: d' => if PyStr.eqb k k' then Some v else get k d'
  end.

(** [d[k] = v]: an existing key keeps its position, a new key goes last. *)
Fixpoint set (k : pystr) (v : V) (d : t) : t :=
  match d with
  | [] => [(k, v)]
  | (k', v') :: d' =>
      if PyStr.eqb k k' then (k, v) :: d' else (k', v') :: set k v d'
  end.

(** The dictionary built by assigning the entries in order. *)
Definition of_entries (es : list (pystr * V)) : t :=
  fold_left (fun d e => set (fst e) (snd e) d) es [].

End Dict.
Arguments t : clear implicits.
End Dict.

(** [list(d).index(k)]: the position of the first occurrence.  The script
    only asks for keys of [d] itself, so the search never fails. *)
Fixpoint list_index (k : pystr) (l : list pystr) : nat :=
  match l with
  | [] => 0
  | k' :: l' => if PyStr.eqb k k' then 0 else S (list_index k l')
  end.

Inductive pyexc : Type :=
| HTTPError (status : Z)
| ConnectionError
| Timeout
| KeyError (key : pystr)
| TypeError
| AttributeError
| JSONDecodeError
| OSError (errno : Z)
| EOFError
| OtherError.

(** The exceptions of [except (HTTPError, ConnectionError, Timeout)]. *)
Definition is_network_error (e : pyexc) : bool :=
  match e with
  | HTTPError _ | ConnectionError | Timeout => true
  | _ => false
  end.

(** The result of an expression evaluated inside a [try] block. *)
Definition result : Type -> Type := sum pyexc.
Definition raise {A} (e : pyexc) : result A := inl e.

(** [bool(v)]. *)
Definition truthy (v : json) : bool :=
  match v with
  | JNull => false
  | JBool b => b
  | JInt z => negb (Z.eqb z 0)
  | JFloat bits => negb (Z.eqb (Z.land bits (2 ^ 63 - 1)) 0)
  | JStr s => negb (Nat.eqb (length s) 0)
  | JArr l => negb (Nat.eqb (length l) 0)
  | JObj d => negb (Nat.eqb (length d) 0)
  end.

(** [v[k]] with a [str] key. *)
Definition getitem (v : json) (k : pystr) : result json :=
  match v with
  | JObj d =>
      match Dict.get k d with
      | Some x => ret x
      | None => raise (KeyError k)
      end
  | _ => raise TypeError
  end.

(** [v.get(k)]. *)
Definition dict_get (v : json) (k : pystr) : result json :=
  match v with
  | JObj d =>
      match Dict.get k d with
      | Some x => ret x
      | None => ret JNull
      end
  | _ => raise AttributeError
  end.

(** [for x in v]: the items the loop visits. *)
Definition iter (v : json) : result (list json) :=
  match v with
  | JArr l => ret l
  | JObj d => ret (map JStr (Dict.keys d))
  | JStr s => ret (map JStr (chars s))
  | _ => raise TypeError
  end.

(** [v == s] for a [str] literal [s]. *)
Definition eq_str (v : json) (s : pystr) : bool :=
  match v with
  | JStr t => PyStr.eqb t s
  | _ => false
  end.

Fixpoint foldM {A B} (f : A -> B -> result A) (l : list B) (a : A)
  : result A :=
  match l with
  | [] => ret a
  | b :: l' => a' <- f a b ;; foldM f l' a'
  end.

(** The receivers of [c.isalnum()]: only a [str] has the method. *)
Fixpoint str_items (l : list json) : result (list pystr) :=
  match l with
  | [] => ret []
  | JStr s :: l' => ss <- str_items l' ;; ret (s :: ss)
  | _ :: _ => raise AttributeError
  end.

(** ** get_course *)

Definition Chapter := Dict.t json.
Definition Course := Dict.t Chapter.

Section GetCourse.
Context `{UnicodeData}.

(** [sanitize_filename(v)] on a value of any type. *)
Definition sanitize_value (v : json) : result pystr :=
  items <- iter v ;;
  cs <- str_items items ;;
  ret (sanitize_items cs).

(** The body of the inner loop. *)
Definition add_video (chapter_title : pystr) (course : Course) (video : json)
  : result Course :=
  ty <- getitem video (str "__typename") ;;
  if eq_str ty (str "Video") then
    title <- getitem video (str "title") ;;
    video_title <- sanitize_value title ;;
    id <- getitem video (str "id") ;;
    match Dict.get chapter_title course with
    | Some chapter =>
        ret (Dict.set chapter_title (Dict.set video_title id chapter) course)
    | None => raise (KeyError chapter_title)
    end
  else ret course.

(** The body of the outer loop. *)
Definition add_chapter (course : Course) (chapter : json) : result Course :=
  title <- getitem chapter (str "title") ;;
  chapter_title <- sanitize_value title ;;
  let course := Dict.set chapter_title [] course in
  contents <- getitem chapter (str "contents") ;;
  videos <- iter contents ;;
  foldM (add_video chapter_title) videos course.

(** The [try] block of [get_course]. *)
Definition parse_course (json_data : json) : result Course :=
  props <- getitem json_data (str "props") ;;
  pageProps <- getitem props (str "pageProps") ;;
  course <- getitem pageProps (str "course") ;;
  chapters <- getitem course (str "chapters") ;;
  chapters <- iter chapters ;;
  foldM add_chapter chapters [].

End GetCourse.

(** ** The fetched page *)

(** A parsed HTML document as [BeautifulSoup] presents it. *)
Inductive node : Type :=
| Tag (name : pystr) (attrs : list (pystr * pystr)) (contents : list node)
| NavigableString (s : pystr).

Definition has_type (ty : pystr) (attrs : list (pystr * pystr)) : bool :=
  match Dict.get (str "type") attrs with
  | Some v => PyStr.eqb v ty
  | None => false
  end.

(** [tag.find(type=ty)] on one subtree, the root included: the first
    matching element in document order. *)
Fixpoint find_type (ty : pystr) (n : node) : option node :=
  match n with
  | NavigableString _ => None
  | Tag _ attrs contents =>
      if has_type ty attrs then Some n
      else
        (fix first (l : list node) : option node :=
           match l with
           | [] => None
           | c :: l' =>
               match find_type ty c with
               | Some r => Some r
               | None => first l'
               end
           end) contents
  end.

(** [soup.find(type=ty)] over the top-level nodes of the document. *)
Fixpoint soup_find (ty : pystr) (soup : list node) : option node :=
  match soup with
  | [] => None
  | n :: soup' =>
      match find_type ty n with
      | Some r => Some r
      | None => soup_find ty soup'
      end
  end.

(** [node.children]. *)
Definition children (n : node) : list node :=
  match n with
  | Tag _ _ contents => contents
  | NavigableString _ => []
  end.

(** [node.string]: the text itself, or the [.string] of an only child. *)
Fixpoint node_string (n : node) : option pystr :=
  match n with
  | NavigableString s => Some s
  | Tag _ _ [c] => node_string c
  | Tag _ _ _ => None
  end.

(** ** Effects *)

Inductive request : Type :=
| Login (username password : pystr)
| GetVideoForWatchAuth (token id : json).

Inductive log_detail : Type :=
| NoDetail
| Exc (e : pyexc)
| Body (data : json).

(** What a run does to the outside world, in order.  An event records that
    a call was made, whether it then returned or raised.  [YdlDownload]
    records the stream token, which fixes the manifest URL
    [url_prefix + token + url_suffix], and the output template. *)
Inductive event : Type :=
| Print (msg : pystr)
| Input (prompt : pystr)
| Getpass (prompt : pystr)
| HttpGet (url : pystr)
| HttpPost (req : request)
| Makedirs (path : pystr)
| YdlDownload (video_token : json) (outtmpl : pystr)
| LogInfo (msg : pystr)
| LogError (msg : pystr) (detail : log_detail).

(** The collaborators the script talks to.  Each call returns what the
    caller sees: a value or a raised exception. *)
Class World (W : Type) := {
  session_get : pystr -> W -> result (list node) * W;
  json_loads : pystr -> result json;
  session_post : request -> W -> result json * W;
  ydl_download : json -> pystr -> W -> result unit * W;
  os_makedirs : pystr -> W -> result unit * W;
  console_input : pystr -> W -> result pystr * W;
  console_getpass : pystr -> W -> result pystr * W
}.

(** Computations that thread the world, append to the trace, and end
    with a value or with an exception nobody caught. *)
Record M (W A : Type) : Type :=
  mkM { run : W -> result A * W * list event }.
Arguments mkM {W A} _.
Arguments run {W A} _ _.

#[export] Instance Monad_M {W} : Monad (M W) := {
  ret := fun _ a => mkM (fun w => (inr a, w, []));
  bind := fun _ _ m k =>
    mkM (fun w =>
      let '(r, w1, t1) := run m w in
      match r with
      | inl e => (inl e, w1, t1)
      | inr a =>
          let '(b, w2, t2) := run (k a) w1 in
          (b, w2, t1 ++ t2)
      end)
}.

Definition emit {W} (e : event) : M W unit :=
  mkM (fun w => (inr tt, w, [e])).

(** A call inside a [try] block: its outcome is handed to the caller. *)
Definition call {W A} (f : W -> A * W) : M W A :=
  mkM (fun w => let '(a, w') := f w in (inr a, w', [])).

(** A call outside every [try] block: an exception propagates. *)
Definition uncaught {W A} (f : W -> result A * W) : M W A :=
  mkM (fun w => let '(r, w') := f w in (r, w', [])).

Fixpoint for_each {W A} (l : list A) (body : A -> M W unit) : M W unit :=
  match l with
  | [] => ret tt
  | a :: l' => body a ;; for_each l' body
  end.

Definition value_of {W A} (m : M W A) (w : W) : result A :=
  fst (fst (run m w)).
Definition world_of {W A} (m : M W A) (w : W) : W := snd (fst (run m w)).
Definition trace_of {W A} (m : M W A) (w : W) : list event := snd (run m w).

(** [os.path.join(a, b)] of [posixpath]. *)
Definition path_join (a b : pystr) : pystr :=
  if startswith [slash] b then b
  else if Nat.eqb (length a) 0 || endswith [slash] a then a ++ b
  else a ++ [slash] ++ b.

(** ** The script *)

Section Script.
Context `{UnicodeData} {W : Type} `{World W}.

Definition print (msg : pystr) : M W unit := emit (Print msg).
Definition logging_info (msg : pystr) : M W unit := emit (LogInfo msg).
Definition logging_error (msg : pystr) (d : log_detail) : M W unit :=
  emit (LogError msg d).
(** [os.makedirs(path, exist_ok=True)], [input(prompt)] and
    [getpass.getpass(prompt)]: the event records the call, whether or not
    it then raises. *)
Definition makedirs (path : pystr) : M W unit :=
  emit (Makedirs path) ;; uncaught (os_makedirs path).
Definition input (prompt : pystr) : M W pystr :=
  emit (Input prompt) ;; uncaught (console_input prompt).
Definition getpass (prompt : pystr) : M W pystr :=
  emit (Getpass prompt) ;; uncaught (console_getpass prompt).
Definition get (url : pystr) : M W (result (list node)) :=
  emit (HttpGet url) ;; call (session_get url).
Definition post (req : request) : M W (result json) :=
  emit (HttpPost req) ;; call (session_post req).

(** The two [except] clauses that follow every network [try] block. *)
Definition log_failure (network unexpected : pystr) (e : pyexc) : M W unit :=
  if is_network_error e then logging_error network (Exc e)
  else logging_error unexpected (Exc e).

(** [json.loads(child.string)]. *)
Definition loads_string (s : option pystr) : result json :=
  match s with
  | Some text => json_loads text
  | None => raise TypeError
  end.

Definition get_json (url : pystr) : M W json :=
  let failed e :=
    log_failure (str "Network error while retrieving JSON from " ++ url ++ str ": ")
                (str "Unexpected error while retrieving JSON from " ++ url ++ str ": ")
                e ;;
    ret JNull in
  let not_found :=
    logging_error (str "No JSON data found at URL: " ++ url) NoDetail ;;
    ret JNull in
  response <- get url ;;
  match response with
  | inl e => failed e
  | inr soup =>
      match soup_find (str "application/json") soup with
      | Some data =>
          match children data with
          | child :: _ =>
              match loads_string (node_string child) with
              | inr v => ret v
              | inl e => failed e
              end
          | [] => not_found
          end
      | None => not_found
      end
  end.

Definition get_course (json_data : json) : M W (option Course) :=
  match parse_course json_data with
  | inr course => ret (Some course)
  | inl (KeyError k) =>
      logging_error (str "KeyError while parsing course JSON: ")
                    (Exc (KeyError k)) ;;
      ret None
  | inl e =>
      logging_error (str "Unexpected error while parsing course data: ")
                    (Exc e) ;;
      ret None
  end.

(** [data["data"]["login"].get("token")]. *)
Definition login_token (data : json) : result json :=
  d <- getitem data (str "data") ;;
  login <- getitem d (str "login") ;;
  dict_get login (str "token").

Definition get_token (username password : pystr) : M W json :=
  let failed e :=
    log_failure (str "Network error during login: ")
                (str "Unexpected error during login: ") e ;;
    ret JNull in
  response <- post (Login username password) ;;
  match response with
  | inl e => failed e
  | inr data =>
      match login_token data with
      | inl e => failed e
      | inr token =>
          if truthy token then
            logging_info (str "Login successful!") ;;
            print (str "Login successful! Token obtained") ;;
            ret token
          else
            logging_error (str "Login failed. Response: ") (Body data) ;;
            ret JNull
      end
  end.

(** [d[k]] for a key [k] obtained by iterating over [d] itself: the lookup
    cannot miss, and the default is never used. *)
Definition at_key {V} (default : V) (d : Dict.t V) (k : pystr) : V :=
  match Dict.get k d with
  | Some v => v
  | None => default
  end.

(** [data['data']['result']['video']['token']]. *)
Definition video_token_of (data : json) : result json :=
  d <- getitem data (str "data") ;;
  r <- getitem d (str "result") ;;
  v <- getitem r (str "video") ;;
  getitem v (str "token").

(** [f'{index}. {title}']. *)
Definition numbered (index : nat) (title : pystr) : pystr :=
  of_nat index ++ str ". " ++ title.

(** The body of the inner loop of [downloader]. *)
Definition download_video (course : Course) (token : json)
    (chapter chapter_path video : pystr) : M W unit :=
  let video_index := list_index video (Dict.keys (at_key [] course chapter)) + 1 in
  let video_title := sanitize_filename video in
  let filename := numbered video_index video_title in
  let filepath := path_join chapter_path (filename ++ str ".%(ext)s") in
  let id := at_key JNull (at_key [] course chapter) video in
  let failed e :=
    log_failure (str "Network error while downloading " ++ filename ++ str ": ")
                (str "Failed to download " ++ filename ++ str ": ") e in
  response <- post (GetVideoForWatchAuth token id) ;;
  match response with
  | inl e => failed e
  | inr data =>
      match video_token_of data with
      | inl e => failed e
      | inr video_token =>
          emit (YdlDownload video_token filepath) ;;
          r <- call (ydl_download video_token filepath) ;;
          match r with
          | inl e => failed e
          | inr _ => logging_info (str "Successfully downloaded: " ++ filename)
          end
      end
  end.

(** The body of the outer loop of [downloader]. *)
Definition download_chapter (course : Course) (token : json)
    (download_path chapter : pystr) : M W unit :=
  let chapter_index := list_index chapter (Dict.keys course) + 1 in
  let chapter_title := sanitize_filename chapter in
  let chapter_path := path_join download_path (numbered chapter_index chapter_title) in
  makedirs chapter_path ;;
  for_each (Dict.keys (at_key [] course chapter))
           (download_video course token chapter chapter_path).

Definition download_path_of (args : list pystr) : pystr :=
  if Nat.eqb (length args) 3 then nth 2 args [] else str "submeta-downloads".

Definition downloader (course : Course) (args : list pystr) (token : json)
  : M W unit :=
  let download_path := download_path_of args in
  makedirs download_path ;;
  for_each (Dict.keys course) (download_chapter course token download_path).

(** [main] returns [-1] ([Some (-1)]) or falls off its end ([None]). *)
Definition main (args : list pystr) : M W (option Z) :=
  if negb (existsb (Nat.eqb (length args)) [2; 3]) then
    print (str "usage: submeta-dl.py <URL> <download path(optional)>") ;;
    ret (Some (-1)%Z)
  else
    json_data <- get_json (nth 1 args []) ;;
    if negb (truthy json_data) then
      print (str "Failed to retrieve JSON data. Check the URL or logs for more information.") ;;
      ret (Some (-1)%Z)
    else
      course <- get_course json_data ;;
      match course with
      | Some ((_ :: _) as course) =>
          username <- input (str "Enter username: ") ;;
          password <- getpass (str "Enter password: ") ;;
          token <- get_token username password ;;
          if negb (truthy token) then
            print (str "Failed to login. Check credentials or logs for more information.") ;;
            ret (Some (-1)%Z)
          else
            downloader course args token ;;
            print (str "Download complete!") ;;
            ret None
      | _ =>
          (* [not course]: [None], or the empty dictionary *)
          print (str "Failed to parse course data. Check logs for more information.") ;;
          ret (Some (-1)%Z)
      end.

(** The [__main__] guard: [main(sys.argv)] is called as a statement and
    its value is dropped.  The interpreter exits with status 0 when the
    call returns, and with status 1 when an exception escapes from it. *)
Definition script (argv : list pystr) : M W Z :=
  mkM (fun w =>
    let '(r, w', t) := run (main argv) w in
    (inr match r with
         | inl _ => 1%Z
         | inr _ => 0%Z
         end, w', t)).

End Script.

(** ** Well-formed payloads and the course the specification describes *)

(** A content item of a chapter: a video with its title and identifier, or
    an item of another type. *)
Inductive item : Type :=
| Video (title : pystr) (id : json)
| Other.

Record chapter : Type := {
  chapter_title : pystr;
  chapter_contents : list item
}.

(** [v] is a JSON object that represents the item [it]; further fields are
    allowed. *)
Inductive is_item (v : json) : item -> Prop :=
| is_video title id :
    getitem v (str "__typename") = inr (JStr (str "Video")) ->
    getitem v (str "title") = inr (JStr title) ->
    getitem v (str "id") = inr id ->
    is_item v (Video title id)
| is_other ty :
    getitem v (str "__typename") = inr ty ->
    eq_str ty (str "Video") = false ->
    is_item v Other.

Definition is_chapter (v : json) (c : chapter) : Prop :=
  getitem v (str "title") = inr (JStr (chapter_title c)) /\
  exists items,
    getitem v (str "contents") = inr (JArr items) /\
    Forall2 is_item items (chapter_contents c).

(** The path [props/pageProps/course/chapters]. *)
Definition chapters_of (json_data : json) : result json :=
  props <- getitem json_data (str "props") ;;
  pageProps <- getitem props (str "pageProps") ;;
  course <- getitem pageProps (str "course") ;;
  getitem course (str "chapters").

Definition is_payload (json_data : json) (chapters : list chapter) : Prop :=
  exists items,
    chapters_of json_data = inr (JArr items) /\
    Forall2 is_chapter items chapters.

Section CourseSpec.
Context `{UnicodeData}.

Fixpoint video_entries (items : list item) : list (pystr * json) :=
  match items with
  | [] => []
  | Video title id :: items' =>
      (sanitize_filename title, id) :: video_entries items'
  | Other :: items' => video_entries items'
  end.

(** The course as the specification words it: one entry per chapter, and
    in it one entry per Video item, in document order. *)
Definition course_spec (chapters : list chapter)
  : list (pystr * list (pystr * json)) :=
  map (fun c => (sanitize_filename (chapter_title c),
                 video_entries (chapter_contents c))) chapters.

(** The entries with duplicate keys resolved as assignment resolves
    them, at both levels. *)
Definition course_entries (chapters : list chapter) : list (pystr * Chapter) :=
  map (fun e => (fst e, Dict.of_entries (snd e))) (course_spec chapters).

End CourseSpec.

(** The value assigned last to key [k] in a list of entries. *)
Definition last_entry {V} (k : pystr) (es : list (pystr * V)) : option V :=
  option_map snd (find (fun e => PyStr.eqb k (fst e)) (rev es)).

(** ** Concrete data for the examples *)

(** A sample Unicode database: the basic Cyrillic letters are alphabetic.
    The examples below use characters up to U+00FF only. *)
Definition sample_unicode : UnicodeData :=
  {| unicode_alnum := in_range 0x410 0x44F |}.

Definition obj (fields : list (string * json)) : json :=
  JObj (map (fun f => (str (fst f), snd f)) fields).

Definition video_item (title : string) (id : Z) : json :=
  obj [("__typename", JStr (str "Video")); ("title", JStr (str title));
       ("id", JInt id)]%string.

Definition chapter_item (title : string) (contents : list json) : json :=
  obj [("title", JStr (str title)); ("contents", JArr contents)]%string.

Definition payload (chapters : list json) : json :=
  obj [("props", obj [("pageProps", obj [("course",
         obj [("chapters", JArr chapters)])])])]%string.

(** Two chapters, of three and one videos; the first also holds a quiz. *)
Definition sample_payload : json :=
  payload
    [chapter_item "Intro: basics"
       [video_item "Welcome!" 11;
        obj [("__typename", JStr (str "Quiz")); ("id", JInt 12)]%string;
        video_item "Setup" 13;
        video_item "Q&A" 14];
     chapter_item "Wrap-up" [video_item "Bye" 21]].

Definition sample_chapters : list chapter :=
  [ {| chapter_title := str "Intro: basics";
       chapter_contents := [Video (str "Welcome!") (JInt 11); Other;
                            Video (str "Setup") (JInt 13);
                            Video (str "Q&A") (JInt 14)] |};
    {| chapter_title := str "Wrap-up";
       chapter_contents := [Video (str "Bye") (JInt 21)] |} ].

(** Two chapters of three and one videos whose titles sanitize to the same
    string, and whose first chapter repeats a video title. *)
Definition colliding_payload : json :=
  payload
    [chapter_item "Part 1?"
       [video_item "a/b" 1; video_item "a:b" 2; video_item "c" 3];
     chapter_item "Part 1!" [video_item "d" 4]].

Definition colliding_chapters : list chapter :=
  [ {| chapter_title := str "Part 1?";
       chapter_contents := [Video (str "a/b") (JInt 1);
                            Video (str "a:b") (JInt 2);
                            Video (str "c") (JInt 3)] |};
    {| chapter_title := str "Part 1!";
       chapter_contents := [Video (str "d") (JInt 4)] |} ].

(** The command line of the sample runs. *)
Definition prog : pystr := str "submeta-dl.py".
Definition course_url : pystr := str "https://submeta.io/course".

(** A scripted world: fixed answers, no state. *)
Record scenario : Type := {
  page : result (list node);
  loads : pystr -> result json;
  login : result json;
  authorize : json -> result json;
  fetch : json -> result unit;
  mkdir : pystr -> result unit
}.

Definition scripted (s : scenario) : World unit := {|
  session_get := fun _ w => (page s, w);
  json_loads := loads s;
  session_post := fun req w =>
    match req with
    | Login _ _ => (login s, w)
    | GetVideoForWatchAuth _ id => (authorize s id, w)
    end;
  ydl_download := fun video_token _ w => (fetch s video_token, w);
  os_makedirs := fun path w => (mkdir s path, w);
  console_input := fun _ w => (inr (str "user"), w);
  console_getpass := fun _ w => (inr (str "secret"), w)
|}.

(** A page whose only typed element is a script holding [text]. *)
Definition page_with_script (text : string) : list node :=
  [Tag (str "html") []
     [Tag (str "head") [] [Tag (str "title") [] [NavigableString (str "Course")]];
      Tag (str "body") []
        [Tag (str "div") [(str "id", str "__next")] [];
         Tag (str "script") [(str "id", str "__NEXT_DATA__");
                             (str "type", str "application/json")]
           [NavigableString (str text)]]]].

(** A page without any [type="application/json"] element. *)
Definition page_without_json : list node :=
  [Tag (str "html") []
     [Tag (str "body") []
        [Tag (str "script") [(str "type", str "text/javascript")]
           [NavigableString (str "var x = 1;")];
         Tag (str "p") [] [NavigableString (str "Not found")]]]].

Definition login_ok : json :=
  obj [("data", obj [("login", obj [("token", JStr (str "tok")); ("user", JNull);
                                    ("errors", JNull)])])]%string.

(** A login response without the token field. *)
Definition login_without_token : json :=
  obj [("data", obj [("login", obj [("user", JNull);
          ("errors", JArr [obj [("key", JStr (str "password"));
                                ("message", JStr (str "invalid"))]])])])]%string.

Definition watch_auth (stream_token : string) : json :=
  obj [("data", obj [("result", obj [("video",
         obj [("videoRef", JNull); ("token", JStr (str stream_token))]);
         ("isAuthorized", JBool true); ("errors", JNull)])])]%string.

(** The world of a run: the page carries [data]; the login answers
    [login_response]; authorizing the video with identifier [JInt 2]
    fails with HTTP 503 when [fail_second] is set. *)
Definition world_of_run (data : json) (login_response : json)
    (fail_second : bool) : World unit :=
  scripted {|
    page := inr (page_with_script "{...}");
    loads := fun _ => inr data;
    login := inr login_response;
    authorize := fun id =>
      match id with
      | JInt 2 => if fail_second then inl (HTTPError 503) else inr (watch_auth "s")
      | _ => inr (watch_auth "s")
      end;
    fetch := fun _ => inr tt;
    mkdir := fun _ => inr tt
  |}.

Definition three_videos : json :=
  payload [chapter_item "One"
             [video_item "a" 1; video_item "b" 2; video_item "c" 3]].

(** ** Observations on traces and dictionaries *)

(** No element of the subtree carries a [type] attribute equal to [ty]. *)
Inductive lacks_type (ty : pystr) : node -> Prop :=
| lacks_string s : lacks_type ty (NavigableString s)
| lacks_tag name attrs contents :
    (forall v, In (str "type", v) attrs -> v <> ty) ->
    Forall (lacks_type ty) contents ->
    lacks_type ty (Tag name attrs contents).

(** The directories a trace asks for. *)
Definition made (e : event) : list pystr :=
  match e with
  | Makedirs path => [path]
  | _ => []
  end.

(** The video identifiers a trace asks the platform to authorize. *)
Definition attempted (e : event) : list json :=
  match e with
  | HttpPost (GetVideoForWatchAuth _ id) => [id]
  | _ => []
  end.

(** The output templates a trace hands to the download tool. *)
Definition outtmpl (e : event) : list pystr :=
  match e with
  | YdlDownload _ o => [o]
  | _ => []
  end.

Definition is_prompt (e : event) : bool :=
  match e with
  | Input _ | Getpass _ => true
  | _ => false
  end.

(** The events of a download attempt: the authorization request and the
    call of the download tool. *)
Definition is_download (e : event) : bool :=
  match e with
  | HttpPost (GetVideoForWatchAuth _ _) | YdlDownload _ _ => true
  | _ => false
  end.

Definition is_log (e : event) : bool :=
  match e with
  | LogInfo _ | LogError _ _ => true
  | _ => false
  end.

(** The items of a list with their 1-based positions. *)
Definition enumerate {A} (l : list A) : list (nat * A) :=
  combine (seq 1 (length l)) l.

(** The invariant of Python dictionaries, at both levels of a course: no
    key occurs twice. *)
Definition wf_course (course : Course) : Prop :=
  NoDup (Dict.keys course) /\
  Forall (fun e => NoDup (Dict.keys (snd e))) course.

(** The identifiers stored in a course, in order. *)
Definition video_ids (course : Course) : list json :=
  flat_map (fun e => map snd (snd e)) course.

(** [d] is what remains of the entries [es] when entries with the same key
    collapse: every key occurs once, it carries the value of the last
    entry with that key, and each collision makes [d] shorter. *)
Definition collapses {V} (es : list (pystr * V)) (d : Dict.t V) : Prop :=
  NoDup (Dict.keys d) /\
  (forall k, Dict.get k d = last_entry k es) /\
  length d <= length es /\
  (~ NoDup (map fst es) -> length d < length es).

Section Layout.
Context `{UnicodeData}.

(** The entry [name] directly under the directory [root]. *)
Definition under (root name : pystr) : pystr :=
  if Nat.eqb (length root) 0 || endswith [slash] root then root ++ name
  else root ++ [slash] ++ name.

(** What it means for the string [d] to be the decimal numeral of [n]:
    it consists of digits, at least one, without a leading zero unless it
    is [0] itself, and its value is [n]. *)
Definition is_digit (c : char) : Prop := (48 <= c <= 57)%N.

Definition digit_value (c : char) : nat := N.to_nat (c - 48).

Definition numeral_value (d : pystr) : nat :=
  fold_left (fun acc c => 10 * acc + digit_value c) d 0.

Definition is_numeral (n : nat) (d : pystr) : Prop :=
  d <> [] /\
  Forall is_digit d /\
  (forall rest, d = 48%N :: rest -> rest = []) /\
  numeral_value d = n.

(** The name the specification prescribes for the item at position [i]:
    [{i}. {title}], the position in decimal, a dot, a space, the title. *)
Definition label (i : nat) (title : pystr) : pystr :=
  of_nat i ++ [dot; space] ++ title.

(** The directories and file stems the specification prescribes: chapter
    [i] goes to [{i}. {title}], its video [j] to [{j}. {title}]. *)
Definition chapter_dir (root : pystr) (ie : nat * (pystr * Chapter)) : pystr :=
  under root (label (fst ie) (sanitize_filename (fst (snd ie)))).

Definition video_stem (jv : nat * (pystr * json)) : pystr :=
  label (fst jv) (sanitize_filename (fst (snd jv))).

(** The output template of a file stem in a directory. *)
Definition template (dir stem : pystr) : pystr :=
  under dir (stem ++ str ".%(ext)s").

Definition chapter_dirs (root : pystr) (course : Course) : list pystr :=
  map (chapter_dir root) (enumerate course).

Definition video_stems (ch : Chapter) : list pystr :=
  map video_stem (enumerate ch).

(** The output templates: [{root}/{i}. {chapter}/{j}. {video}.%(ext)s]. *)
Definition templates (root : pystr) (course : Course) : list pystr :=
  flat_map
    (fun ie => map (template (chapter_dir root ie))
                   (video_stems (snd (snd ie))))
    (enumerate course).

End Layout.

(** ** The download plan

    What the specification prescribes for the download loop, stated on the
    answers of the platform and of the download tool. *)

Section Plan.
Context `{UnicodeData} {W : Type} `{World W}.

(** A part of a run: from a world, the events it emits and the world it
    leaves. *)
Definition step : Type := W -> list event -> W -> Prop.

(** Steps in sequence: each starts in the world the one before left. *)
Inductive steps : list step -> step :=
| steps_nil w : steps [] w [] w
| steps_cons (s : step) ss w t1 w1 t2 w2 :
    s w t1 w1 -> steps ss w1 t2 w2 -> steps (s :: ss) w (t1 ++ t2) w2.

(** The directory [dir] is created. *)
Definition created (dir : pystr) : step :=
  fun w t w' => os_makedirs dir w = (inr tt, w') /\ t = [Makedirs dir].

(** The line logged when the video with file stem [stem] fails with [e]. *)
Definition failure_line (stem : pystr) (e : pyexc) : event :=
  LogError
    ((if is_network_error e then str "Network error while downloading "
      else str "Failed to download ") ++ stem ++ str ": ")
    (Exc e).

(** One video: the platform is asked to authorize the video [id] with the
    session token.  When the request fails, or its answer holds no stream
    token, the failure is logged.  Otherwise the stream token is handed to
    the download tool together with the output template, and the success
    or the failure of the tool is logged.  In either case the step ends
    normally. *)
Inductive attempt (token id : json) (stem tmpl : pystr) (w : W)
  : list event -> W -> Prop :=
| not_authorized e w1 :
    session_post (GetVideoForWatchAuth token id) w = (inl e, w1) ->
    attempt token id stem tmpl w
      [HttpPost (GetVideoForWatchAuth token id); failure_line stem e] w1
| not_resolved data e w1 :
    session_post (GetVideoForWatchAuth token id) w = (inr data, w1) ->
    video_token_of data = inl e ->
    attempt token id stem tmpl w
      [HttpPost (GetVideoForWatchAuth token id); failure_line stem e] w1
| not_downloaded data video_token e w1 w2 :
    session_post (GetVideoForWatchAuth token id) w = (inr data, w1) ->
    video_token_of data = inr video_token ->
    ydl_download video_token tmpl w1 = (inl e, w2) ->
    attempt token id stem tmpl w
      [HttpPost (GetVideoForWatchAuth token id);
       YdlDownload video_token tmpl;
       failure_line stem e] w2
| downloaded data video_token w1 w2 :
    session_post (GetVideoForWatchAuth token id) w = (inr data, w1) ->
    video_token_of data = inr video_token ->
    ydl_download video_token tmpl w1 = (inr tt, w2) ->
    attempt token id stem tmpl w
      [HttpPost (GetVideoForWatchAuth token id);
       YdlDownload video_token tmpl;
       LogInfo (str "Successfully downloaded: " ++ stem)] w2.

(** The video at position [j] of a chapter whose directory is [dir]. *)
Definition video_plan (token : json) (dir : pystr)
    (jv : nat * (pystr * json)) : step :=
  attempt token (snd (snd jv)) (video_stem jv) (template dir (video_stem jv)).

(** The chapter at position [i]: its directory is created, then its videos
    are attempted in order. *)
Definition chapter_plan (token : json) (root : pystr)
    (ie : nat * (pystr * Chapter)) : step :=
  steps (created (chapter_dir root ie)
           :: map (video_plan token (chapter_dir root ie))
                  (enumerate (snd (snd ie)))).

(** The course: the root is created, then the chapters follow in order. *)
Definition course_plan (token : json) (root : pystr) (course : Course)
  : step :=
  steps (created root :: map (chapter_plan token root) (enumerate course)).

(** Every directory of the layout can be created, whenever it is asked
    for. *)
Definition creatable (root : pystr) (course : Course) : Prop :=
  forall (p : pystr) (w : W),
    In p (root :: chapter_dirs root course) ->
    fst (os_makedirs p w) = inr tt.

End Plan.

Definition is_video_item (it : item) : bool :=
  match it with
  | Video _ _ => true
  | Other => false
  end.

(** A boolean test for duplicate-free lists of strings. *)
Fixpoint nodupb (l : list pystr) : bool :=
  match l with
  | [] => true
  | k :: l' => negb (existsb (PyStr.eqb k) l') && nodupb l'
  end.

Section Invariant.
Context `{UnicodeData}.

(** What holds of every entry of a course under construction: its key is
    a fixed point of sanitization, and so is every key of its chapter,
    which has no duplicate key. *)
Definition entry_ok (e : pystr * Chapter) : Prop :=
  sanitize_filename (fst e) = fst e /\
  NoDup (Dict.keys (snd e)) /\
  Forall (fun v => sanitize_filename (fst v) = fst v) (snd e).

Definition course_inv (course : Course) : Prop :=
  NoDup (Dict.keys course) /\ Forall entry_ok course.

End Invariant.

(** A parsed course with two chapters; the second has no video. *)
Definition sample_course : Course :=
  [(str "Intro_ basics", [(str "Welcome_", JInt 11); (str "Setup", JInt 13)]);
   (str "Appendix", [])].

(** ** Further observations *)

(** The nodes of a subtree in document order, the root first. *)
Fixpoint preorder (n : node) : list node :=
  n :: match n with
       | Tag _ _ contents => flat_map preorder contents
       | NavigableString _ => []
       end.

(** An element whose [type] attribute equals [ty]. *)
Definition is_typed (ty : pystr) (n : node) : bool :=
  match n with
  | Tag _ attrs _ => has_type ty attrs
  | NavigableString _ => false
  end.

(** The distinct strings of a list, each at its first occurrence. *)
Fixpoint first_occurrences (l : list pystr) : list pystr :=
  match l with
  | [] => []
  | k :: l' =>
      k :: filter (fun k' => negb (PyStr.eqb k' k)) (first_occurrences l')
  end.

(** The identifiers of the Video items of a chapter, in document order. *)
Definition item_ids (items : list item) : list json :=
  flat_map (fun it => match it with Video _ id => [id] | Other => [] end)
           items.

(** A content item the inner loop of [get_course] cannot read: it has no
    [__typename], or it is a Video without [title] or without [id]. *)
Inductive unreadable_item (v : json) : Prop :=
| no_typename e :
    getitem v (str "__typename") = inl e -> unreadable_item v
| no_video_title e :
    getitem v (str "__typename") = inr (JStr (str "Video")) ->
    getitem v (str "title") = inl e -> unreadable_item v
| no_video_id e :
    getitem v (str "__typename") = inr (JStr (str "Video")) ->
    getitem v (str "id") = inl e -> unreadable_item v.

(** A chapter the outer loop cannot read: it has no [title], no
    [contents], or an unreadable item among its contents. *)
Inductive unreadable_chapter (v : json) : Prop :=
| no_title e : getitem v (str "title") = inl e -> unreadable_chapter v
| no_contents e : getitem v (str "contents") = inl e -> unreadable_chapter v
| bad_item items it :
    getitem v (str "contents") = inr (JArr items) ->
    In it items -> unreadable_item it -> unreadable_chapter v.

(** The events the download loop may emit when it works with [token]. *)
Definition downloader_event (token : json) (e : event) : Prop :=
  match e with
  | Makedirs _ | YdlDownload _ _ | LogInfo _ | LogError _ (Exc _) => True
  | HttpPost (GetVideoForWatchAuth t _) => t = token
  | _ => False
  end.

(** The four messages [main] prints before it returns [-1]. *)
Definition failure_messages : list pystr :=
  [str "usage: submeta-dl.py <URL> <download path(optional)>";
   str "Failed to retrieve JSON data. Check the URL or logs for more information.";
   str "Failed to parse course data. Check logs for more information.";
   str "Failed to login. Check credentials or logs for more information."].

(** The calls [main] and [downloader] make outside every [try] block. *)
Definition is_unguarded (e : event) : bool :=
  match e with
  | Makedirs _ | Input _ | Getpass _ => true
  | _ => false
  end.

(** The separator [os.path.join] puts after [root]. *)
Definition separator (root : pystr) : pystr :=
  if Nat.eqb (length root) 0 || endswith [slash] root then [] else [slash].

(** A login response whose token is the empty string. *)
Definition login_with_empty_token : json :=
  obj [("data", obj [("login", obj [("token", JStr []); ("user", JNull)])])]%string.

(** A world in which every authorization yields the stream token ["s"]
    and every download succeeds. *)
Definition world_all_ok (data : json) : World unit :=
  scripted {| page := inr (page_with_script "{...}");
              loads := fun _ => inr data;
              login := inr login_ok;
              authorize := fun _ => inr (watch_auth "s");
              fetch := fun _ => inr tt;
              mkdir := fun _ => inr tt |}.

(** A world whose file system refuses the empty path, as [os.makedirs('')]
    does ([FileNotFoundError], errno 2). *)
Definition world_without_empty_path (data : json) : World unit :=
  scripted {| page := inr (page_with_script "{...}");
              loads := fun _ => inr data;
              login := inr login_ok;
              authorize := fun _ => inr (watch_auth "s");
              fetch := fun _ => inr tt;
              mkdir := fun path =>
                match path with
                | [] => inl (OSError 2)
                | _ => inr tt
                end |}.

(** A world in which every authorization request fails with HTTP 503. *)
Definition world_unauthorized (data : json) : World unit :=
  scripted {| page := inr (page_with_script "{...}");
              loads := fun _ => inr data;
              login := inr login_ok;
              authorize := fun _ => inl (HTTPError 503);
              fetch := fun _ => inr tt;
              mkdir := fun _ => inr tt |}.

(** A payload whose second chapter has no title. *)
Definition payload_without_title : json :=
  payload [chapter_item "Ok" [video_item "a" 1];
           obj [("contents", JArr [video_item "b" 2])]%string].

(** A page with two [application/json] scripts, the first one empty. *)
Definition page_two_scripts : list node :=
  [Tag (str "html") []
     [Tag (str "script") [(str "type", str "application/json")] [];
      Tag (str "script") [(str "type", str "application/json")]
        [NavigableString (str "{...}")]]].

(** * Properties *)

(** ** Strings and sanitization *)

Lemma eqb_eq (a b : pystr) : PyStr.eqb a b = true <-> a = b.
Proof.
  revert b; induction a as [|x a IH]; intros [|y b]; simpl; split;
    try congruence; try reflexivity.
  - intros E. apply andb_true_iff in E as [E1 E2].
    apply N.eqb_eq in E1. apply IH in E2. congruence.
  - intros E. injection E as -> ->.
    rewrite N.eqb_refl. simpl. now apply IH.
Qed.

Lemma eqb_refl (a : pystr) : PyStr.eqb a a = true.
Proof. now apply eqb_eq. Qed.

Lemma eqb_neq (a b : pystr) : PyStr.eqb a b = false <-> a <> b.
Proof.
  rewrite <- eqb_eq. destruct (PyStr.eqb a b); intuition congruence.
Qed.

Lemma eqb_sym (a b : pystr) : PyStr.eqb a b = PyStr.eqb b a.
Proof.
  destruct (PyStr.eqb b a) eqn:E.
  - apply eqb_eq in E as ->. apply eqb_refl.
  - apply eqb_neq. apply eqb_neq in E. congruence.
Qed.

Section SanitizeFacts.
Context `{UnicodeData}.

Lemma sanitize_item_char (c : char) : sanitize_item [c] = [sanitize_char c].
Proof.
  unfold sanitize_item, sanitize_char, kept, str_isalnum, space, dot,
    underscore. simpl.
  now destruct (isalnum c), (N.eqb c 32), (N.eqb c 46), (N.eqb c 95).
Qed.

Lemma sanitize_filename_map (s : pystr) :
  sanitize_filename s = map sanitize_char s.
Proof.
  unfold sanitize_filename, sanitize_items, join, chars.
  induction s as [|c s IH]; simpl; [reflexivity|].
  rewrite sanitize_item_char. simpl. now rewrite IH.
Qed.

Lemma ascii_alnum_lt (c : char) : ascii_alnum c = true -> (c < 128)%N.
Proof.
  unfold ascii_alnum, in_range. intros E.
  repeat (apply orb_true_iff in E as [E|E]);
    apply andb_true_iff in E as [_ E]; apply N.leb_le in E; lia.
Qed.

Lemma isalnum_ascii (c : char) :
  isalnum c && (c <? 128)%N = ascii_alnum c.
Proof.
  unfold isalnum. change 0x80%N with 128%N.
  destruct (c <? 128)%N eqn:E.
  - apply andb_true_r.
  - rewrite andb_false_r. destruct (ascii_alnum c) eqn:A; [|reflexivity].
    apply ascii_alnum_lt in A. apply N.ltb_ge in E. lia.
Qed.

Lemma kept_spec (c : char) : kept c = spec_allowed c || isalnum c.
Proof.
  unfold kept, spec_allowed.
  destruct (ascii_alnum c) eqn:A.
  - rewrite <- isalnum_ascii in A. apply andb_true_iff in A as [-> _].
    reflexivity.
  - simpl. destruct (isalnum c), (N.eqb c space), (N.eqb c dot),
      (N.eqb c underscore); reflexivity.
Qed.

Lemma kept_sanitize_char (c : char) : kept (sanitize_char c) = true.
Proof.
  unfold sanitize_char. destruct (kept c) eqn:E; [exact E|].
  unfold kept. rewrite N.eqb_refl. apply orb_true_r.
Qed.

Lemma sanitize_char_kept (c : char) : kept c = true -> sanitize_char c = c.
Proof. unfold sanitize_char. now intros ->. Qed.

Lemma sanitize_filename_fixed (s : pystr) :
  forallb kept s = true -> sanitize_filename s = s.
Proof.
  rewrite sanitize_filename_map.
  induction s as [|c s IH]; simpl; [reflexivity|].
  intros E. apply andb_true_iff in E as [E1 E2].
  now rewrite sanitize_char_kept, IH.
Qed.

Lemma sanitize_filename_kept (s : pystr) :
  forallb kept (sanitize_filename s) = true.
Proof.
  rewrite sanitize_filename_map.
  induction s as [|c s IH]; simpl; [reflexivity|].
  now rewrite kept_sanitize_char.
Qed.

(** C3, as amended.  [sanitize_filename] keeps every character that is in
    [[A-Za-z0-9 ._]] or alphanumeric for [str.isalnum] (which, beyond
    ASCII, holds of letters and digits of other scripts) and replaces every
    other character by an underscore; the result has the length of the
    input and consists of such characters only; below U+0080 the
    alphanumeric characters are exactly [[A-Za-z0-9]]. *)
Theorem sanitize_filename_chars (s : pystr) :
  sanitize_filename s =
    map (fun c => if spec_allowed c || isalnum c then c else underscore) s /\
  length (sanitize_filename s) = length s /\
  Forall (fun c => spec_allowed c || isalnum c = true) (sanitize_filename s) /\
  (forall c, isalnum c && (c <? 128)%N = ascii_alnum c).
Proof.
  assert (E : sanitize_filename s =
    map (fun c => if spec_allowed c || isalnum c then c else underscore) s).
  { rewrite sanitize_filename_map. apply map_ext. intros c.
    unfold sanitize_char. now rewrite kept_spec. }
  repeat split.
  - exact E.
  - rewrite E. apply length_map.
  - apply Forall_forall. intros c Hc.
    pose proof (sanitize_filename_kept s) as K.
    rewrite forallb_forall in K. rewrite <- kept_spec. now apply K.
  - apply isalnum_ascii.
Qed.

Lemma sanitize_filename_twice (s : pystr) :
  sanitize_filename (sanitize_filename s) = sanitize_filename s.
Proof.
  apply sanitize_filename_fixed, sanitize_filename_kept.
Qed.

End SanitizeFacts.

(** C3 fails as stated: the letter U+00E9 is outside [[A-Za-z0-9 ._]], yet
    it is kept, whatever the Unicode database says beyond Latin-1. *)
Lemma sanitize_filename_keeps_e_acute :
  spec_sanitize [0xE9%N] = [underscore] /\
  forall U : UnicodeData, @sanitize_filename U [0xE9%N] = [0xE9%N].
Proof. split; [reflexivity | intros U; reflexivity]. Qed.

(** ** Dictionaries *)

Section DictFacts.
Context {V : Type}.
Implicit Types (d : Dict.t V) (es : list (pystr * V)) (k : pystr) (v : V).

Lemma get_set k k' v d :
  Dict.get k (Dict.set k' v d) =
    if PyStr.eqb k k' then Some v else Dict.get k d.
Proof.
  induction d as [|[k0 v0] d IH]; simpl; [reflexivity|].
  destruct (PyStr.eqb k' k0) eqn:E0; simpl.
  - apply eqb_eq in E0 as ->. now destruct (PyStr.eqb k k0).
  - rewrite IH. destruct (PyStr.eqb k k0) eqn:E1; [|reflexivity].
    apply eqb_eq in E1 as ->. now rewrite (eqb_sym k0 k'), E0.
Qed.

Lemma get_set_same k v d : Dict.get k (Dict.set k v d) = Some v.
Proof. now rewrite get_set, eqb_refl. Qed.

Lemma set_set k v v' d : Dict.set k v' (Dict.set k v d) = Dict.set k v' d.
Proof.
  induction d as [|[k0 v0] d IH]; simpl.
  - now rewrite eqb_refl.
  - destruct (PyStr.eqb k k0) eqn:E; simpl.
    + now rewrite eqb_refl.
    + now rewrite E, IH.
Qed.

Lemma set_get k v d : Dict.get k d = Some v -> Dict.set k v d = d.
Proof.
  induction d as [|[k0 v0] d IH]; simpl; [discriminate|].
  destruct (PyStr.eqb k k0) eqn:E; intros G.
  - apply eqb_eq in E. congruence.
  - f_equal. now apply IH.
Qed.

Lemma in_keys_set k k' v d :
  In k (Dict.keys (Dict.set k' v d)) <-> k = k' \/ In k (Dict.keys d).
Proof.
  induction d as [|[k0 v0] d IH]; simpl.
  - intuition congruence.
  - destruct (PyStr.eqb k' k0) eqn:E; simpl.
    + apply eqb_eq in E as ->. intuition congruence.
    + rewrite IH. intuition congruence.
Qed.

Lemma set_fresh k v d :
  ~ In k (Dict.keys d) -> Dict.set k v d = d ++ [(k, v)].
Proof.
  induction d as [|[k0 v0] d IH]; simpl; [reflexivity|].
  intros N. destruct (PyStr.eqb k k0) eqn:E.
  - apply eqb_eq in E. exfalso. apply N. now left.
  - rewrite IH; [reflexivity|]. intros I. apply N. now right.
Qed.

Lemma NoDup_keys_set k v d :
  NoDup (Dict.keys d) -> NoDup (Dict.keys (Dict.set k v d)).
Proof.
  induction d as [|[k0 v0] d IH]; simpl; intros N.
  - constructor; [intros [] | constructor].
  - inversion N as [|? ? N1 N2]; subst.
    destruct (PyStr.eqb k k0) eqn:E; simpl.
    + apply eqb_eq in E as ->. now constructor.
    + constructor; [|now apply IH].
      rewrite in_keys_set. intros [->|I]; [|now apply N1].
      now rewrite eqb_refl in E.
Qed.

Lemma get_in_keys k d : In k (Dict.keys d) <-> Dict.get k d <> None.
Proof.
  induction d as [|[k0 v0] d IH]; simpl; [intuition congruence|].
  destruct (PyStr.eqb k k0) eqn:E.
  - apply eqb_eq in E as ->. intuition congruence.
  - apply eqb_neq in E. rewrite <- IH. intuition congruence.
Qed.

Lemma of_entries_snoc es e :
  Dict.of_entries (es ++ [e]) = Dict.set (fst e) (snd e) (Dict.of_entries es).
Proof. unfold Dict.of_entries. now rewrite fold_left_app. Qed.

Lemma last_entry_snoc k es e :
  last_entry k (es ++ [e]) =
    if PyStr.eqb k (fst e) then Some (snd e) else last_entry k es.
Proof.
  unfold last_entry. rewrite rev_app_distr. simpl.
  now destruct (PyStr.eqb k (fst e)).
Qed.

Lemma get_of_entries k es : Dict.get k (Dict.of_entries es) = last_entry k es.
Proof.
  induction es as [|e es IH] using rev_ind; [reflexivity|].
  now rewrite of_entries_snoc, last_entry_snoc, get_set, IH.
Qed.

Lemma NoDup_of_entries es : NoDup (Dict.keys (Dict.of_entries es)).
Proof.
  induction es as [|e es IH] using rev_ind; [constructor|].
  rewrite of_entries_snoc. now apply NoDup_keys_set.
Qed.

Lemma in_keys_of_entries k es :
  In k (Dict.keys (Dict.of_entries es)) <-> In k (map fst es).
Proof.
  induction es as [|e es IH] using rev_ind; [reflexivity|].
  rewrite of_entries_snoc, in_keys_set, IH, map_app, in_app_iff. simpl.
  intuition congruence.
Qed.

Lemma of_entries_NoDup es : NoDup (map fst es) -> Dict.of_entries es = es.
Proof.
  induction es as [|e es IH] using rev_ind; [reflexivity|].
  rewrite map_app. simpl. intros N.
  apply NoDup_remove in N as [N1 N2]. rewrite app_nil_r in N1, N2.
  rewrite of_entries_snoc, IH by assumption.
  rewrite set_fresh by assumption. now destruct e.
Qed.

Lemma length_of_entries es : length (Dict.of_entries es) <= length es.
Proof.
  rewrite <- (length_map fst (Dict.of_entries es)), <- (length_map fst es).
  apply NoDup_incl_length; [apply NoDup_of_entries|].
  intros k. apply in_keys_of_entries.
Qed.

Lemma length_of_entries_collision es :
  ~ NoDup (map fst es) -> length (Dict.of_entries es) < length es.
Proof.
  intros N. pose proof (length_of_entries es) as L.
  destruct (Nat.eq_dec (length (Dict.of_entries es)) (length es)) as [E|E];
    [|lia].
  exfalso. apply N.
  apply NoDup_incl_NoDup with (l := Dict.keys (Dict.of_entries es)).
  - apply NoDup_of_entries.
  - unfold Dict.keys. rewrite !length_map. lia.
  - intros k. apply in_keys_of_entries.
Qed.

End DictFacts.

(** ** get_course on well-formed payloads *)

Lemma str_items_strs (l : list pystr) : str_items (map JStr l) = inr l.
Proof.
  induction l as [|s l IH]; simpl; [reflexivity|]. now rewrite IH.
Qed.

Section GetCourseFacts.
Context `{UnicodeData}.

Lemma sanitize_value_str (s : pystr) :
  sanitize_value (JStr s) = inr (sanitize_filename s).
Proof.
  unfold sanitize_value. simpl. now rewrite str_items_strs.
Qed.

(** The inner loop assigns the chapter's video entries, in order, to the
    dictionary stored under the chapter's key. *)
Lemma inner_loop (chapter_title : pystr) (videos : list json)
    (items : list item) :
  Forall2 is_item videos items ->
  forall (course : Course) (ch : Chapter),
    Dict.get chapter_title course = Some ch ->
    foldM (add_video chapter_title) videos course =
      inr (Dict.set chapter_title
             (fold_left (fun d e => Dict.set (fst e) (snd e) d)
                        (video_entries items) ch)
             course).
Proof.
  induction 1 as [|v it videos items Hv _ IH]; intros course ch G; simpl.
  - now rewrite set_get.
  - destruct Hv as [title id T1 T2 T3 | ty T1 T2];
      unfold add_video at 1; rewrite T1; simpl.
    + rewrite T2. simpl.
      rewrite sanitize_value_str, T3, G. simpl.
      rewrite (IH _ (Dict.set (sanitize_filename title) id ch))
        by apply get_set_same.
      now rewrite set_set.
    + rewrite T2. simpl. now apply IH.
Qed.

Lemma add_chapter_ok (course : Course) (v : json) (c : chapter) :
  is_chapter v c ->
  add_chapter course v =
    inr (Dict.set (sanitize_filename (chapter_title c))
                  (Dict.of_entries (video_entries (chapter_contents c)))
                  course).
Proof.
  intros [T (videos & C & F)]. unfold add_chapter.
  rewrite T. simpl. rewrite sanitize_value_str, C. simpl.
  rewrite (inner_loop _ _ _ F _ []) by apply get_set_same.
  now rewrite set_set.
Qed.

Lemma outer_loop (vs : list json) (chapters : list chapter) :
  Forall2 is_chapter vs chapters ->
  forall course : Course,
    foldM add_chapter vs course =
      inr (fold_left (fun d e => Dict.set (fst e) (snd e) d)
                     (course_entries chapters) course).
Proof.
  induction 1 as [|v c vs chapters Hv _ IH]; intros course; simpl.
  - reflexivity.
  - rewrite (add_chapter_ok _ _ _ Hv). simpl. apply IH.
Qed.

(** On a well-formed payload the parser succeeds, and its result is the
    dictionary obtained by assigning the chapters, and in each chapter the
    videos, in document order. *)
Lemma parse_course_ok (json_data : json) (chapters : list chapter) :
  is_payload json_data chapters ->
  parse_course json_data = inr (Dict.of_entries (course_entries chapters)).
Proof.
  intros (vs & P & F). unfold parse_course. unfold chapters_of in P.
  destruct (getitem json_data (str "props")) as [e|props]; [discriminate|].
  simpl in *.
  destruct (getitem props (str "pageProps")) as [e|pageProps];
    [discriminate|].
  simpl in *.
  destruct (getitem pageProps (str "course")) as [e|course]; [discriminate|].
  simpl in *. rewrite P. simpl.
  apply (outer_loop _ _ F).
Qed.

Lemma course_entries_NoDup (chapters : list chapter) :
  Forall (fun e => NoDup (map fst (snd e))) (course_spec chapters) ->
  course_entries chapters = course_spec chapters.
Proof.
  unfold course_entries. induction 1 as [|[k es] l N _ IH]; simpl.
  - reflexivity.
  - simpl in N. now rewrite IH, of_entries_NoDup.
Qed.

End GetCourseFacts.

Lemma nodupb_NoDup (l : list pystr) : nodupb l = true -> NoDup l.
Proof.
  induction l as [|k l IH]; simpl; intros E; constructor.
  - apply andb_true_iff in E as [E _]. intros I.
    apply negb_true_iff in E.
    assert (X : existsb (PyStr.eqb k) l = true)
      by (apply existsb_exists; exists k; split; [exact I | apply eqb_refl]).
    congruence.
  - apply andb_true_iff in E as [_ E]. now apply IH.
Qed.

Lemma bind_inr {A B} (m : result A) (k : A -> result B) (r : B) :
  bind m k = inr r -> exists a, m = inr a /\ k a = inr r.
Proof.
  destruct m as [e|a]; simpl; [discriminate|]. intros E. now exists a.
Qed.

Lemma foldM_inv {A B} (P : A -> Prop) (f : A -> B -> result A) (l : list B) :
  (forall a b a', P a -> f a b = inr a' -> P a') ->
  forall a a', P a -> foldM f l a = inr a' -> P a'.
Proof.
  intros step. induction l as [|b l IH]; simpl; intros a a' Pa E.
  - now injection E as <-.
  - apply bind_inr in E as (a1 & E1 & E2). eauto.
Qed.

Lemma get_In {V} (k : pystr) (v : V) (d : Dict.t V) :
  Dict.get k d = Some v -> In (k, v) d.
Proof.
  induction d as [|[k0 v0] d IH]; simpl; [discriminate|].
  destruct (PyStr.eqb k k0) eqn:E; intros G.
  - apply eqb_eq in E. left. congruence.
  - right. now apply IH.
Qed.

Lemma Forall_set {V} (P : pystr * V -> Prop) (k : pystr) (v : V)
    (d : Dict.t V) :
  P (k, v) -> Forall P d -> Forall P (Dict.set k v d).
Proof.
  intros Pk. induction 1 as [|[k0 v0] d P0 Pd IH]; simpl.
  - now constructor.
  - destruct (PyStr.eqb k k0); now constructor.
Qed.

Section InvariantFacts.
Context `{UnicodeData}.

Lemma isalnum_kept (c : char) : isalnum c = true -> kept c = true.
Proof. unfold kept. now intros ->. Qed.

Lemma sanitize_item_kept (c : pystr) : forallb kept (sanitize_item c) = true.
Proof.
  unfold sanitize_item.
  destruct (str_isalnum c) eqn:A; simpl.
  - destruct c as [|x c]; [discriminate|]. unfold str_isalnum in A.
    rewrite forallb_forall in *. intros y Hy. now apply isalnum_kept, A.
  - destruct (PyStr.eqb c (str " ")) eqn:E1;
      [apply eqb_eq in E1 as ->; reflexivity|].
    destruct (PyStr.eqb c (str ".")) eqn:E2;
      [apply eqb_eq in E2 as ->; reflexivity|].
    destruct (PyStr.eqb c (str "_")) eqn:E3;
      [apply eqb_eq in E3 as ->; reflexivity|].
    reflexivity.
Qed.

Lemma sanitize_items_kept (cs : list pystr) :
  forallb kept (sanitize_items cs) = true.
Proof.
  unfold sanitize_items, join.
  induction cs as [|c cs IH]; simpl; [reflexivity|].
  now rewrite forallb_app, sanitize_item_kept, IH.
Qed.

(** Whatever value it is given, [sanitize_filename] returns a fixed point
    of itself when it returns. *)
Lemma sanitize_value_fixed (v : json) (s : pystr) :
  sanitize_value v = inr s -> sanitize_filename s = s.
Proof.
  unfold sanitize_value. intros E.
  apply bind_inr in E as (items & _ & E).
  apply bind_inr in E as (cs & _ & E).
  injection E as <-. apply sanitize_filename_fixed, sanitize_items_kept.
Qed.

Lemma add_video_inv (chapter_title : pystr) (course : Course) (video : json)
    (course' : Course) :
  course_inv course ->
  add_video chapter_title course video = inr course' ->
  course_inv course'.
Proof.
  intros [N F] E. unfold add_video in E.
  apply bind_inr in E as (ty & _ & E).
  destruct (eq_str ty (str "Video")); [|injection E as <-; now split].
  apply bind_inr in E as (title & _ & E).
  apply bind_inr in E as (video_title & S & E).
  apply bind_inr in E as (id & _ & E).
  destruct (Dict.get chapter_title course) as [ch|] eqn:G; [|discriminate].
  injection E as <-.
  apply get_In in G. rewrite Forall_forall in F.
  destruct (F _ G) as (K1 & K2 & K3). simpl in *.
  split; [now apply NoDup_keys_set|].
  apply Forall_set; [|now apply Forall_forall].
  repeat split; simpl; [exact K1 | now apply NoDup_keys_set |].
  apply Forall_set; [|exact K3]. simpl. now apply sanitize_value_fixed in S.
Qed.

Lemma add_chapter_inv (course : Course) (chapter : json) (course' : Course) :
  course_inv course ->
  add_chapter course chapter = inr course' ->
  course_inv course'.
Proof.
  intros [N F] E. unfold add_chapter in E.
  apply bind_inr in E as (title & _ & E).
  apply bind_inr in E as (chapter_title & S & E).
  apply bind_inr in E as (contents & _ & E).
  apply bind_inr in E as (videos & _ & E).
  revert E. apply foldM_inv; [intros a b a'; apply add_video_inv|].
  split; [now apply NoDup_keys_set|].
  apply Forall_set; [|exact F].
  repeat split; simpl; [now apply sanitize_value_fixed in S | constructor
                       | constructor].
Qed.

(** Every course the parser returns, on any input, is a well-formed
    dictionary whose keys are fixed points of sanitization. *)
Lemma parse_course_inv (json_data : json) (course : Course) :
  parse_course json_data = inr course -> course_inv course.
Proof.
  unfold parse_course. intros E.
  apply bind_inr in E as (props & _ & E).
  apply bind_inr in E as (pageProps & _ & E).
  apply bind_inr in E as (c & _ & E).
  apply bind_inr in E as (chapters & _ & E).
  apply bind_inr in E as (l & _ & E).
  revert E. apply foldM_inv; [intros a b a'; apply add_chapter_inv|].
  split; constructor.
Qed.

Lemma course_inv_wf (course : Course) : course_inv course -> wf_course course.
Proof.
  intros [N F]. split; [exact N|].
  eapply Forall_impl; [|exact F]. now intros e (_ & K & _).
Qed.

End InvariantFacts.

(** ** get_course: the claims *)

Section GetCourseTheorems.
Context `{UnicodeData} {W : Type}.

Lemma get_course_returns (json_data : json) (course : Course) (w : W) :
  parse_course json_data = inr course <->
  run (get_course json_data) w = (inr (Some course), w, []).
Proof.
  unfold get_course. split.
  - now intros ->.
  - destruct (parse_course json_data) as [e|c]; [destruct e; discriminate|].
    simpl. congruence.
Qed.

Lemma length_video_entries (items : list item) :
  length (video_entries items) = length (filter is_video_item items).
Proof.
  induction items as [|[title id|] items IH]; simpl; congruence.
Qed.

(** C6, as amended.  On a well-formed payload in which the sanitized
    chapter titles are pairwise distinct and, within each chapter, the
    sanitized titles of the Video items are pairwise distinct,
    [get_course] returns, without logging, the ordered mapping that has one
    entry per chapter and in it one entry per Video item, in document
    order; so it has as many keys as the payload has chapters, and each
    value is as long as its chapter has Video items. *)
Theorem get_course_well_formed (json_data : json) (chapters : list chapter)
    (w : W) :
  is_payload json_data chapters ->
  NoDup (map fst (course_spec chapters)) ->
  Forall (fun e => NoDup (map fst (snd e))) (course_spec chapters) ->
  run (get_course json_data) w = (inr (Some (course_spec chapters)), w, []) /\
  length (course_spec chapters) = length chapters /\
  map (fun e => length (snd e)) (course_spec chapters) =
    map (fun c => length (filter is_video_item (chapter_contents c))) chapters.
Proof.
  intros P N1 N2. repeat split.
  - apply get_course_returns. rewrite (parse_course_ok _ _ P).
    rewrite course_entries_NoDup by assumption.
    now rewrite of_entries_NoDup.
  - apply length_map.
  - unfold course_spec. rewrite map_map. apply map_ext.
    intros c. apply length_video_entries.
Qed.

Lemma last_entry_In {V} (k : pystr) (v : V) (es : list (pystr * V)) :
  last_entry k es = Some v -> In (k, v) es.
Proof.
  unfold last_entry.
  destruct (find _ (rev es)) as [[k' v']|] eqn:F; [|discriminate].
  simpl. intros [= ->]. apply find_some in F as [I E].
  apply eqb_eq in E. simpl in E. subst k'. now apply in_rev.
Qed.

Lemma of_entries_collapses {V} (es : list (pystr * V)) :
  collapses es (Dict.of_entries es).
Proof.
  repeat split.
  - apply NoDup_of_entries.
  - intros k. apply get_of_entries.
  - apply length_of_entries.
  - apply length_of_entries_collision.
Qed.

(** C10.  On every well-formed payload [get_course] succeeds, and entries
    whose keys coincide after sanitization collapse: each chapter key
    occurs once and carries the videos of the last chapter with that
    sanitized title; in a chapter each video key occurs once and carries
    the identifier of the last Video item with that sanitized title; and
    whenever two keys coincide the mapping is strictly shorter than the
    list it was built from. *)
Theorem get_course_collapses (json_data : json) (chapters : list chapter)
    (w : W) :
  is_payload json_data chapters ->
  exists course : Course,
    run (get_course json_data) w = (inr (Some course), w, []) /\
    collapses (course_entries chapters) course /\
    length (course_entries chapters) = length chapters /\
    forall k ch, Dict.get k course = Some ch ->
      exists c, In c chapters /\
        sanitize_filename (chapter_title c) = k /\
        collapses (video_entries (chapter_contents c)) ch.
Proof.
  intros P. exists (Dict.of_entries (course_entries chapters)).
  split; [apply get_course_returns, parse_course_ok, P|].
  split; [apply of_entries_collapses|].
  split; [unfold course_entries, course_spec; now rewrite !length_map|].
  intros k ch G. rewrite get_of_entries in G. apply last_entry_In in G.
  unfold course_entries, course_spec in G. rewrite map_map in G.
  apply in_map_iff in G as (c & E & I). simpl in E.
  injection E as <- <-. exists c. repeat split; try assumption.
  - apply NoDup_of_entries.
  - intros k. apply get_of_entries.
  - apply length_of_entries.
  - apply length_of_entries_collision.
Qed.

(** C9.  [sanitize_filename] is idempotent, and every key of a course
    that [get_course] returns, chapter keys and video keys alike, is left
    unchanged when the download loop sanitizes it again. *)
Theorem sanitize_filename_idempotent :
  (forall s : pystr,
     sanitize_filename (sanitize_filename s) = sanitize_filename s) /\
  (forall (json_data : json) (course : Course) (w : W),
     value_of (get_course json_data) w = inr (Some course) ->
     Forall (fun e => sanitize_filename (fst e) = fst e /\
                      Forall (fun v => sanitize_filename (fst v) = fst v)
                             (snd e)) course).
Proof.
  split; [apply sanitize_filename_twice|].
  intros json_data course w E.
  assert (P : parse_course json_data = inr course).
  { unfold value_of, get_course in E.
    destruct (parse_course json_data) as [e|c]; [destruct e; discriminate|].
    simpl in E. congruence. }
  apply parse_course_inv in P as [_ F].
  eapply Forall_impl; [|exact F]. now intros e (K1 & _ & K3).
Qed.

End GetCourseTheorems.

Lemma sample_is_payload : is_payload sample_payload sample_chapters.
Proof.
  eexists. split; [reflexivity|].
  repeat (constructor || (split; [reflexivity|]) || eexists
          || (eapply is_video; reflexivity) || (eapply is_other; reflexivity)).
Qed.

Lemma colliding_is_payload : is_payload colliding_payload colliding_chapters.
Proof.
  eexists. split; [reflexivity|].
  repeat (constructor || (split; [reflexivity|]) || eexists
          || (eapply is_video; reflexivity)).
Qed.

(** The payload of two chapters with three and one videos: two keys, whose
    values have lengths 3 and 1. *)
Lemma get_course_well_formed_sample :
  run (@get_course sample_unicode unit sample_payload) tt =
    (inr (Some (@course_spec sample_unicode sample_chapters)), tt, []) /\
  length (@course_spec sample_unicode sample_chapters) = 2 /\
  map (fun e => length (snd e)) (@course_spec sample_unicode sample_chapters)
    = [3; 1].
Proof.
  apply (@get_course_well_formed sample_unicode unit sample_payload
           sample_chapters tt sample_is_payload).
  - apply nodupb_NoDup. vm_compute. reflexivity.
  - constructor; [apply nodupb_NoDup; vm_compute; reflexivity|].
    constructor; [apply nodupb_NoDup; vm_compute; reflexivity|].
    constructor.
Defined.

(** C6 fails as stated: a well-formed payload with two chapters, of three
    and one videos, whose titles collide after sanitization yields one key
    with a value of length 1. *)
Lemma get_course_colliding_titles :
  is_payload colliding_payload colliding_chapters /\
  map (fun c => length (filter is_video_item (chapter_contents c)))
      colliding_chapters = [3; 1] /\
  run (@get_course sample_unicode unit colliding_payload) tt =
    (inr (Some [(str "Part 1_", [(str "d", JInt 4)])]), tt, []).
Proof.
  split; [exact colliding_is_payload|]. split; reflexivity.
Qed.

Lemma get_course_collapses_colliding :
  exists course : Course,
    run (@get_course sample_unicode unit colliding_payload) tt =
      (inr (Some course), tt, []) /\
    collapses (@course_entries sample_unicode colliding_chapters) course /\
    length (@course_entries sample_unicode colliding_chapters) = 2 /\
    forall k ch, Dict.get k course = Some ch ->
      exists c, In c colliding_chapters /\
        @sanitize_filename sample_unicode (chapter_title c) = k /\
        collapses (@video_entries sample_unicode (chapter_contents c)) ch.
Proof.
  exact (@get_course_collapses sample_unicode unit colliding_payload
           colliding_chapters tt colliding_is_payload).
Defined.

Lemma sanitize_filename_idempotent_sample :
  @sanitize_filename sample_unicode
    (@sanitize_filename sample_unicode (str "Q&A: intro")) =
  @sanitize_filename sample_unicode (str "Q&A: intro") /\
  Forall (fun e => @sanitize_filename sample_unicode (fst e) = fst e /\
                   Forall (fun v => @sanitize_filename sample_unicode (fst v)
                                    = fst v) (snd e))
         [(str "Part 1_", [(str "d", JInt 4)])].
Proof.
  destruct (@sanitize_filename_idempotent sample_unicode unit) as [I K].
  split; [apply I|].
  apply (K colliding_payload _ tt). reflexivity.
Defined.

(** ** Runs *)

Arguments str : simpl never.

Lemma run_bind {W A B} (m : M W A) (k : A -> M W B) (w : W) :
  run (bind m k) w =
    let '(r, w1, t1) := run m w in
    match r with
    | inl e => (inl e, w1, t1)
    | inr a => let '(b, w2, t2) := run (k a) w1 in (b, w2, t1 ++ t2)
    end.
Proof. reflexivity. Qed.

Lemma trace_bind {W A B} (m : M W A) (k : A -> M W B) (w : W) :
  trace_of (bind m k) w =
    trace_of m w ++
    match value_of m w with
    | inl _ => []
    | inr a => trace_of (k a) (world_of m w)
    end.
Proof.
  unfold trace_of, value_of, world_of. rewrite run_bind.
  destruct (run m w) as [[[e|a] w1] t1]; simpl.
  - now rewrite app_nil_r.
  - now destruct (run (k a) w1) as [[b w2] t2].
Qed.

Lemma for_each_cons {W A} (a : A) (l : list A) (body : A -> M W unit) :
  for_each (a :: l) body = bind (body a) (fun _ => for_each l body).
Proof. reflexivity. Qed.

(** A loop whose iterations all return runs them one after the other, each
    in the world the one before left, and returns. *)
Lemma for_each_steps {W A} (plan : A -> @step W) (body : A -> M W unit)
    (l : list A) :
  (forall a w, In a l ->
     exists t w', run (body a) w = (inr tt, w', t) /\ plan a w t w') ->
  forall w, exists t w',
    run (for_each l body) w = (inr tt, w', t) /\ steps (map plan l) w t w'.
Proof.
  induction l as [|a l IH]; intros Hb w.
  - exists [], w. split; [reflexivity | constructor].
  - destruct (Hb a w (or_introl eq_refl)) as (t1 & w1 & R1 & P1).
    destruct (IH (fun a' w' I => Hb a' w' (or_intror I)) w1)
      as (t2 & w2 & R2 & P2).
    exists (t1 ++ t2), w2. split.
    + rewrite for_each_cons, run_bind, R1. cbv beta iota. now rewrite R2.
    + simpl. econstructor; eassumption.
Qed.

(** What a sequence of steps shows of a kind of event is what its steps
    show, one after the other. *)
Lemma flat_map_steps {W A X} (proj : event -> list X) (plan : A -> @step W)
    (g : A -> list X) (l : list A) :
  (forall a w t w', In a l -> plan a w t w' -> flat_map proj t = g a) ->
  forall w t w', steps (map plan l) w t w' -> flat_map proj t = flat_map g l.
Proof.
  induction l as [|a l IH]; intros Hp w t w' S; simpl in S.
  - now inversion S.
  - inversion S as [|? ? ? t1 w1 t2 ? P1 P2]; subst.
    rewrite flat_map_app. simpl. f_equal.
    + eapply Hp; [now left | exact P1].
    + eapply IH; [|exact P2]. intros a' w0 t0 w0' I. apply Hp. now right.
Qed.

Lemma filter_steps {W A} (p : event -> bool) (plan : A -> @step W)
    (g : A -> list event) (l : list A) :
  (forall a w t w', In a l -> plan a w t w' -> filter p t = g a) ->
  forall w t w', steps (map plan l) w t w' -> filter p t = flat_map g l.
Proof.
  induction l as [|a l IH]; intros Hp w t w' S; simpl in S.
  - now inversion S.
  - inversion S as [|? ? ? t1 w1 t2 ? P1 P2]; subst.
    rewrite filter_app. simpl. f_equal.
    + eapply Hp; [now left | exact P1].
    + eapply IH; [|exact P2]. intros a' w0 t0 w0' I. apply Hp. now right.
Qed.

(** ** Positions *)

Lemma list_index_app (k : pystr) (pre l : list pystr) :
  ~ In k pre -> list_index k (pre ++ k :: l) = length pre.
Proof.
  induction pre as [|k0 pre IH]; simpl; intros N.
  - now rewrite eqb_refl.
  - destruct (PyStr.eqb k k0) eqn:E.
    + apply eqb_eq in E. exfalso. apply N. now left.
    + f_equal. apply IH. intros I. apply N. now right.
Qed.

Lemma index_from {A X} (key : A -> pystr) (F : nat -> A -> X) (l : list A) :
  forall pre : list A,
    NoDup (map key (pre ++ l)) ->
    map (fun a => F (list_index (key a) (map key (pre ++ l)) + 1) a) l =
    map (fun ia => F (fst ia) (snd ia))
        (combine (seq (length pre + 1) (length l)) l).
Proof.
  induction l as [|a l IH]; intros pre N; simpl; [reflexivity|].
  f_equal.
  - rewrite map_app in *. simpl in *.
    rewrite list_index_app, length_map; [reflexivity|].
    now apply NoDup_remove_2 in N; rewrite in_app_iff in *; intuition.
  - specialize (IH (pre ++ [a])).
    rewrite <- app_assoc, length_app in IH. simpl in IH.
    replace (length pre + 1 + 1) with (S (length pre + 1)) in IH by lia.
    now apply IH.
Qed.

(** In a dictionary, [list(d).index(k) + 1] is the 1-based position of
    the entry with key [k]. *)
Lemma index_enumerate {V X} (F : nat -> pystr * V -> X) (d : Dict.t V) :
  NoDup (Dict.keys d) ->
  map (fun e => F (list_index (fst e) (Dict.keys d) + 1) e) d =
  map (fun ie => F (fst ie) (snd ie)) (enumerate d).
Proof.
  intros N. apply (index_from fst F d [] N).
Qed.

Lemma at_key_entry {V} (default : V) (d : Dict.t V) (e : pystr * V) :
  NoDup (Dict.keys d) -> In e d -> at_key default d (fst e) = snd e.
Proof.
  unfold at_key. induction d as [|[k0 v0] d IH]; simpl; intros N I;
    [contradiction|].
  inversion N as [|? ? N1 N2]; subst.
  destruct I as [<-|I]; simpl.
  - now rewrite eqb_refl.
  - destruct (PyStr.eqb (fst e) k0) eqn:E; [|now apply IH].
    apply eqb_eq in E. subst k0. exfalso. apply N1.
    now apply in_map.
Qed.

(** A loop over the keys of a dictionary, whose body looks each key up and
    counts its position, is a loop over the numbered entries. *)
Lemma keys_enumerate {V X} (default : V) (F : nat * (pystr * V) -> X)
    (d : Dict.t V) :
  NoDup (Dict.keys d) ->
  map (fun k => F (list_index k (Dict.keys d) + 1, (k, at_key default d k)))
      (Dict.keys d) =
  map F (enumerate d).
Proof.
  intros N. unfold Dict.keys at 2. rewrite map_map.
  rewrite <- (map_ext (fun ie => F (fst ie, snd ie)) F)
    by (now intros [i e]).
  rewrite <- (index_enumerate (fun i e => F (i, e)) d N).
  apply map_ext_in. intros [k v] I.
  pose proof (at_key_entry default d (k, v) N I) as E. simpl in *.
  now rewrite E.
Qed.

Lemma snd_enumerate {A} (l : list A) : map snd (enumerate l) = l.
Proof.
  unfold enumerate. generalize 1. induction l as [|a l IH]; intros n;
    simpl; [reflexivity|]. now rewrite IH.
Qed.

Lemma incl_for_each {W A X} (proj : event -> list X) (g : A -> list X)
    (body : A -> M W unit) (l : list A) :
  (forall a w, In a l -> incl (flat_map proj (trace_of (body a) w)) (g a)) ->
  forall w, incl (flat_map proj (trace_of (for_each l body) w)) (flat_map g l).
Proof.
  induction l as [|a l IH]; intros Hb w; [intros x []|].
  rewrite for_each_cons, trace_bind, flat_map_app. simpl.
  apply incl_app.
  - apply incl_appl. apply Hb. now left.
  - apply incl_appr. destruct (value_of (body a) w); [intros x []|].
    apply IH. intros a' w' I. apply Hb. now right.
Qed.

Lemma flat_map_nil {A X} (l : list A) :
  flat_map (fun _ => @nil X) l = [].
Proof. induction l; simpl; congruence. Qed.

Lemma flat_map_singleton {A X} (h : A -> X) (l : list A) :
  flat_map (fun a => [h a]) l = map h l.
Proof. induction l; simpl; congruence. Qed.

Lemma flat_map_keys {A B X} (f : A -> B) (g : B -> list X) (l : list A) :
  flat_map g (map f l) = flat_map (fun a => g (f a)) l.
Proof. induction l; simpl; congruence. Qed.

(** ** The page *)

Lemma node_ind_nested (P : node -> Prop) :
  (forall s, P (NavigableString s)) ->
  (forall name attrs contents,
     Forall P contents -> P (Tag name attrs contents)) ->
  forall n, P n.
Proof.
  intros HS HT. fix IH 1. intros [name attrs contents|s]; [|apply HS].
  apply HT. induction contents as [|c cs IHcs]; constructor;
    [apply IH | exact IHcs].
Qed.

Lemma has_type_lacks (ty : pystr) (attrs : list (pystr * pystr)) :
  (forall v, In (str "type", v) attrs -> v <> ty) -> has_type ty attrs = false.
Proof.
  intros N. unfold has_type.
  destruct (Dict.get (str "type") attrs) as [v|] eqn:G; [|reflexivity].
  apply get_In in G. apply eqb_neq. now apply N.
Qed.

Lemma find_type_lacks (ty : pystr) (n : node) :
  lacks_type ty n -> find_type ty n = None.
Proof.
  induction n as [s|name attrs contents IH] using node_ind_nested;
    intros L; [reflexivity|].
  inversion L as [|? ? ? A C]; subst. simpl.
  rewrite (has_type_lacks _ _ A).
  induction contents as [|c cs IHcs]; [reflexivity|].
  inversion IH as [|? ? IHc IHcs']; subst.
  inversion C as [|? ? Cc Ccs]; subst.
  rewrite (IHc Cc). apply IHcs; try assumption.
  now constructor.
Qed.

Lemma soup_find_lacks (ty : pystr) (soup : list node) :
  Forall (lacks_type ty) soup -> soup_find ty soup = None.
Proof.
  induction 1 as [|n soup L _ IH]; simpl; [reflexivity|].
  now rewrite (find_type_lacks _ _ L).
Qed.

Lemma set_not_empty {V} (k : pystr) (v : V) (d : Dict.t V) :
  Dict.set k v d <> [].
Proof.
  destruct d as [|[k0 v0] d]; simpl; [discriminate|].
  destruct (PyStr.eqb k k0); discriminate.
Qed.

Lemma of_entries_not_empty {V} (es : list (pystr * V)) :
  es <> [] -> Dict.of_entries es <> [].
Proof.
  destruct es as [|e es] using rev_ind; [congruence|]. intros _.
  rewrite of_entries_snoc. apply set_not_empty.
Qed.

Lemma is_payload_truthy (json_data : json) (chapters : list chapter) :
  is_payload json_data chapters -> truthy json_data = true.
Proof.
  intros (items & P & _). unfold chapters_of in P.
  destruct json_data as [| | | | | |d]; try discriminate.
  destruct d; [discriminate | reflexivity].
Qed.

(** ** Numerals *)

Lemma string_of_uint_digits (u : Decimal.uint) :
  Forall (fun c => (48 <= c <= 57)%N)
         (map N_of_ascii (list_ascii_of_string (NilEmpty.string_of_uint u))).
Proof.
  induction u; simpl; constructor; try assumption; simpl; lia.
Qed.

Lemma of_nat_digits (n : nat) : Forall (fun c => (48 <= c <= 57)%N) (of_nat n).
Proof. apply string_of_uint_digits. Qed.

Lemma of_nat_digit (n : nat) :
  exists c rest, of_nat n = c :: rest /\ (48 <= c <= 57)%N.
Proof.
  unfold of_nat, str.
  destruct (Nat.to_uint n) as [|u|u|u|u|u|u|u|u|u|u] eqn:E; simpl;
    try (eexists _, _; split; [reflexivity | simpl; lia]).
  exfalso. pose proof (DecimalNat.Unsigned.of_to n) as R.
  rewrite E in R. simpl in R. subst n. discriminate E.
Qed.

Lemma string_of_uint_value (u : Decimal.uint) (acc : nat) :
  fold_left (fun acc c => 10 * acc + digit_value c)
            (map N_of_ascii (list_ascii_of_string (NilEmpty.string_of_uint u)))
            acc =
  Nat.of_uint_acc u acc.
Proof.
  revert acc.
  induction u as [|u IH|u IH|u IH|u IH|u IH|u IH|u IH|u IH|u IH|u IH];
    intros acc; [reflexivity|..];
    cbn [NilEmpty.string_of_uint list_ascii_of_string map fold_left
         Nat.of_uint_acc];
    rewrite IH; f_equal; rewrite Nat.tail_mul_spec;
    unfold digit_value; simpl; lia.
Qed.

Lemma to_uint_no_leading_zero (n : nat) (u : Decimal.uint) :
  Nat.to_uint n = Decimal.D0 u -> u = Decimal.Nil.
Proof.
  intros E. pose proof (DecimalNat.Unsigned.to_of (Nat.to_uint n)) as U.
  rewrite DecimalNat.Unsigned.of_to, E in U.
  unfold Decimal.unorm in U. simpl in U.
  destruct (Decimal.nzhead u) eqn:Z; try discriminate U.
  - now injection U.
  - exfalso. exact (DecimalFacts.nzhead_nonzero _ _ Z).
Qed.

(** [str(n)] is the decimal numeral of [n]. *)
Lemma of_nat_numeral (n : nat) : is_numeral n (of_nat n).
Proof.
  repeat split.
  - destruct (of_nat_digit n) as (c & rest & -> & _). discriminate.
  - apply of_nat_digits.
  - unfold of_nat, str. intros rest E.
    destruct (Nat.to_uint n) as [|u|u|u|u|u|u|u|u|u|u] eqn:U;
      try discriminate E.
    apply to_uint_no_leading_zero in U. subst u.
    simpl in E. now injection E as <-.
  - unfold numeral_value, of_nat, str. rewrite string_of_uint_value.
    apply DecimalNat.Unsigned.of_to.
Qed.

Section ScriptFacts.
Context `{UnicodeData} {W : Type} `{World W}.

Arguments video_token_of : simpl never.
Arguments login_token : simpl never.
Arguments parse_course : simpl never.
Arguments soup_find : simpl never.

(** The code's [f'{index}. {title}'] is the prescribed label. *)
Lemma numbered_label (i : nat) (title : pystr) :
  numbered i title = label i title.
Proof. reflexivity. Qed.

(** A numbered name starts with a digit, so joining it to a directory
    never replaces the directory. *)
Lemma path_join_numbered (a : pystr) (i : nat) (title rest : pystr) :
  path_join a (numbered i title ++ rest) = under a (numbered i title ++ rest).
Proof.
  unfold path_join, under, numbered.
  destruct (of_nat_digit i) as (c & r & -> & D).
  unfold startswith. simpl.
  destruct (N.eqb_spec c slash) as [->|_]; [unfold slash in D; lia|].
  reflexivity.
Qed.

Lemma path_join_numbered_nil (a : pystr) (i : nat) (title : pystr) :
  path_join a (numbered i title) = under a (numbered i title).
Proof.
  rewrite <- (app_nil_r (numbered i title)) at 1. rewrite path_join_numbered.
  now rewrite app_nil_r.
Qed.

(** *** downloader *)

(** An iteration of the inner loop never raises: it is one attempt at the
    video, under the prescribed stem and output template. *)
Lemma download_video_run (course : Course) (token : json)
    (chapter dir video : pystr) (w : W) :
  let ch := at_key [] course chapter in
  exists t w',
    run (download_video course token chapter dir video) w = (inr tt, w', t) /\
    video_plan token dir
      (list_index video (Dict.keys ch) + 1, (video, at_key JNull ch video))
      w t w'.
Proof.
  intros ch. unfold video_plan, video_stem, template. cbn [fst snd].
  rewrite <- !numbered_label, <- path_join_numbered.
  set (stem := numbered (list_index video (Dict.keys ch) + 1)
                        (sanitize_filename video)).
  set (tmpl := path_join dir (stem ++ str ".%(ext)s")).
  set (id := at_key JNull ch video).
  unfold download_video, post, log_failure, logging_error, logging_info,
    emit, call.
  fold ch. fold stem. fold tmpl. fold id. cbn.
  destruct (session_post (GetVideoForWatchAuth token id) w)
    as [[e|data] w1] eqn:P; cbn.
  - pose proof (not_authorized token id stem tmpl w e w1 P) as A.
    unfold failure_line in A.
    destruct (is_network_error e); cbn; eauto.
  - destruct (video_token_of data) as [e|video_token] eqn:V; cbn.
    + pose proof (not_resolved token id stem tmpl w data e w1 P V) as A.
      unfold failure_line in A.
      destruct (is_network_error e); cbn; eauto.
    + destruct (ydl_download video_token tmpl w1) as [[e|[]] w2] eqn:D; cbn.
      * pose proof (not_downloaded token id stem tmpl w data video_token e
                      w1 w2 P V D) as A.
        unfold failure_line in A.
        destruct (is_network_error e); cbn; eauto.
      * pose proof (downloaded token id stem tmpl w data video_token
                      w1 w2 P V D) as A.
        eauto.
Qed.

Lemma makedirs_run (path : pystr) (w w' : W) (r : result unit) :
  os_makedirs path w = (r, w') ->
  run (makedirs path) w = (r, w', [Makedirs path]).
Proof. intros E. unfold makedirs, emit, uncaught. cbn. now rewrite E. Qed.

Lemma makedirs_created (path : pystr) (w : W) :
  fst (os_makedirs path w) = inr tt ->
  exists w', run (makedirs path) w = (inr tt, w', [Makedirs path]) /\
             created path w [Makedirs path] w'.
Proof.
  destruct (os_makedirs path w) as [r w'] eqn:E. simpl. intros ->.
  exists w'. split; [now apply makedirs_run | now split].
Qed.

(** An iteration of the outer loop, when the chapter directory can be
    created. *)
Lemma download_chapter_run (course : Course) (token : json)
    (root chapter : pystr) (w : W) :
  let ie := (list_index chapter (Dict.keys course) + 1,
             (chapter, at_key [] course chapter)) in
  NoDup (Dict.keys (at_key [] course chapter)) ->
  (forall w0, fst (os_makedirs (chapter_dir root ie) w0) = inr tt) ->
  exists t w',
    run (download_chapter course token root chapter) w = (inr tt, w', t) /\
    chapter_plan token root ie w t w'.
Proof.
  intros ie N Mk. unfold chapter_plan. cbn [fst snd].
  assert (D : path_join root
                (numbered (list_index chapter (Dict.keys course) + 1)
                          (sanitize_filename chapter)) =
              chapter_dir root ie) by apply path_join_numbered_nil.
  unfold download_chapter. rewrite D.
  set (dir := chapter_dir root ie) in *.
  set (ch := at_key [] course chapter) in *.
  destruct (makedirs_created dir w (Mk w)) as (w1 & R1 & C1).
  destruct (for_each_steps
              (fun video =>
                 video_plan token dir
                   (list_index video (Dict.keys ch) + 1,
                    (video, at_key JNull ch video)))
              (download_video course token chapter dir)
              (Dict.keys ch)
              (fun video w0 _ =>
                 download_video_run course token chapter dir video w0)
              w1) as (t2 & w2 & R2 & S2).
  rewrite (keys_enumerate JNull (video_plan token dir) ch N) in S2.
  exists ([Makedirs dir] ++ t2), w2. split.
  - rewrite run_bind, R1. cbv beta iota. now rewrite R2.
  - econstructor; eassumption.
Qed.

Lemma wf_course_chapter (course : Course) (k : pystr) :
  wf_course course -> In k (Dict.keys course) ->
  NoDup (Dict.keys (at_key [] course k)).
Proof.
  intros [N F] I. apply in_map_iff in I as (e & <- & I).
  rewrite at_key_entry by assumption.
  rewrite Forall_forall in F. now apply F.
Qed.

(** The download loop on a course whose directories can be created: it
    returns, and its run is the plan of the course. *)
Lemma downloader_run (course : Course) (args : list pystr) (token : json)
    (w : W) :
  wf_course course ->
  creatable (download_path_of args) course ->
  exists t w',
    run (downloader course args token) w = (inr tt, w', t) /\
    course_plan token (download_path_of args) course w t w'.
Proof.
  intros WF Mk. pose proof WF as [N _]. unfold course_plan, downloader.
  set (root := download_path_of args) in *.
  destruct (makedirs_created root w (Mk root w (or_introl eq_refl)))
    as (w1 & R1 & C1).
  destruct (for_each_steps
              (fun chapter =>
                 chapter_plan token root
                   (list_index chapter (Dict.keys course) + 1,
                    (chapter, at_key [] course chapter)))
              (download_chapter course token root)
              (Dict.keys course)) with (w := w1) as (t2 & w2 & R2 & S2).
  { intros chapter w0 I. apply download_chapter_run.
    - now apply wf_course_chapter.
    - intros w'. apply Mk. right. unfold chapter_dirs.
      rewrite <- (keys_enumerate [] (chapter_dir root) course N).
      now apply (in_map
                   (fun k => chapter_dir root
                               (list_index k (Dict.keys course) + 1,
                                (k, at_key [] course k)))). }
  rewrite (keys_enumerate [] (chapter_plan token root) course N) in S2.
  exists ([Makedirs root] ++ t2), w2. split.
  - rewrite run_bind, R1. cbv beta iota. now rewrite R2.
  - econstructor; eassumption.
Qed.

(** *** What a plan shows *)

Lemma attempt_made (token id : json) (stem tmpl : pystr) (w w' : W)
    (t : list event) :
  attempt token id stem tmpl w t w' -> flat_map made t = [].
Proof. now intros []. Qed.

Lemma attempt_attempted (token id : json) (stem tmpl : pystr) (w w' : W)
    (t : list event) :
  attempt token id stem tmpl w t w' -> flat_map attempted t = [id].
Proof. now intros []. Qed.

Lemma chapter_plan_inv (token : json) (root : pystr)
    (ie : nat * (pystr * Chapter)) (w w' : W) (t : list event) :
  chapter_plan token root ie w t w' ->
  exists w1 t2,
    os_makedirs (chapter_dir root ie) w = (inr tt, w1) /\
    t = Makedirs (chapter_dir root ie) :: t2 /\
    steps (map (video_plan token (chapter_dir root ie))
               (enumerate (snd (snd ie)))) w1 t2 w'.
Proof.
  unfold chapter_plan. intros S.
  inversion S as [|? ? ? t1 w1 t2 ? C S2]; subst.
  destruct C as [C ->]. now exists w1, t2.
Qed.

Lemma course_plan_inv (token : json) (root : pystr) (course : Course)
    (w w' : W) (t : list event) :
  course_plan token root course w t w' ->
  exists w1 t2,
    os_makedirs root w = (inr tt, w1) /\
    t = Makedirs root :: t2 /\
    steps (map (chapter_plan token root) (enumerate course)) w1 t2 w'.
Proof.
  unfold course_plan. intros S.
  inversion S as [|? ? ? t1 w1 t2 ? C S2]; subst.
  destruct C as [C ->]. now exists w1, t2.
Qed.

(** The directories of a plan are the root and the chapter directories,
    in course order. *)
Lemma course_plan_made (token : json) (root : pystr) (course : Course)
    (w w' : W) (t : list event) :
  course_plan token root course w t w' ->
  flat_map made t = root :: chapter_dirs root course.
Proof.
  intros S. apply course_plan_inv in S as (w1 & t2 & _ & -> & S).
  simpl. f_equal. unfold chapter_dirs. rewrite <- flat_map_singleton.
  revert S. apply flat_map_steps. intros ie w0 t0 w0' _ C.
  apply chapter_plan_inv in C as (w2 & t3 & _ & -> & C).
  simpl. f_equal.
  rewrite <- (flat_map_nil (enumerate (snd (snd ie)))).
  revert C. apply flat_map_steps. intros jv w3 t4 w4 _.
  apply attempt_made.
Qed.

(** The requests of a plan ask for the videos of the course, one by one,
    in course order. *)
Lemma course_plan_attempted (token : json) (root : pystr) (course : Course)
    (w w' : W) (t : list event) :
  course_plan token root course w t w' ->
  flat_map attempted t = video_ids course.
Proof.
  intros S. apply course_plan_inv in S as (w1 & t2 & _ & -> & S).
  simpl. unfold video_ids.
  rewrite <- (snd_enumerate course) at 1. rewrite flat_map_keys.
  revert S. apply flat_map_steps. intros ie w0 t0 w0' _ C.
  apply chapter_plan_inv in C as (w2 & t3 & _ & -> & C).
  simpl. rewrite <- (snd_enumerate (snd (snd ie))) at 1.
  rewrite map_map, <- flat_map_singleton.
  revert C. apply flat_map_steps. intros jv w3 t4 w4 _.
  apply attempt_attempted.
Qed.

(** *** get_json *)

Lemma get_json_not_found (url : pystr) (soup : list node) (w w' : W) :
  session_get url w = (inr soup, w') ->
  soup_find (str "application/json") soup = None ->
  run (get_json url) w =
    (inr JNull, w',
     [HttpGet url;
      LogError (str "No JSON data found at URL: " ++ url) NoDetail]).
Proof.
  intros G F. unfold get_json, get, logging_error, emit, call. cbn.
  rewrite G. cbn. now rewrite F.
Qed.

(** *** main *)

Lemma args_checked (args : list pystr) :
  length args = 2 \/ length args = 3 ->
  negb (existsb (Nat.eqb (length args)) [2; 3]) = false.
Proof. now intros [-> | ->]. Qed.

Lemma input_run (prompt : pystr) (r : result pystr) (w w' : W) :
  console_input prompt w = (r, w') ->
  run (input prompt) w = (r, w', [Input prompt]).
Proof. intros E. unfold input, emit, uncaught. cbn. now rewrite E. Qed.

Lemma getpass_run (prompt : pystr) (r : result pystr) (w w' : W) :
  console_getpass prompt w = (r, w') ->
  run (getpass prompt) w = (r, w', [Getpass prompt]).
Proof. intros E. unfold getpass, emit, uncaught. cbn. now rewrite E. Qed.

Lemma main_usage (args : list pystr) (w : W) :
  length args <> 2 -> length args <> 3 ->
  run (main args) w =
    (inr (Some (-1)%Z), w,
     [Print (str "usage: submeta-dl.py <URL> <download path(optional)>")]).
Proof.
  intros N2 N3. unfold main. simpl existsb.
  apply Nat.eqb_neq in N2, N3. now rewrite N2, N3.
Qed.

Lemma main_no_json (args : list pystr) (w w1 : W) (json_data : json)
    (t1 : list event) :
  length args = 2 \/ length args = 3 ->
  run (get_json (nth 1 args [])) w = (inr json_data, w1, t1) ->
  truthy json_data = false ->
  run (main args) w =
    (inr (Some (-1)%Z), w1,
     t1 ++ [Print (str "Failed to retrieve JSON data. Check the URL or logs for more information.")]).
Proof.
  intros L J T. unfold main. rewrite (args_checked _ L), run_bind, J.
  cbv beta iota. rewrite T. reflexivity.
Qed.

Lemma main_no_course (args : list pystr) (w w1 : W) (json_data : json)
    (t1 t2 : list event) (course : option Course) :
  length args = 2 \/ length args = 3 ->
  run (get_json (nth 1 args [])) w = (inr json_data, w1, t1) ->
  truthy json_data = true ->
  run (get_course json_data) w1 = (inr course, w1, t2) ->
  course = None \/ course = Some [] ->
  run (main args) w =
    (inr (Some (-1)%Z), w1,
     t1 ++ t2 ++ [Print (str "Failed to parse course data. Check logs for more information.")]).
Proof.
  intros L J T C E. unfold main.
  rewrite (args_checked _ L), run_bind, J. cbv beta iota.
  rewrite T. cbn [negb]. unfold Course, Dict.t in C.
  rewrite run_bind, C. cbv beta iota.
  now destruct E as [-> | ->].
Qed.

(** The run up to the first prompt, on a page whose course has a
    chapter. *)
Lemma main_prompts (args : list pystr) (w w1 : W) (json_data : json)
    (t1 : list event) (course : Course) :
  length args = 2 \/ length args = 3 ->
  run (get_json (nth 1 args [])) w = (inr json_data, w1, t1) ->
  truthy json_data = true ->
  parse_course json_data = inr course ->
  course <> [] ->
  run (main args) w =
    let '(r, w5, t) :=
      run (username <- input (str "Enter username: ") ;;
           password <- getpass (str "Enter password: ") ;;
           token <- get_token username password ;;
           if negb (truthy token) then
             print (str "Failed to login. Check credentials or logs for more information.") ;;
             ret (Some (-1)%Z)
           else
             downloader course args token ;;
             print (str "Download complete!") ;;
             ret None) w1 in
    (r, w5, t1 ++ t).
Proof.
  intros L J T P NE. unfold main.
  rewrite (args_checked _ L), run_bind, J. cbv beta iota.
  rewrite T. cbn [negb]. rewrite run_bind.
  pose proof (proj1 (get_course_returns json_data course w1) P) as C.
  unfold Course, Dict.t in C. rewrite C. cbv beta iota.
  destruct course as [|e course]; [congruence|].
  match goal with
  | |- context [run ?m w1] => destruct (run m w1) as [[r w5] t]
  end.
  reflexivity.
Qed.

Lemma main_login (args : list pystr) (w w1 w2 w3 w4 : W) (json_data : json)
    (t1 t4 : list event) (course : Course) (username password : pystr)
    (token : json) :
  length args = 2 \/ length args = 3 ->
  run (get_json (nth 1 args [])) w = (inr json_data, w1, t1) ->
  truthy json_data = true ->
  parse_course json_data = inr course ->
  course <> [] ->
  console_input (str "Enter username: ") w1 = (inr username, w2) ->
  console_getpass (str "Enter password: ") w2 = (inr password, w3) ->
  run (get_token username password) w3 = (inr token, w4, t4) ->
  run (main args) w =
    if truthy token then
      let '(r, w5, td) := run (downloader course args token) w4 in
      (match r with
       | inl e => inl e
       | inr _ => inr None
       end, w5,
       t1 ++ [Input (str "Enter username: "); Getpass (str "Enter password: ")]
          ++ t4 ++ td
          ++ match r with
             | inl _ => []
             | inr _ => [Print (str "Download complete!")]
             end)
    else
      (inr (Some (-1)%Z), w4,
       t1 ++ [Input (str "Enter username: "); Getpass (str "Enter password: ")]
          ++ t4
          ++ [Print (str "Failed to login. Check credentials or logs for more information.")]).
Proof.
  intros L J T P NE U G K.
  rewrite (main_prompts args w w1 json_data t1 course L J T P NE).
  rewrite run_bind, (input_run _ _ _ _ U). cbv beta iota.
  rewrite run_bind, (getpass_run _ _ _ _ G). cbv beta iota.
  rewrite run_bind, K. cbv beta iota.
  destruct (truthy token); cbn [negb].
  - rewrite run_bind.
    destruct (run (downloader course args token) w4) as [[[e|[]] w5] t5].
    + now rewrite app_nil_r.
    + reflexivity.
  - reflexivity.
Qed.

(** The run through the download loop, when every directory can be
    created. *)
Lemma main_downloads (args : list pystr) (w w1 w2 w3 w4 : W)
    (json_data : json) (t1 t4 : list event) (course : Course)
    (username password : pystr) (token : json) :
  length args = 2 \/ length args = 3 ->
  run (get_json (nth 1 args [])) w = (inr json_data, w1, t1) ->
  truthy json_data = true ->
  parse_course json_data = inr course ->
  course <> [] ->
  console_input (str "Enter username: ") w1 = (inr username, w2) ->
  console_getpass (str "Enter password: ") w2 = (inr password, w3) ->
  run (get_token username password) w3 = (inr token, w4, t4) ->
  truthy token = true ->
  creatable (download_path_of args) course ->
  exists (td : list event) (w5 : W),
    course_plan token (download_path_of args) course w4 td w5 /\
    run (main args) w =
      (inr None, w5,
       t1 ++ [Input (str "Enter username: "); Getpass (str "Enter password: ")]
          ++ t4 ++ td ++ [Print (str "Download complete!")]).
Proof.
  intros L J T P NE U G K TT Mk.
  assert (WF : wf_course course)
    by apply course_inv_wf, (parse_course_inv json_data), P.
  destruct (downloader_run course args token w4 WF Mk) as (td & w5 & R & S).
  exists td, w5. split; [exact S|].
  rewrite (main_login args w w1 w2 w3 w4 json_data t1 t4 course username
             password token L J T P NE U G K).
  now rewrite TT, R.
Qed.

(** The exit status: 0 when [main] returns, 1 when an exception escapes. *)
Lemma script_run (argv : list pystr) (w w' : W) (r : result (option Z))
    (t : list event) :
  run (main argv) w = (r, w', t) ->
  run (script argv) w =
    (inr match r with
         | inl _ => 1%Z
         | inr _ => 0%Z
         end, w', t).
Proof. intros E. unfold script. cbn. now rewrite E. Qed.

(** *** get_token *)

Lemma get_token_without_token (username password : pystr) (w w' : W)
    (data d : json) (fields : list (pystr * json)) :
  session_post (Login username password) w = (inr data, w') ->
  getitem data (str "data") = inr d ->
  getitem d (str "login") = inr (JObj fields) ->
  Dict.get (str "token") fields = None ->
  run (get_token username password) w =
    (inr JNull, w',
     [HttpPost (Login username password);
      LogError (str "Login failed. Response: ") (Body data)]).
Proof.
  intros P D L T. unfold get_token, post, emit, call. cbn. rewrite P. cbn.
  unfold login_token. rewrite D. cbn. rewrite L. cbn. rewrite T. reflexivity.
Qed.

(** *** The claims about runs *)

(** C1, at the failing input.  With no URL argument [main] prints the usage
    message and returns [-1]; the script drops that value, so the process
    ends with status 0, as it does whenever [main] returns, whatever the
    value. *)
Theorem script_wrong_argument_count (w : W) :
  run (main [str "submeta-dl.py"]) w =
    (inr (Some (-1)%Z), w,
     [Print (str "usage: submeta-dl.py <URL> <download path(optional)>")]) /\
  run (script [str "submeta-dl.py"]) w =
    (inr 0%Z, w,
     [Print (str "usage: submeta-dl.py <URL> <download path(optional)>")]) /\
  forall (argv : list pystr) (w0 : W) (r : option Z),
    value_of (main argv) w0 = inr r -> value_of (script argv) w0 = inr 0%Z.
Proof.
  repeat split. intros argv w0 r. unfold value_of.
  destruct (run (main argv) w0) as [[r0 w1] t] eqn:E.
  rewrite (script_run _ _ _ _ _ E). simpl. now intros ->.
Qed.

(** C2, as amended.  On a well-formed payload:
    with no chapter, [get_course] returns the empty course without
    logging, and [main] takes it for a parse failure: it prints the
    failure message and returns [-1] before any prompt;
    with at least one chapter, [get_course] returns a non-empty course,
    the run goes on to the prompts, and once the login yields a token and
    provided the directories can be created, the download loop follows
    the plan of the course and the run ends with "Download complete!";
    and a chapter without videos then gets its directory and nothing
    else. *)
Theorem empty_course_and_empty_chapter (args : list pystr) (w w1 : W)
    (json_data : json) (t1 : list event) (chapters : list chapter) :
  length args = 2 \/ length args = 3 ->
  run (get_json (nth 1 args [])) w = (inr json_data, w1, t1) ->
  is_payload json_data chapters ->
  (chapters = [] ->
     run (get_course json_data) w1 = (inr (Some []), w1, []) /\
     run (main args) w =
       (inr (Some (-1)%Z), w1,
        t1 ++ [Print (str "Failed to parse course data. Check logs for more information.")])) /\
  (chapters <> [] ->
     exists course : Course,
       run (get_course json_data) w1 = (inr (Some course), w1, []) /\
       course <> [] /\
       (forall (username password : pystr) (token : json) (w2 w3 w4 : W)
               (t4 : list event),
          console_input (str "Enter username: ") w1 = (inr username, w2) ->
          console_getpass (str "Enter password: ") w2 = (inr password, w3) ->
          run (get_token username password) w3 = (inr token, w4, t4) ->
          truthy token = true ->
          creatable (download_path_of args) course ->
          exists (td : list event) (w5 : W),
            course_plan token (download_path_of args) course w4 td w5 /\
            run (main args) w =
              (inr None, w5,
               t1 ++ [Input (str "Enter username: ");
                      Getpass (str "Enter password: ")]
                  ++ t4 ++ td ++ [Print (str "Download complete!")])) /\
       (forall (k root : pystr) (token : json) (w' w'' : W),
          Dict.get k course = Some [] ->
          os_makedirs
            (chapter_dir root (list_index k (Dict.keys course) + 1, (k, [])))
            w' = (inr tt, w'') ->
          run (download_chapter course token root k) w' =
            (inr tt, w'',
             [Makedirs
                (chapter_dir root
                   (list_index k (Dict.keys course) + 1, (k, [])))]))).
Proof.
  intros L J P. pose proof (is_payload_truthy _ _ P) as T.
  pose proof (parse_course_ok _ _ P) as C. split.
  - intros ->. change (Dict.of_entries (course_entries [])) with (@nil (pystr * Chapter)) in C.
    pose proof (proj1 (get_course_returns _ _ w1) C) as R.
    split; [exact R|].
    now rewrite (main_no_course args w w1 json_data t1 [] (Some []) L J T R)
      by now right.
  - intros NE. exists (Dict.of_entries (course_entries chapters)).
    assert (NE' : Dict.of_entries (course_entries chapters) <> []).
    { apply of_entries_not_empty. unfold course_entries, course_spec.
      destruct chapters; [congruence | discriminate]. }
    split; [now apply get_course_returns|]. split; [exact NE'|]. split.
    + intros username password token w2 w3 w4 t4 U G K TT Mk.
      exact (main_downloads args w w1 w2 w3 w4 json_data t1 t4 _ username
               password token L J T C NE' U G K TT Mk).
    + intros k root token w' w'' G Mk.
      unfold download_chapter, at_key.
      unfold Course, Chapter, Dict.t in *. rewrite G.
      rewrite path_join_numbered_nil.
      change (under root
                (numbered (list_index k (Dict.keys
                             (Dict.of_entries (course_entries chapters))) + 1)
                          (sanitize_filename k)))
        with (chapter_dir root
                (list_index k (Dict.keys
                   (Dict.of_entries (course_entries chapters))) + 1,
                 (k, []))).
      rewrite run_bind.
      match goal with
      | |- context [run (makedirs ?p) w'] =>
          replace (run (makedirs p) w')
            with (@inr pyexc unit tt, w'', [Makedirs p])
            by (symmetry; exact (makedirs_run _ _ _ _ Mk))
      end.
      reflexivity.
Qed.

(** C5.  Once the page, the course and the token are there, and provided
    the directories can be created, the download loop makes one attempt at
    every video of the course, in course order and each in the world the
    one before left.  Whatever the platform and the download tool answer,
    the attempt ends normally: a refused request, an answer without stream
    token and a failed download are logged, and a resolved video is handed
    to the download tool.  After the last attempt the run prints "Download
    complete!", [main] falls off its end and the exit status is 0. *)
Theorem main_survives_video_failures (args : list pystr) (w w1 w2 w3 w4 : W)
    (json_data : json) (t1 t4 : list event) (course : Course)
    (username password : pystr) (token : json) :
  length args = 2 \/ length args = 3 ->
  run (get_json (nth 1 args [])) w = (inr json_data, w1, t1) ->
  truthy json_data = true ->
  parse_course json_data = inr course ->
  course <> [] ->
  console_input (str "Enter username: ") w1 = (inr username, w2) ->
  console_getpass (str "Enter password: ") w2 = (inr password, w3) ->
  run (get_token username password) w3 = (inr token, w4, t4) ->
  truthy token = true ->
  creatable (download_path_of args) course ->
  exists (td : list event) (w5 : W),
    run (downloader course args token) w4 = (inr tt, w5, td) /\
    course_plan token (download_path_of args) course w4 td w5 /\
    flat_map attempted td = video_ids course /\
    run (main args) w =
      (inr None, w5,
       t1 ++ [Input (str "Enter username: "); Getpass (str "Enter password: ")]
          ++ t4 ++ td ++ [Print (str "Download complete!")]) /\
    run (script args) w =
      (inr 0%Z, w5,
       t1 ++ [Input (str "Enter username: "); Getpass (str "Enter password: ")]
          ++ t4 ++ td ++ [Print (str "Download complete!")]).
Proof.
  intros L J T P NE U G K TT Mk.
  assert (WF : wf_course course)
    by apply course_inv_wf, (parse_course_inv json_data), P.
  destruct (downloader_run course args token w4 WF Mk) as (td & w5 & R & S).
  assert (E : run (main args) w =
                (inr None, w5,
                 t1 ++ [Input (str "Enter username: ");
                        Getpass (str "Enter password: ")]
                    ++ t4 ++ td ++ [Print (str "Download complete!")])).
  { rewrite (main_login args w w1 w2 w3 w4 json_data t1 t4 course username
               password token L J T P NE U G K).
    now rewrite TT, R. }
  exists td, w5. split; [exact R|]. split; [exact S|].
  split; [exact (course_plan_attempted _ _ _ _ _ _ S)|].
  split; [exact E|]. exact (script_run _ _ _ _ _ E).
Qed.

(** C7.  For a course (a dictionary, so without duplicate keys) whose
    directories can be created, the download loop returns after following
    the plan of the course: it creates the destination root and then, for
    the chapter at 1-based position [i], the directory
    [{i}. {sanitized title}] under it; for the video at 1-based position
    [j] of that chapter its file stem is [{j}. {sanitized title}], which
    is what the log line about the video names and what, with the
    extension placeholder and in the chapter's directory, is the output
    template handed to the download tool for that video.  The positions
    are written as decimal numerals, and the root is [submeta-downloads]
    unless a third argument names it. *)
Theorem downloader_layout (course : Course) (args : list pystr)
    (token : json) (w : W) :
  wf_course course ->
  creatable (download_path_of args) course ->
  (exists (t : list event) (w' : W),
     run (downloader course args token) w = (inr tt, w', t) /\
     course_plan token (download_path_of args) course w t w' /\
     flat_map made t =
       download_path_of args :: chapter_dirs (download_path_of args) course) /\
  (forall i : nat, is_numeral i (of_nat i)) /\
  (forall prog url : pystr,
     download_path_of [prog; url] = str "submeta-downloads") /\
  (forall prog url path : pystr, download_path_of [prog; url; path] = path).
Proof.
  intros WF Mk. split; [|split; [exact of_nat_numeral | split; reflexivity]].
  destruct (downloader_run course args token w WF Mk) as (t & w' & R & S).
  exists t, w'. split; [exact R|]. split; [exact S|].
  exact (course_plan_made _ _ _ _ _ _ S).
Qed.

(** C8.  When the fetched page has no element whose [type] attribute is
    [application/json], the run logs that no JSON was found, prints the
    retrieval failure and returns [-1]; nothing else happens: no prompt, no
    login, no download. *)
Theorem main_without_json_element (args : list pystr) (w w' : W)
    (soup : list node) :
  length args = 2 \/ length args = 3 ->
  session_get (nth 1 args []) w = (inr soup, w') ->
  Forall (lacks_type (str "application/json")) soup ->
  run (main args) w =
    (inr (Some (-1)%Z), w',
     [HttpGet (nth 1 args []);
      LogError (str "No JSON data found at URL: " ++ nth 1 args []) NoDetail;
      Print (str "Failed to retrieve JSON data. Check the URL or logs for more information.")]) /\
  filter is_prompt (trace_of (main args) w) = [] /\
  filter is_download (trace_of (main args) w) = [] /\
  flat_map (fun e => match e with HttpPost r => [r] | _ => [] end)
           (trace_of (main args) w) = [].
Proof.
  intros L G F. apply soup_find_lacks in F.
  pose proof (get_json_not_found _ _ _ _ G F) as J.
  pose proof (main_no_json args w w' JNull _ L J eq_refl) as R.
  unfold trace_of. rewrite R. repeat split.
Qed.

End ScriptFacts.

(** C4, at the failing input.  The login response has no token field:
    [get_token] returns [None] without raising, [main] prints the login
    failure and returns [-1], and no download is attempted; but the exit
    status of the process is 0. *)
Theorem script_login_without_token :
  let world := world_of_run three_videos login_without_token false in
  let argv := [str "submeta-dl.py"; str "https://submeta.io/course"] in
  run (@get_token unit world (str "user") (str "secret")) tt =
    (inr JNull, tt,
     [HttpPost (Login (str "user") (str "secret"));
      LogError (str "Login failed. Response: ") (Body login_without_token)]) /\
  value_of (@main sample_unicode unit world argv) tt = inr (Some (-1)%Z) /\
  filter is_download (trace_of (@main sample_unicode unit world argv) tt) = [] /\
  last (trace_of (@main sample_unicode unit world argv) tt) (Print []) =
    Print (str "Failed to login. Check credentials or logs for more information.") /\
  value_of (@script sample_unicode unit world argv) tt = inr 0%Z.
Proof. vm_compute. repeat split. Qed.

(** ** Concrete runs *)

(** Video 2 of a chapter of three fails with HTTP 503: videos 1 and 3 are
    still downloaded and the run completes. *)
Example run_with_503_on_second_video :
  run (@script sample_unicode unit (world_of_run three_videos login_ok true)
         [prog; course_url]) tt =
    (inr 0%Z, tt,
     [HttpGet course_url;
      Input (str "Enter username: ");
      Getpass (str "Enter password: ");
      HttpPost (Login (str "user") (str "secret"));
      LogInfo (str "Login successful!");
      Print (str "Login successful! Token obtained");
      Makedirs (str "submeta-downloads");
      Makedirs (str "submeta-downloads/1. One");
      HttpPost (GetVideoForWatchAuth (JStr (str "tok")) (JInt 1));
      YdlDownload (JStr (str "s")) (str "submeta-downloads/1. One/1. a.%(ext)s");
      LogInfo (str "Successfully downloaded: 1. a");
      HttpPost (GetVideoForWatchAuth (JStr (str "tok")) (JInt 2));
      LogError (str "Network error while downloading 2. b: ")
               (Exc (HTTPError 503));
      HttpPost (GetVideoForWatchAuth (JStr (str "tok")) (JInt 3));
      YdlDownload (JStr (str "s")) (str "submeta-downloads/1. One/3. c.%(ext)s");
      LogInfo (str "Successfully downloaded: 3. c");
      Print (str "Download complete!")]).
Proof. vm_compute. reflexivity. Qed.

(** An empty download path: [os.makedirs] raises on it, outside every
    [try]; the exception escapes from [main], nothing is downloaded,
    "Download complete!" is not printed and the exit status is 1. *)
Example run_with_empty_download_path :
  run (@main sample_unicode unit (world_without_empty_path three_videos)
         [prog; course_url; []]) tt =
    (inl (OSError 2), tt,
     [HttpGet course_url;
      Input (str "Enter username: ");
      Getpass (str "Enter password: ");
      HttpPost (Login (str "user") (str "secret"));
      LogInfo (str "Login successful!");
      Print (str "Login successful! Token obtained");
      Makedirs []]) /\
  value_of (@script sample_unicode unit (world_without_empty_path three_videos)
              [prog; course_url; []]) tt = inr 1%Z.
Proof. vm_compute. split; reflexivity. Qed.

(** The label of position 12. *)
Example label_of_twelve : label 12 (str "Intro") = str "12. Intro".
Proof. reflexivity. Qed.

(** A run that completes, and one that stops at the usage message: the
    exit status is 0 in both. *)
Lemma script_wrong_argument_count_witness :
  let world := world_of_run three_videos login_ok true in
  run (@main sample_unicode unit world [str "submeta-dl.py"]) tt =
    (inr (Some (-1)%Z), tt,
     [Print (str "usage: submeta-dl.py <URL> <download path(optional)>")]) /\
  run (@script sample_unicode unit world [str "submeta-dl.py"]) tt =
    (inr 0%Z, tt,
     [Print (str "usage: submeta-dl.py <URL> <download path(optional)>")]) /\
  value_of (@script sample_unicode unit world [prog; course_url]) tt = inr 0%Z.
Proof.
  intros world.
  destruct (@script_wrong_argument_count sample_unicode unit world tt)
    as (A & B & C).
  split; [exact A|]. split; [exact B|].
  apply (C [prog; course_url] tt None). reflexivity.
Defined.

Lemma empty_course_and_empty_chapter_witness :
  let empty := payload [] in
  let one := payload [chapter_item "Empty" []] in
  let world := world_of_run one login_ok false in
  (run (@get_course sample_unicode unit empty) tt = (inr (Some []), tt, []) /\
   run (@main sample_unicode unit (world_of_run empty login_ok false)
          [prog; course_url]) tt =
     (inr (Some (-1)%Z), tt,
      [HttpGet course_url] ++
      [Print (str "Failed to parse course data. Check logs for more information.")])) /\
  exists course : Course,
    run (@get_course sample_unicode unit one) tt = (inr (Some course), tt, []) /\
    course <> [] /\
    (forall (username password : pystr) (token : json) (w2 w3 w4 : unit)
            (t4 : list event),
       @console_input unit world (str "Enter username: ") tt
         = (inr username, w2) ->
       @console_getpass unit world (str "Enter password: ") w2
         = (inr password, w3) ->
       run (@get_token unit world username password) w3 = (inr token, w4, t4) ->
       truthy token = true ->
       @creatable sample_unicode unit world
         (download_path_of [prog; course_url]) course ->
       exists (td : list event) (w5 : unit),
         @course_plan sample_unicode unit world token
           (download_path_of [prog; course_url]) course w4 td w5 /\
         run (@main sample_unicode unit world [prog; course_url]) tt =
           (inr None, w5,
            [HttpGet course_url] ++
            [Input (str "Enter username: "); Getpass (str "Enter password: ")]
              ++ t4 ++ td ++ [Print (str "Download complete!")])) /\
    (forall (k root : pystr) (token : json) (w' w'' : unit),
       Dict.get k course = Some [] ->
       @os_makedirs unit world
         (@chapter_dir sample_unicode root
            (list_index k (Dict.keys course) + 1, (k, [])))
         w' = (inr tt, w'') ->
       run (@download_chapter sample_unicode unit world course token root k)
           w' =
         (inr tt, w'',
          [Makedirs
             (@chapter_dir sample_unicode root
                (list_index k (Dict.keys course) + 1, (k, [])))])).
Proof.
  intros empty one world. split.
  - apply (@empty_course_and_empty_chapter sample_unicode unit
             (world_of_run empty login_ok false) [prog; course_url] tt tt
             empty [HttpGet course_url] []).
    + left. reflexivity.
    + reflexivity.
    + eexists. split; [reflexivity | constructor].
    + reflexivity.
  - apply (@empty_course_and_empty_chapter sample_unicode unit
             world [prog; course_url] tt tt
             one [HttpGet course_url]
             [ {| chapter_title := str "Empty"; chapter_contents := [] |} ]).
    + left. reflexivity.
    + reflexivity.
    + eexists. split; [reflexivity|].
      constructor; [|constructor].
      split; [reflexivity|]. eexists. split; [reflexivity | constructor].
    + discriminate.
Defined.

Lemma main_survives_video_failures_witness :
  let world := world_of_run three_videos login_ok true in
  let course : Course :=
    [(str "One", [(str "a", JInt 1); (str "b", JInt 2); (str "c", JInt 3)])] in
  let token := JStr (str "tok") in
  let before :=
    [HttpGet course_url;
     Input (str "Enter username: ");
     Getpass (str "Enter password: ");
     HttpPost (Login (str "user") (str "secret"));
     LogInfo (str "Login successful!");
     Print (str "Login successful! Token obtained")] in
  let td :=
    [Makedirs (str "submeta-downloads");
     Makedirs (str "submeta-downloads/1. One");
     HttpPost (GetVideoForWatchAuth token (JInt 1));
     YdlDownload (JStr (str "s")) (str "submeta-downloads/1. One/1. a.%(ext)s");
     LogInfo (str "Successfully downloaded: 1. a");
     HttpPost (GetVideoForWatchAuth token (JInt 2));
     LogError (str "Network error while downloading 2. b: ")
              (Exc (HTTPError 503));
     HttpPost (GetVideoForWatchAuth token (JInt 3));
     YdlDownload (JStr (str "s")) (str "submeta-downloads/1. One/3. c.%(ext)s");
     LogInfo (str "Successfully downloaded: 3. c")] in
  run (@downloader sample_unicode unit world course [prog; course_url] token)
      tt = (inr tt, tt, td) /\
  @course_plan sample_unicode unit world token
    (download_path_of [prog; course_url]) course tt td tt /\
  flat_map attempted td = [JInt 1; JInt 2; JInt 3] /\
  run (@main sample_unicode unit world [prog; course_url]) tt =
    (inr None, tt, before ++ td ++ [Print (str "Download complete!")]) /\
  run (@script sample_unicode unit world [prog; course_url]) tt =
    (inr 0%Z, tt, before ++ td ++ [Print (str "Download complete!")]).
Proof.
  intros world course token before td.
  destruct (@main_survives_video_failures sample_unicode unit world
              [prog; course_url] tt tt tt tt tt three_videos
              [HttpGet course_url]
              [HttpPost (Login (str "user") (str "secret"));
               LogInfo (str "Login successful!");
               Print (str "Login successful! Token obtained")]
              course (str "user") (str "secret") token)
    as (td' & w5 & R & S & A & E & X).
  - left. reflexivity.
  - reflexivity.
  - reflexivity.
  - reflexivity.
  - discriminate.
  - reflexivity.
  - reflexivity.
  - reflexivity.
  - reflexivity.
  - intros p w0 _. reflexivity.
  - destruct w5. assert (T : td' = td) by (now injection R).
    subst td'. repeat split; assumption.
Defined.

Lemma sample_course_wf : wf_course sample_course.
Proof.
  split; [apply nodupb_NoDup; vm_compute; reflexivity|].
  constructor; [apply nodupb_NoDup; vm_compute; reflexivity|].
  constructor; [apply nodupb_NoDup; vm_compute; reflexivity|].
  constructor.
Qed.

Lemma downloader_layout_witness :
  let world := world_of_run three_videos login_ok true in
  let token := JStr (str "tok") in
  let t :=
    [Makedirs (str "submeta-downloads");
     Makedirs (str "submeta-downloads/1. Intro_ basics");
     HttpPost (GetVideoForWatchAuth token (JInt 11));
     YdlDownload (JStr (str "s"))
       (str "submeta-downloads/1. Intro_ basics/1. Welcome_.%(ext)s");
     LogInfo (str "Successfully downloaded: 1. Welcome_");
     HttpPost (GetVideoForWatchAuth token (JInt 13));
     YdlDownload (JStr (str "s"))
       (str "submeta-downloads/1. Intro_ basics/2. Setup.%(ext)s");
     LogInfo (str "Successfully downloaded: 2. Setup");
     Makedirs (str "submeta-downloads/2. Appendix")] in
  run (@downloader sample_unicode unit world sample_course
         [prog; course_url] token) tt = (inr tt, tt, t) /\
  @course_plan sample_unicode unit world token (str "submeta-downloads")
    sample_course tt t tt /\
  flat_map made t =
    [str "submeta-downloads";
     str "submeta-downloads/1. Intro_ basics";
     str "submeta-downloads/2. Appendix"] /\
  is_numeral 2 (of_nat 2) /\
  download_path_of [prog; course_url] = str "submeta-downloads" /\
  download_path_of [prog; course_url; str "out"] = str "out".
Proof.
  intros world token t.
  destruct (@downloader_layout sample_unicode unit world sample_course
              [prog; course_url] token tt sample_course_wf)
    as ((t' & w' & R & S & Mk) & Nm & D2 & D3).
  - intros p w0 _. reflexivity.
  - destruct w'. assert (T : t' = t) by (now injection R).
    subst t'. split; [exact R|]. split; [exact S|]. split; [exact Mk|].
    split; [apply Nm|]. split; [apply D2 | apply D3].
Defined.

(** The layout of the sample course under the default root, and the run of
    the download loop on it. *)
Example sample_layout :
  download_path_of [prog; course_url]
    :: @chapter_dirs sample_unicode (download_path_of [prog; course_url])
         sample_course =
    [str "submeta-downloads";
     str "submeta-downloads/1. Intro_ basics";
     str "submeta-downloads/2. Appendix"] /\
  @templates sample_unicode (str "out/") sample_course =
    [str "out/1. Intro_ basics/1. Welcome_.%(ext)s";
     str "out/1. Intro_ basics/2. Setup.%(ext)s"] /\
  run (@downloader sample_unicode unit (world_all_ok three_videos)
         sample_course [prog; course_url; str "out/"] (JStr (str "tok"))) tt =
    (inr tt, tt,
     [Makedirs (str "out/");
      Makedirs (str "out/1. Intro_ basics");
      HttpPost (GetVideoForWatchAuth (JStr (str "tok")) (JInt 11));
      YdlDownload (JStr (str "s"))
        (str "out/1. Intro_ basics/1. Welcome_.%(ext)s");
      LogInfo (str "Successfully downloaded: 1. Welcome_");
      HttpPost (GetVideoForWatchAuth (JStr (str "tok")) (JInt 13));
      YdlDownload (JStr (str "s"))
        (str "out/1. Intro_ basics/2. Setup.%(ext)s");
      LogInfo (str "Successfully downloaded: 2. Setup");
      Makedirs (str "out/2. Appendix")]).
Proof. vm_compute. repeat split; reflexivity. Qed.

Lemma page_without_json_lacks :
  Forall (lacks_type (str "application/json")) page_without_json.
Proof.
  repeat (constructor; try (intros v [E|[]]; injection E as <-; discriminate);
          try (intros v [])).
Qed.

Lemma main_without_json_element_witness :
  let world :=
    scripted {| page := inr page_without_json;
                loads := fun _ => inr three_videos;
                login := inr login_ok;
                authorize := fun _ => inr (watch_auth "s");
                fetch := fun _ => inr tt;
                mkdir := fun _ => inr tt |} in
  run (@main sample_unicode unit world [prog; course_url]) tt =
    (inr (Some (-1)%Z), tt,
     [HttpGet (nth 1 [prog; course_url] []);
      LogError (str "No JSON data found at URL: " ++ nth 1 [prog; course_url] [])
               NoDetail;
      Print (str "Failed to retrieve JSON data. Check the URL or logs for more information.")]) /\
  filter is_prompt
    (trace_of (@main sample_unicode unit world [prog; course_url]) tt) = [] /\
  filter is_download
    (trace_of (@main sample_unicode unit world [prog; course_url]) tt) = [] /\
  flat_map (fun e => match e with HttpPost r => [r] | _ => [] end)
    (trace_of (@main sample_unicode unit world [prog; course_url]) tt) = [].
Proof.
  intros world.
  apply (@main_without_json_element sample_unicode unit world
           [prog; course_url] tt tt page_without_json).
  - left. reflexivity.
  - reflexivity.
  - exact page_without_json_lacks.
Defined.

(** C2 fails as stated: on a well-formed payload without chapters the run
    does not go past parsing; it reports a parse failure and returns [-1],
    although nothing was logged. *)
Lemma main_rejects_empty_course :
  is_payload (payload []) [] /\
  run (@main sample_unicode unit (world_of_run (payload []) login_ok false)
         [prog; course_url]) tt =
    (inr (Some (-1)%Z), tt,
     [HttpGet course_url;
      Print (str "Failed to parse course data. Check logs for more information.")]).
Proof.
  split; [|reflexivity].
  eexists. split; [reflexivity | constructor].
Qed.

(** * Further properties *)

(** ** sanitize_filename *)

Section SanitizeMore.
Context `{UnicodeData}.

(** X1.  Sanitizing works character by character: the sanitized form of a
    concatenation is the concatenation of the sanitized parts, so a title
    may be sanitized whole or piecewise. *)
Theorem sanitize_filename_app (a b : pystr) :
  sanitize_filename (a ++ b) = sanitize_filename a ++ sanitize_filename b.
Proof.
  rewrite !sanitize_filename_map. apply map_app.
Qed.

Lemma kept_slash : kept slash = false.
Proof. reflexivity. Qed.

Lemma sanitize_filename_no_slash (s : pystr) :
  ~ In slash (sanitize_filename s).
Proof.
  intros I. pose proof (sanitize_filename_kept s) as K.
  rewrite forallb_forall in K. apply K in I. now rewrite kept_slash in I.
Qed.

End SanitizeMore.

(** ** The page *)

Lemma find_append {A} (p : A -> bool) (l1 l2 : list A) :
  find p (l1 ++ l2) =
    match find p l1 with
    | Some x => Some x
    | None => find p l2
    end.
Proof.
  induction l1 as [|a l1 IH]; simpl; [reflexivity|]. now destruct (p a).
Qed.

Lemma find_type_preorder (ty : pystr) (n : node) :
  find_type ty n = find (is_typed ty) (preorder n).
Proof.
  induction n as [s|name attrs contents IH] using node_ind_nested;
    [reflexivity|].
  simpl. destruct (has_type ty attrs); [reflexivity|].
  induction contents as [|c cs IHcs]; [reflexivity|].
  inversion IH as [|? ? IHc IHcs']; subst. simpl.
  rewrite find_append, <- IHc.
  destruct (find_type ty c); [reflexivity|]. now apply IHcs.
Qed.

(** [soup.find(type=ty)] returns the first element, in document order,
    whose [type] attribute equals [ty], and [None] when there is none. *)
Lemma soup_find_document_order (ty : pystr) (soup : list node) :
  soup_find ty soup = find (is_typed ty) (flat_map preorder soup).
Proof.
  induction soup as [|n soup IH]; simpl; [reflexivity|].
  rewrite find_append, <- find_type_preorder.
  now destruct (find_type ty n).
Qed.

Section RunsMore.
Context `{UnicodeData} {W : Type} `{World W}.

Arguments video_token_of : simpl never.
Arguments login_token : simpl never.
Arguments parse_course : simpl never.
Arguments soup_find : simpl never.
Arguments node_string : simpl never.

(** *** get_json *)

(** X3.  [get_json] calls [session.get] once, with the URL, and never
    raises.  Either the page has an element of type [application/json]
    whose first child holds text that [json.loads] parses, and then the
    parsed value is returned and nothing is logged; or exactly one error is
    logged and [None] is returned. *)
Theorem get_json_outcomes (url : pystr) (w : W) :
  (exists (soup : list node) (data child : node) (rest : list node)
          (text : pystr) (v : json) (w' : W),
     session_get url w = (inr soup, w') /\
     soup_find (str "application/json") soup = Some data /\
     children data = child :: rest /\
     node_string child = Some text /\
     json_loads text = inr v /\
     run (get_json url) w = (inr v, w', [HttpGet url])) \/
  (exists msg d,
     run (get_json url) w =
       (inr JNull, snd (session_get url w), [HttpGet url; LogError msg d])).
Proof.
  unfold get_json, get, log_failure, logging_error, emit, call. cbn.
  destruct (session_get url w) as [[e|soup] w1] eqn:G; cbn.
  - right. destruct (is_network_error e); cbn; eauto.
  - destruct (soup_find _ soup) as [data|] eqn:F; cbn; [|right; eauto].
    destruct (children data) as [|child rest] eqn:C; cbn; [right; eauto|].
    destruct (node_string child) as [text|] eqn:S; cbn.
    + destruct (json_loads text) as [e|v] eqn:L; cbn.
      * right. destruct (is_network_error e); cbn; eauto.
      * left. exists soup, data, child, rest, text, v, w1.
        repeat split; assumption.
    + right. eauto.
Qed.

Lemma get_json_found (url : pystr) (w w' : W) (soup : list node)
    (data child : node) (rest : list node) (text : pystr) (v : json) :
  session_get url w = (inr soup, w') ->
  soup_find (str "application/json") soup = Some data ->
  children data = child :: rest ->
  node_string child = Some text ->
  json_loads text = inr v ->
  run (get_json url) w = (inr v, w', [HttpGet url]).
Proof.
  intros G F C S L. unfold get_json, get, emit, call. cbn.
  rewrite G. cbn. rewrite F, C, S. cbn. now rewrite L.
Qed.

(** X4.  A page whose embedded JSON is valid but falsy (an empty object or
    list, zero, the empty string, [false] or [null]) is taken for a
    retrieval failure: [main] prints the retrieval message and returns
    [-1], although [get_json] logged no error. *)
Theorem main_falsy_json (args : list pystr) (w w' : W) (soup : list node)
    (data child : node) (rest : list node) (text : pystr) (v : json) :
  length args = 2 \/ length args = 3 ->
  session_get (nth 1 args []) w = (inr soup, w') ->
  soup_find (str "application/json") soup = Some data ->
  children data = child :: rest ->
  node_string child = Some text ->
  json_loads text = inr v ->
  truthy v = false ->
  run (main args) w =
    (inr (Some (-1)%Z), w',
     [HttpGet (nth 1 args []);
      Print (str "Failed to retrieve JSON data. Check the URL or logs for more information.")]).
Proof.
  intros L G F C S J T.
  pose proof (get_json_found _ _ _ _ _ _ _ _ _ G F C S J) as R.
  now rewrite (main_no_json args w w' v _ L R T).
Qed.

(** *** get_token *)

(** X5.  [get_token] sends exactly one request, the login.  It returns
    either [None], after logging exactly one error, or a truthy token,
    after logging and printing the success; it never returns a falsy
    token, so the caller's test [if not token] is the test for [None]. *)
Theorem get_token_outcomes (username password : pystr) (w : W) :
  (value_of (get_token username password) w = inr JNull /\
   exists msg d,
     trace_of (get_token username password) w =
       [HttpPost (Login username password); LogError msg d]) \/
  (exists token : json,
     value_of (get_token username password) w = inr token /\
     truthy token = true /\
     trace_of (get_token username password) w =
       [HttpPost (Login username password);
        LogInfo (str "Login successful!");
        Print (str "Login successful! Token obtained")]).
Proof.
  unfold trace_of, value_of, get_token, post, log_failure, logging_error,
    logging_info, print, emit, call. cbn.
  destruct (session_post _ w) as [[e|data] w1]; cbn.
  - left. destruct (is_network_error e); cbn; split; eauto.
  - destruct (login_token data) as [e|token]; cbn.
    + left. destruct (is_network_error e); cbn; split; eauto.
    + destruct (truthy token) eqn:T; cbn; [right | left].
      * exists token. repeat split. exact T.
      * split; eauto.
Qed.

(** X6.  A login response whose token is present but falsy (the empty
    string, zero, [false], [null]) is a failed login: [get_token] logs the
    response body and returns [None]. *)
Theorem get_token_falsy_token (username password : pystr) (w w' : W)
    (data token : json) :
  session_post (Login username password) w = (inr data, w') ->
  login_token data = inr token ->
  truthy token = false ->
  run (get_token username password) w =
    (inr JNull, w',
     [HttpPost (Login username password);
      LogError (str "Login failed. Response: ") (Body data)]).
Proof.
  intros P L T. unfold get_token, post, emit, call. cbn. rewrite P. cbn.
  rewrite L. cbn. now rewrite T.
Qed.

End RunsMore.

(** ** get_course *)

Lemma foldM_fails {A B} (f : A -> B -> result A) (l : list B) (b : B) :
  In b l ->
  (forall a, exists e, f a b = inl e) ->
  forall a, exists e, foldM f l a = inl e.
Proof.
  intros I F. induction l as [|b0 l IH]; [contradiction|].
  intros a. simpl. destruct I as [->|I].
  - destruct (F a) as [e ->]. now exists e.
  - destruct (f a b0) as [e|a']; [now exists e|]. simpl. now apply IH.
Qed.

Lemma keys_set {V} (k : pystr) (v : V) (d : Dict.t V) :
  Dict.keys (Dict.set k v d) =
    if existsb (PyStr.eqb k) (Dict.keys d) then Dict.keys d
    else Dict.keys d ++ [k].
Proof.
  induction d as [|[k0 v0] d IH]; simpl; [reflexivity|].
  destruct (PyStr.eqb k k0) eqn:E; simpl.
  - apply eqb_eq in E. now subst.
  - rewrite IH. now destruct (existsb (PyStr.eqb k) (Dict.keys d)).
Qed.

Lemma existsb_filter_other (k a : pystr) (l : list pystr) :
  PyStr.eqb k a = false ->
  existsb (PyStr.eqb k) (filter (fun k' => negb (PyStr.eqb k' a)) l) =
  existsb (PyStr.eqb k) l.
Proof.
  intros N. induction l as [|x l IH]; simpl; [reflexivity|].
  destruct (PyStr.eqb x a) eqn:E; simpl.
  - apply eqb_eq in E. subst x. now rewrite N.
  - now rewrite IH.
Qed.

Lemma existsb_first_occurrences (k : pystr) (l : list pystr) :
  existsb (PyStr.eqb k) (first_occurrences l) = existsb (PyStr.eqb k) l.
Proof.
  induction l as [|a l IH]; simpl; [reflexivity|].
  destruct (PyStr.eqb k a) eqn:E; simpl; [reflexivity|].
  now rewrite existsb_filter_other.
Qed.

Lemma first_occurrences_snoc (l : list pystr) (k : pystr) :
  first_occurrences (l ++ [k]) =
    if existsb (PyStr.eqb k) l then first_occurrences l
    else first_occurrences l ++ [k].
Proof.
  induction l as [|a l IH]; simpl; [reflexivity|].
  rewrite IH. destruct (PyStr.eqb k a) eqn:E; simpl.
  - destruct (existsb (PyStr.eqb k) l); [reflexivity|].
    rewrite filter_app. simpl. rewrite E. simpl. now rewrite app_nil_r.
  - destruct (existsb (PyStr.eqb k) l); [reflexivity|].
    rewrite filter_app. simpl. now rewrite E.
Qed.

Lemma keys_of_entries {V} (es : list (pystr * V)) :
  Dict.keys (Dict.of_entries es) = first_occurrences (map fst es).
Proof.
  induction es as [|e es IH] using rev_ind; [reflexivity|].
  rewrite of_entries_snoc, keys_set, map_app, IH. simpl.
  now rewrite first_occurrences_snoc, existsb_first_occurrences.
Qed.

Section GetCourseMore.
Context `{UnicodeData} {W : Type}.

Lemma add_video_unreadable (chapter_title : pystr) (course : Course)
    (video : json) :
  unreadable_item video ->
  exists e, add_video chapter_title course video = inl e.
Proof.
  intros [e T | e T1 T2 | e T1 T2]; unfold add_video; rewrite ?T, ?T1;
    simpl.
  - now exists e.
  - rewrite T2. now exists e.
  - destruct (getitem video (str "title")) as [e0|title]; simpl;
      [now exists e0|].
    destruct (sanitize_value title) as [e0|video_title]; simpl;
      [now exists e0|].
    rewrite T2. now exists e.
Qed.

Lemma add_chapter_unreadable (course : Course) (chapter : json) :
  unreadable_chapter chapter ->
  exists e, add_chapter course chapter = inl e.
Proof.
  intros U. unfold add_chapter.
  destruct (getitem chapter (str "title")) as [e0|title] eqn:T; simpl;
    [now exists e0|].
  destruct (sanitize_value title) as [e0|chapter_title]; simpl;
    [now exists e0|].
  destruct U as [e T' | e C | items it C I U].
  - congruence.
  - rewrite C. now exists e.
  - rewrite C. simpl.
    apply (foldM_fails _ _ it I).
    intros a. now apply add_video_unreadable.
Qed.

Lemma parse_course_unreadable (json_data : json) (chapters : list json)
    (chapter : json) :
  chapters_of json_data = inr (JArr chapters) ->
  In chapter chapters ->
  unreadable_chapter chapter ->
  exists e, parse_course json_data = inl e.
Proof.
  intros P I U. unfold parse_course. unfold chapters_of in P.
  destruct (getitem json_data (str "props")) as [e|props]; [discriminate|].
  simpl in *.
  destruct (getitem props (str "pageProps")) as [e|pageProps];
    [discriminate|].
  simpl in *.
  destruct (getitem pageProps (str "course")) as [e|course]; [discriminate|].
  simpl in *. rewrite P. simpl.
  apply (foldM_fails _ _ chapter I).
  intros a. now apply add_chapter_unreadable.
Qed.

Lemma get_course_fails (json_data : json) (e : pyexc) (w : W) :
  parse_course json_data = inl e ->
  exists msg,
    run (get_course json_data) w = (inr None, w, [LogError msg (Exc e)]).
Proof.
  intros P. unfold get_course. rewrite P. destruct e; eexists; reflexivity.
Qed.

(** X7.  [get_course] is all or nothing: when any chapter of the list
    lacks [title] or [contents], or any of its items lacks [__typename],
    or any Video item lacks [title] or [id], the function returns [None]
    and logs one error; the chapters read before are discarded. *)
Theorem get_course_all_or_nothing (json_data : json) (chapters : list json)
    (chapter : json) (w : W) :
  chapters_of json_data = inr (JArr chapters) ->
  In chapter chapters ->
  unreadable_chapter chapter ->
  exists msg e,
    run (get_course json_data) w = (inr None, w, [LogError msg (Exc e)]).
Proof.
  intros P I U.
  destruct (parse_course_unreadable _ _ _ P I U) as [e E].
  destruct (get_course_fails _ _ w E) as [msg R]. now exists msg, e.
Qed.

(** X8.  The keys of the parsed course are the sanitized chapter titles
    in the order of their first occurrence in the document, and the keys of
    each chapter are the sanitized titles of its Video items in the order
    of their first occurrence; this order is what the download loop
    numbers. *)
Theorem get_course_key_order (json_data : json) (chapters : list chapter)
    (w : W) :
  is_payload json_data chapters ->
  exists course : Course,
    run (get_course json_data) w = (inr (Some course), w, []) /\
    Dict.keys course =
      first_occurrences
        (map (fun c => sanitize_filename (chapter_title c)) chapters) /\
    forall k ch, Dict.get k course = Some ch ->
      exists c, In c chapters /\
        sanitize_filename (chapter_title c) = k /\
        Dict.keys ch =
          first_occurrences (map fst (video_entries (chapter_contents c))).
Proof.
  intros P. exists (Dict.of_entries (course_entries chapters)).
  split; [apply get_course_returns, parse_course_ok, P|]. split.
  - rewrite keys_of_entries. unfold course_entries, course_spec.
    now rewrite !map_map.
  - intros k ch G. rewrite get_of_entries in G. apply last_entry_In in G.
    unfold course_entries, course_spec in G. rewrite map_map in G.
    apply in_map_iff in G as (c & E & I). simpl in E.
    injection E as <- <-. exists c. repeat split; try assumption.
    apply keys_of_entries.
Qed.

End GetCourseMore.

(** ** downloader *)

Lemma Forall_for_each {W A} (P : event -> Prop) (body : A -> M W unit)
    (l : list A) :
  (forall a w, In a l -> Forall P (trace_of (body a) w)) ->
  forall w, Forall P (trace_of (for_each l body) w).
Proof.
  induction l as [|a l IH]; intros Hb w; [constructor|].
  rewrite for_each_cons, trace_bind. apply Forall_app. split.
  - apply Hb. now left.
  - destruct (value_of (body a) w); [constructor|].
    apply IH. intros a' w' I. apply Hb. now right.
Qed.

Lemma numbered_no_slash (i : nat) (title : pystr) :
  ~ In slash title -> ~ In slash (numbered i title).
Proof.
  intros N I. unfold numbered in I.
  apply in_app_or in I as [I|I].
  - pose proof (of_nat_digits i) as D. rewrite Forall_forall in D.
    apply D in I. unfold slash in I. lia.
  - apply in_app_or in I as [I|I]; [|contradiction].
    unfold str in I. simpl in I. unfold slash in I.
    destruct I as [I|[I|[]]]; discriminate.
Qed.

Lemma under_separator (root name : pystr) :
  under root name = root ++ separator root ++ name.
Proof.
  unfold under, separator.
  now destruct (Nat.eqb (length root) 0 || endswith [slash] root).
Qed.

Lemma endswith_app (suf a b : pystr) :
  length suf <= length b -> endswith suf (a ++ b) = endswith suf b.
Proof.
  intros L. unfold endswith. f_equal.
  rewrite length_app.
  replace (length a + length b - length suf)
    with (length a + (length b - length suf)) by lia.
  rewrite skipn_app, skipn_all2 by lia. simpl. f_equal. lia.
Qed.

Lemma endswith_slash_in (s : pystr) :
  endswith [slash] s = true -> In slash s.
Proof.
  unfold endswith. intros E. apply eqb_eq in E.
  rewrite <- (firstn_skipn (length s - length [slash]) s), E.
  apply in_or_app. right. now left.
Qed.

Lemma numbered_not_empty (i : nat) (title : pystr) :
  1 <= length (numbered i title).
Proof.
  unfold numbered. destruct (of_nat_digit i) as (c & r & -> & _).
  simpl. lia.
Qed.

(** A file in a chapter directory: the directory does not end with a
    separator, so exactly one is inserted. *)
Lemma under_chapter_dir (root : pystr) (i : nat) (title file : pystr) :
  ~ In slash title ->
  under (under root (numbered i title)) file =
    root ++ separator root ++ numbered i title ++ [slash] ++ file.
Proof.
  intros N. rewrite (under_separator root).
  pose proof (numbered_not_empty i title) as L.
  unfold under. rewrite !length_app.
  replace (Nat.eqb (length root + (length (separator root)
                                   + length (numbered i title))) 0)
    with false by (symmetry; apply Nat.eqb_neq; lia).
  rewrite app_assoc, endswith_app by (simpl; lia).
  destruct (endswith [slash] (numbered i title)) eqn:E.
  - apply endswith_slash_in in E. now apply numbered_no_slash in E.
  - simpl. now rewrite <- !app_assoc.
Qed.

Section DownloaderMore.
Context `{UnicodeData} {W : Type} `{World W}.

Arguments video_token_of : simpl never.

(** The three ways an iteration of the inner loop can go. *)
Lemma download_video_cases (course : Course) (token : json)
    (chapter chapter_path video : pystr) (w : W) :
  let ch := at_key [] course chapter in
  let filename :=
    numbered (list_index video (Dict.keys ch) + 1) (sanitize_filename video) in
  let tmpl := path_join chapter_path (filename ++ str ".%(ext)s") in
  let req := GetVideoForWatchAuth token (at_key JNull ch video) in
  let t := trace_of (download_video course token chapter chapter_path video) w in
  (exists msg e,
     t = [HttpPost req; LogError msg (Exc e)] /\
     forall data, fst (session_post req w) = inr data ->
                  video_token_of data = inl e) \/
  (exists data vt,
     fst (session_post req w) = inr data /\
     video_token_of data = inr vt /\
     ((exists msg e,
         t = [HttpPost req; YdlDownload vt tmpl; LogError msg (Exc e)] /\
         fst (ydl_download vt tmpl (snd (session_post req w))) = inl e) \/
      (t = [HttpPost req; YdlDownload vt tmpl;
            LogInfo (str "Successfully downloaded: " ++ filename)] /\
       fst (ydl_download vt tmpl (snd (session_post req w))) = inr tt))).
Proof.
  intros ch filename tmpl req t. subst t.
  unfold trace_of, download_video, post, log_failure, logging_error,
    logging_info, emit, call. fold ch. fold filename. fold tmpl. fold req.
  cbn.
  destruct (session_post req w) as [[e|data] w1]; cbn.
  - left. destruct (is_network_error e); cbn; eexists _, e;
      (split; [reflexivity | discriminate]).
  - destruct (video_token_of data) as [e|vt] eqn:V; cbn.
    + left. destruct (is_network_error e); cbn; eexists _, e;
        (split; [reflexivity | intros d [= <-]; exact V]).
    + right. exists data, vt. split; [reflexivity|]. split; [exact V|].
      destruct (ydl_download vt tmpl w1) as [[e|[]] w2]; cbn.
      * left. destruct (is_network_error e); cbn; eexists _, e;
          (split; reflexivity).
      * right. split; reflexivity.
Qed.

(** A loop that follows the creation of a directory: when the creation
    raises, the trace ends there. *)
Lemma after_makedirs (path : pystr) (rest : M W unit) (w : W) :
  trace_of (makedirs path ;; rest) w =
    Makedirs path
    :: match fst (os_makedirs path w) with
       | inl _ => []
       | inr _ => trace_of rest (snd (os_makedirs path w))
       end.
Proof.
  unfold trace_of. rewrite run_bind.
  destruct (os_makedirs path w) as [r w1] eqn:E.
  rewrite (makedirs_run _ _ _ _ E). simpl.
  destruct r as [e|[]]; [reflexivity|].
  now destruct (run rest w1) as [[b w2] t2].
Qed.

Lemma download_chapter_unfold (course : Course) (token : json)
    (root chapter : pystr) (w : W) :
  let dir :=
    path_join root
      (numbered (list_index chapter (Dict.keys course) + 1)
                (sanitize_filename chapter)) in
  trace_of (download_chapter course token root chapter) w =
    Makedirs dir
    :: match fst (os_makedirs dir w) with
       | inl _ => []
       | inr _ =>
           trace_of
             (for_each (Dict.keys (at_key [] course chapter))
                (download_video course token chapter dir))
             (snd (os_makedirs dir w))
       end.
Proof. apply after_makedirs. Qed.

Lemma downloader_unfold (course : Course) (args : list pystr) (token : json)
    (w : W) :
  trace_of (downloader course args token) w =
    Makedirs (download_path_of args)
    :: match fst (os_makedirs (download_path_of args) w) with
       | inl _ => []
       | inr _ =>
           trace_of
             (for_each (Dict.keys course)
                (download_chapter course token (download_path_of args)))
             (snd (os_makedirs (download_path_of args) w))
       end.
Proof. apply after_makedirs. Qed.

(** Whatever holds of the root directory event, of every chapter
    directory event and of every event of an iteration of the inner loop
    holds of every event of the download loop. *)
Lemma downloader_Forall (P : event -> Prop) (course : Course)
    (args : list pystr) (token : json) :
  P (Makedirs (download_path_of args)) ->
  (forall chapter,
     P (Makedirs
          (path_join (download_path_of args)
             (numbered (list_index chapter (Dict.keys course) + 1)
                       (sanitize_filename chapter))))) ->
  (forall chapter video w,
     Forall P
       (trace_of
          (download_video course token chapter
             (path_join (download_path_of args)
                (numbered (list_index chapter (Dict.keys course) + 1)
                          (sanitize_filename chapter)))
             video) w)) ->
  forall w, Forall P (trace_of (downloader course args token) w).
Proof.
  intros Proot Pdir Pvideo w. rewrite downloader_unfold.
  constructor; [exact Proot|].
  destruct (fst (os_makedirs (download_path_of args) w)); [constructor|].
  apply Forall_for_each. intros chapter w1 _.
  rewrite download_chapter_unfold. constructor; [apply Pdir|].
  destruct (fst (os_makedirs _ w1)); [constructor|].
  apply Forall_for_each. intros video w2 _. apply Pvideo.
Qed.

(** X9.  The download loop only creates directories, asks the platform to
    authorize videos, calls the download tool and logs; every request it
    sends carries the token it was given.  It never prints, prompts,
    fetches a page or logs in. *)
Theorem downloader_events (course : Course) (args : list pystr)
    (token : json) (w : W) :
  Forall (downloader_event token) (trace_of (downloader course args token) w).
Proof.
  apply downloader_Forall.
  - exact I.
  - intros chapter. exact I.
  - intros chapter video w0.
    destruct (download_video_cases course token chapter
                (path_join (download_path_of args)
                   (numbered (list_index chapter (Dict.keys course) + 1)
                             (sanitize_filename chapter))) video w0)
      as [(msg & e & -> & _) | (data & vt & _ & _ &
            [(msg & e & -> & _) | (-> & _)])];
      repeat constructor.
Qed.

(** X10.  No title can move a download out of the destination root.
    Every directory the loop creates is the root or lies directly in it,
    and every output template names a file directly in such a directory:
    the names of the directory and of the file contain no path
    separator. *)
Theorem downloader_stays_under_root (course : Course) (args : list pystr)
    (token : json) (w : W) :
  Forall
    (fun e =>
       match e with
       | Makedirs p =>
           p = download_path_of args \/
           exists dir,
             p = download_path_of args ++ separator (download_path_of args)
                   ++ dir /\
             ~ In slash dir
       | YdlDownload _ o =>
           exists dir file,
             o = download_path_of args ++ separator (download_path_of args)
                   ++ dir ++ [slash] ++ file /\
             ~ In slash dir /\ ~ In slash file
       | _ => True
       end)
    (trace_of (downloader course args token) w).
Proof.
  apply downloader_Forall.
  - now left.
  - intros chapter. right. eexists. split.
    + rewrite path_join_numbered_nil. apply under_separator.
    + apply numbered_no_slash, sanitize_filename_no_slash.
  - intros chapter video w0.
    assert (T : exists dir file,
              path_join
                (path_join (download_path_of args)
                   (numbered (list_index chapter (Dict.keys course) + 1)
                             (sanitize_filename chapter)))
                (numbered
                   (list_index video
                      (Dict.keys (at_key [] course chapter)) + 1)
                   (sanitize_filename video) ++ str ".%(ext)s") =
              download_path_of args ++ separator (download_path_of args)
                ++ dir ++ [slash] ++ file /\
              ~ In slash dir /\ ~ In slash file).
    { eexists _, _. split; [|split].
      - rewrite path_join_numbered_nil, path_join_numbered.
        apply under_chapter_dir, sanitize_filename_no_slash.
      - apply numbered_no_slash, sanitize_filename_no_slash.
      - intros I. apply in_app_or in I as [I|I].
        + revert I. apply numbered_no_slash, sanitize_filename_no_slash.
        + unfold str, slash in I. simpl in I.
          repeat (destruct I as [I|I]; [discriminate|]). exact I. }
    destruct (download_video_cases course token chapter
                (path_join (download_path_of args)
                   (numbered (list_index chapter (Dict.keys course) + 1)
                             (sanitize_filename chapter))) video w0)
      as [(msg & e & -> & _) | (data & vt & _ & _ &
            [(msg & e & -> & _) | (-> & _)])];
      repeat constructor; exact T.
Qed.

End DownloaderMore.

(** ** Numbered names are distinct *)

Lemma map_N_of_ascii_inj (a b : list ascii) :
  map N_of_ascii a = map N_of_ascii b -> a = b.
Proof.
  revert b. induction a as [|x a IH]; intros [|y b]; simpl; try discriminate;
    [reflexivity|].
  intros [= E1 E2]. f_equal; [|now apply IH].
  rewrite <- (ascii_N_embedding x), <- (ascii_N_embedding y). now rewrite E1.
Qed.

Lemma of_nat_inj (i j : nat) : of_nat i = of_nat j -> i = j.
Proof.
  unfold of_nat, str. intros E. apply map_N_of_ascii_inj in E.
  apply (f_equal string_of_list_ascii) in E.
  rewrite !string_of_list_ascii_of_string in E.
  apply (f_equal NilEmpty.uint_of_string) in E.
  rewrite !NilEmpty.usu in E. injection E as E.
  now apply DecimalNat.Unsigned.to_uint_inj.
Qed.

Lemma digit_prefix_unique (d1 d2 r1 r2 : pystr) :
  Forall (fun c => (48 <= c <= 57)%N) d1 ->
  Forall (fun c => (48 <= c <= 57)%N) d2 ->
  d1 ++ dot :: r1 = d2 ++ dot :: r2 -> d1 = d2.
Proof.
  intros D1. revert d2. induction D1 as [|c d1 Hc _ IH];
    intros d2 D2 E; destruct D2 as [|c' d2 Hc' D2]; simpl in E.
  - reflexivity.
  - injection E as E _. unfold dot in E. lia.
  - injection E as E _. unfold dot in E. lia.
  - injection E as -> E. f_equal. now apply IH.
Qed.

(** The position is read off the digits before the first dot. *)
Lemma numbered_index_inj (i j : nat) (t t' r r' : pystr) :
  numbered i t ++ r = numbered j t' ++ r' -> i = j.
Proof.
  unfold numbered, str. simpl. rewrite <- !app_assoc. simpl.
  intros E. apply of_nat_inj.
  apply (digit_prefix_unique _ _ _ _ (of_nat_digits i) (of_nat_digits j) E).
Qed.

Lemma list_index_inj (a b : pystr) (l : list pystr) :
  In a l -> list_index a l = list_index b l -> a = b.
Proof.
  induction l as [|k l IH]; simpl; [contradiction|].
  intros I E.
  destruct (PyStr.eqb a k) eqn:Ea, (PyStr.eqb b k) eqn:Eb; try discriminate.
  - apply eqb_eq in Ea, Eb. congruence.
  - injection E as E. apply IH; [|exact E].
    destruct I as [->|I]; [|exact I]. now rewrite eqb_refl in Ea.
Qed.

Lemma NoDup_flat_map_key {A X K} (g : A -> list X) (h : A -> K)
    (l : list A) :
  NoDup (map h l) ->
  (forall a, In a l -> NoDup (g a)) ->
  (forall a b x, In a l -> In b l -> In x (g a) -> In x (g b) -> h a = h b) ->
  NoDup (flat_map g l).
Proof.
  induction l as [|a l IH]; simpl; intros N G C; [constructor|].
  inversion N as [|? ? N1 N2]; subst.
  apply NoDup_app.
  - apply G. now left.
  - apply IH; [exact N2 | intros; apply G; now right |].
    intros a' b x Ia Ib. apply C; now right.
  - intros x Ix Iy. apply in_flat_map in Iy as (b & Ib & Iy).
    apply N1. rewrite (C a b x); [now apply in_map | now left | now right
                                  | exact Ix | exact Iy].
Qed.

Lemma NoDup_for_each {W A X} (proj : event -> list X) (g : A -> list X)
    (body : A -> M W unit) (l : list A) :
  (forall a w, In a l ->
     NoDup (flat_map proj (trace_of (body a) w)) /\
     incl (flat_map proj (trace_of (body a) w)) (g a)) ->
  NoDup (flat_map g l) ->
  forall w, NoDup (flat_map proj (trace_of (for_each l body) w)).
Proof.
  induction l as [|a l IH]; intros Hb N w; [constructor|].
  rewrite for_each_cons, trace_bind, flat_map_app. simpl in N.
  destruct (value_of (body a) w) as [e|[]];
    [rewrite app_nil_r; apply Hb; now left|].
  apply NoDup_app.
  - apply Hb. now left.
  - apply IH; [intros; apply Hb; now right |].
    now apply NoDup_app_remove_l in N.
  - intros x Ix Iy.
    assert (I1 : In x (g a)) by (destruct (Hb a w (or_introl eq_refl))
                                   as [_ S]; now apply S).
    assert (I2 : In x (flat_map g l)).
    { revert Iy. apply incl_for_each. intros a' w' I'.
      apply Hb. now right. }
    clear - N I1 I2. induction (g a) as [|y ys IHys]; [contradiction|].
    simpl in N. inversion N as [|? ? N1 N2]; subst.
    destruct I1 as [->|I1].
    + apply N1. apply in_or_app. now right.
    + now apply IHys.
Qed.

Section DownloaderOrder.
Context `{UnicodeData} {W : Type} `{World W}.

(** The output template of video [j] in chapter directory [i]. *)
Lemma template_shape (root : pystr) (i j : nat) (k v : pystr) :
  path_join (path_join root (numbered i (sanitize_filename k)))
            (numbered j (sanitize_filename v) ++ str ".%(ext)s") =
  root ++ separator root ++ numbered i (sanitize_filename k) ++ [slash]
       ++ numbered j (sanitize_filename v) ++ str ".%(ext)s".
Proof.
  rewrite path_join_numbered_nil, path_join_numbered.
  apply under_chapter_dir, sanitize_filename_no_slash.
Qed.

Lemma template_chapter_inj (root : pystr) (i i' j j' : nat)
    (k k' v v' : pystr) :
  path_join (path_join root (numbered i (sanitize_filename k)))
            (numbered j (sanitize_filename v) ++ str ".%(ext)s") =
  path_join (path_join root (numbered i' (sanitize_filename k')))
            (numbered j' (sanitize_filename v') ++ str ".%(ext)s") ->
  i = i'.
Proof.
  rewrite !template_shape. intros E.
  apply app_inv_head in E. apply app_inv_head in E.
  now apply numbered_index_inj in E.
Qed.

Lemma template_video_inj (dir : pystr) (j j' : nat) (v v' : pystr) :
  path_join dir (numbered j (sanitize_filename v) ++ str ".%(ext)s") =
  path_join dir (numbered j' (sanitize_filename v') ++ str ".%(ext)s") ->
  j = j'.
Proof.
  rewrite !path_join_numbered, !under_separator. intros E.
  apply app_inv_head in E. apply app_inv_head in E.
  now apply numbered_index_inj in E.
Qed.

Lemma download_video_outtmpl (course : Course) (token : json)
    (chapter dir video : pystr) (w : W) :
  NoDup (flat_map outtmpl
           (trace_of (download_video course token chapter dir video) w)) /\
  incl (flat_map outtmpl
          (trace_of (download_video course token chapter dir video) w))
       [path_join dir
          (numbered (list_index video
                       (Dict.keys (at_key [] course chapter)) + 1)
                    (sanitize_filename video) ++ str ".%(ext)s")].
Proof.
  destruct (download_video_cases course token chapter dir video w)
    as [(msg & e & -> & _) | (data & vt & _ & _ &
          [(msg & e & -> & _) | (-> & _)])]; simpl; split.
  - constructor.
  - intros x [].
  - constructor; [intros [] | constructor].
  - intros x I. exact I.
  - constructor; [intros [] | constructor].
  - intros x I. exact I.
Qed.

Lemma chapter_templates_NoDup (course : Course) (chapter dir : pystr) :
  NoDup (Dict.keys (at_key [] course chapter)) ->
  NoDup
    (flat_map
       (fun video =>
          [path_join dir
             (numbered (list_index video
                          (Dict.keys (at_key [] course chapter)) + 1)
                       (sanitize_filename video) ++ str ".%(ext)s")])
       (Dict.keys (at_key [] course chapter))).
Proof.
  intros N. apply (NoDup_flat_map_key _ (fun v : pystr => v)).
  - now rewrite map_id.
  - intros v _. constructor; [intros [] | constructor].
  - intros a b x Ia Ib [<-|[]] [E|[]].
    apply template_video_inj in E.
    symmetry. apply (list_index_inj _ _ _ Ib). lia.
Qed.

Lemma download_chapter_outtmpl (course : Course) (token : json)
    (root chapter : pystr) (w : W) :
  NoDup (Dict.keys (at_key [] course chapter)) ->
  NoDup (flat_map outtmpl
           (trace_of (download_chapter course token root chapter) w)) /\
  incl (flat_map outtmpl
          (trace_of (download_chapter course token root chapter) w))
       (flat_map
          (fun video =>
             [path_join
                (path_join root
                   (numbered (list_index chapter (Dict.keys course) + 1)
                             (sanitize_filename chapter)))
                (numbered (list_index video
                             (Dict.keys (at_key [] course chapter)) + 1)
                          (sanitize_filename video) ++ str ".%(ext)s")])
          (Dict.keys (at_key [] course chapter))).
Proof.
  intros N. rewrite download_chapter_unfold. simpl.
  destruct (fst (os_makedirs _ w)); [split; [constructor | intros x []]|].
  split.
  - apply NoDup_for_each
      with (g := fun video =>
                   [path_join
                      (path_join root
                         (numbered (list_index chapter (Dict.keys course) + 1)
                                   (sanitize_filename chapter)))
                      (numbered (list_index video
                                   (Dict.keys (at_key [] course chapter)) + 1)
                                (sanitize_filename video) ++ str ".%(ext)s")]).
    + intros v w0 _. apply download_video_outtmpl.
    + now apply chapter_templates_NoDup.
  - apply incl_for_each. intros v w0 _. apply download_video_outtmpl.
Qed.

(** X11.  In one run the download tool is never given the same output
    template twice: two videos of a course (a dictionary, so without
    duplicate keys) never share a target file, even when their titles
    are equal or sanitize to the same string in different chapters. *)
Theorem downloader_distinct_templates (course : Course) (args : list pystr)
    (token : json) (w : W) :
  wf_course course ->
  NoDup (flat_map outtmpl (trace_of (downloader course args token) w)).
Proof.
  intros WF. rewrite downloader_unfold. simpl.
  destruct (fst (os_makedirs _ w)); [constructor|].
  apply NoDup_for_each
    with (g := fun chapter =>
                 flat_map
                   (fun video =>
                      [path_join
                         (path_join (download_path_of args)
                            (numbered
                               (list_index chapter (Dict.keys course) + 1)
                               (sanitize_filename chapter)))
                         (numbered
                            (list_index video
                               (Dict.keys (at_key [] course chapter)) + 1)
                            (sanitize_filename video) ++ str ".%(ext)s")])
                   (Dict.keys (at_key [] course chapter))).
  - intros k w0 I. now apply download_chapter_outtmpl, wf_course_chapter.
  - apply (NoDup_flat_map_key _ (fun k : pystr => k)).
    + rewrite map_id. apply WF.
    + intros k I. now apply chapter_templates_NoDup, wf_course_chapter.
    + intros a b x Ia Ib Ix Iy.
      apply in_flat_map in Ix as (v & _ & [<-|[]]).
      apply in_flat_map in Iy as (v' & _ & [E|[]]).
      apply template_chapter_inj in E.
      symmetry. apply (list_index_inj _ _ _ Ib). lia.
Qed.

(** X12.  When the platform never yields a stream token (every
    authorization request fails, or its answer has no
    [data.result.video.token]), the download tool is never called and no
    success is logged. *)
Theorem downloader_without_stream_token (course : Course)
    (args : list pystr) (token : json) (w : W) :
  (forall tok id w0 data,
     fst (session_post (GetVideoForWatchAuth tok id) w0) = inr data ->
     exists e, video_token_of data = inl e) ->
  Forall (fun e => match e with
                   | YdlDownload _ _ | LogInfo _ => False
                   | _ => True
                   end)
         (trace_of (downloader course args token) w).
Proof.
  intros NoToken. apply downloader_Forall.
  - exact I.
  - intros chapter. exact I.
  - intros chapter video w0.
    destruct (download_video_cases course token chapter
                (path_join (download_path_of args)
                   (numbered (list_index chapter (Dict.keys course) + 1)
                             (sanitize_filename chapter))) video w0)
      as [(msg & e & -> & _) | (data & vt & P & V & _)].
    + repeat constructor.
    + destruct (NoToken _ _ _ _ P) as [e E]. congruence.
Qed.

End DownloaderOrder.

Section DownloaderSuccess.
Context `{UnicodeData} {W : Type} `{World W}.

Lemma map_of_flat_map {A B C} (f : B -> C) (g : A -> list B) (l : list A) :
  map f (flat_map g l) = flat_map (fun a => map f (g a)) l.
Proof.
  induction l as [|a l IH]; simpl; [reflexivity|].
  now rewrite map_app, IH.
Qed.

(** An attempt in a world where the platform always yields a stream token
    and the download tool never raises. *)
Lemma attempt_succeeds (token id : json) (stem tmpl : pystr) (w w' : W)
    (t : list event) :
  (forall tok id w0,
     exists data vt,
       fst (session_post (GetVideoForWatchAuth tok id) w0) = inr data /\
       video_token_of data = inr vt) ->
  (forall vt o w0, fst (ydl_download vt o w0) = inr tt) ->
  attempt token id stem tmpl w t w' ->
  flat_map outtmpl t = [tmpl] /\
  filter is_log t = [LogInfo (str "Successfully downloaded: " ++ stem)].
Proof.
  intros A B S. destruct (A token id w) as (data0 & vt0 & P0 & V0).
  destruct S as [e w1 P | data e w1 P V | data vt e w1 w2 P V D
                 | data vt w1 w2 P V D].
  - rewrite P in P0. discriminate.
  - rewrite P in P0. injection P0 as <-. congruence.
  - pose proof (B vt tmpl w1) as D0. rewrite D in D0. discriminate.
  - now split.
Qed.

(** X13.  When the directories can be created, every authorization
    yields a stream token and the download tool never raises, the download
    loop returns, the tool is called once per video, in course order, with
    the template [{root}/{i}. {chapter}/{j}. {video}.%(ext)s], and the log
    holds one success line per video. *)
Theorem downloader_all_succeed (course : Course) (args : list pystr)
    (token : json) (w : W) :
  wf_course course ->
  creatable (download_path_of args) course ->
  (forall tok id w0,
     exists data vt,
       fst (session_post (GetVideoForWatchAuth tok id) w0) = inr data /\
       video_token_of data = inr vt) ->
  (forall vt o w0, fst (ydl_download vt o w0) = inr tt) ->
  value_of (downloader course args token) w = inr tt /\
  flat_map outtmpl (trace_of (downloader course args token) w) =
    templates (download_path_of args) course /\
  filter is_log (trace_of (downloader course args token) w) =
    map (fun stem => LogInfo (str "Successfully downloaded: " ++ stem))
        (flat_map (fun e => video_stems (snd e)) course).
Proof.
  intros WF Mk A B.
  destruct (downloader_run course args token w WF Mk) as (t & w' & R & S).
  unfold value_of, trace_of. rewrite R. simpl.
  split; [reflexivity|].
  apply course_plan_inv in S as (w1 & t2 & _ & -> & S). simpl. split.
  - unfold templates. revert S. apply flat_map_steps.
    intros ie w0 t0 w0' _ C.
    apply chapter_plan_inv in C as (w2 & t3 & _ & -> & C). simpl.
    unfold video_stems. rewrite map_map, <- flat_map_singleton.
    revert C. apply flat_map_steps. intros jv w3 t4 w4 _ V.
    now apply (attempt_succeeds _ _ _ _ _ _ _ A B) in V.
  - rewrite <- (snd_enumerate course) at 1.
    rewrite flat_map_keys, map_of_flat_map.
    revert S. apply filter_steps. intros ie w0 t0 w0' _ C.
    apply chapter_plan_inv in C as (w2 & t3 & _ & -> & C). simpl.
    unfold video_stems. rewrite map_map, <- flat_map_singleton.
    revert C. apply filter_steps. intros jv w3 t4 w4 _ V.
    now apply (attempt_succeeds _ _ _ _ _ _ _ A B) in V.
Qed.

End DownloaderSuccess.

(** ** main *)

Lemma args_accepted (args : list pystr) :
  negb (existsb (Nat.eqb (length args)) [2; 3]) = false ->
  length args = 2 \/ length args = 3.
Proof.
  simpl. rewrite orb_false_r. intros E. apply negb_false_iff in E.
  apply orb_true_iff in E as [E|E]; apply Nat.eqb_eq in E; auto.
Qed.

Lemma video_ids_spec `{UnicodeData} (chapters : list chapter) :
  video_ids (course_spec chapters) =
    flat_map (fun c => item_ids (chapter_contents c)) chapters.
Proof.
  unfold video_ids, course_spec. rewrite flat_map_keys. simpl.
  apply flat_map_ext. intros c. unfold item_ids.
  induction (chapter_contents c) as [|[title id|] items IH]; simpl;
    congruence.
Qed.

Section MainMore.
Context `{UnicodeData} {W : Type} `{World W}.

Arguments login_token : simpl never.
Arguments soup_find : simpl never.
Arguments node_string : simpl never.

Lemma quiet_append (t1 t2 : list event) :
  flat_map made t1 = [] -> filter is_download t1 = [] ->
  flat_map made t2 = [] -> filter is_download t2 = [] ->
  flat_map made (t1 ++ t2) = [] /\ filter is_download (t1 ++ t2) = [].
Proof.
  intros M1 D1 M2 D2. rewrite flat_map_app, filter_app, M1, M2, D1, D2.
  now split.
Qed.

Lemma get_json_quiet (url : pystr) (w : W) :
  (exists v, value_of (get_json url) w = inr v) /\
  flat_map made (trace_of (get_json url) w) = [] /\
  filter is_download (trace_of (get_json url) w) = [].
Proof.
  unfold value_of, trace_of, get_json, get, log_failure, logging_error,
    emit, call.
  cbn. destruct (session_get url w) as [[e|soup] w1]; cbn.
  - destruct (is_network_error e); cbn; eauto.
  - destruct (soup_find _ soup) as [data|]; cbn; [|eauto].
    destruct (children data) as [|child rest]; cbn; [eauto|].
    destruct (loads_string (node_string child)) as [e|v]; cbn;
      [|eauto].
    destruct (is_network_error e); cbn; eauto.
Qed.

Lemma get_token_quiet (username password : pystr) (w : W) :
  (exists token, value_of (get_token username password) w = inr token) /\
  flat_map made (trace_of (get_token username password) w) = [] /\
  filter is_download (trace_of (get_token username password) w) = [].
Proof.
  unfold value_of, trace_of, get_token, post, log_failure, logging_error,
    logging_info, print, emit, call. cbn.
  destruct (session_post _ w) as [[e|data] w1]; cbn.
  - destruct (is_network_error e); cbn; eauto.
  - destruct (login_token data) as [e|token]; cbn.
    + destruct (is_network_error e); cbn; eauto.
    + destruct (truthy token); cbn; eauto.
Qed.

Lemma value_bind {A B} (m : M W A) (k : A -> M W B) (w : W) :
  value_of (bind m k) w =
    match value_of m w with
    | inl e => inl e
    | inr a => value_of (k a) (world_of m w)
    end.
Proof.
  unfold value_of, world_of. rewrite run_bind.
  destruct (run m w) as [[[e|a] w1] t1]; simpl; [reflexivity|].
  now destruct (run (k a) w1) as [[b w2] t2].
Qed.

(** A loop raises only when an iteration does, and then it ends with that
    iteration. *)
Lemma for_each_raises {A} (Q : event -> Prop) (body : A -> M W unit)
    (l : list A) :
  (forall a w e, In a l -> value_of (body a) w = inl e ->
     exists pre c, trace_of (body a) w = pre ++ [c] /\ Q c) ->
  forall w e, value_of (for_each l body) w = inl e ->
    exists pre c, trace_of (for_each l body) w = pre ++ [c] /\ Q c.
Proof.
  induction l as [|a l IH]; intros Hb w e V; [discriminate V|].
  rewrite for_each_cons in *. rewrite value_bind in V. rewrite trace_bind.
  destruct (value_of (body a) w) as [e0|[]] eqn:Va.
  - destruct (Hb a w e0 (or_introl eq_refl) Va) as (pre & c & -> & Qc).
    exists pre, c. now rewrite app_nil_r.
  - destruct (IH (fun a' w' e' I => Hb a' w' e' (or_intror I)) _ e V)
      as (pre & c & -> & Qc).
    exists (trace_of (body a) w ++ pre), c. now rewrite app_assoc.
Qed.

Lemma after_makedirs_raises (path : pystr) (rest : M W unit) (w : W)
    (e : pyexc) :
  (forall w0 e0, value_of rest w0 = inl e0 ->
     exists pre p, trace_of rest w0 = pre ++ [Makedirs p]) ->
  value_of (makedirs path ;; rest) w = inl e ->
  exists pre p, trace_of (makedirs path ;; rest) w = pre ++ [Makedirs p].
Proof.
  intros Hr V. rewrite after_makedirs. rewrite value_bind in V.
  unfold value_of, world_of in V.
  destruct (os_makedirs path w) as [r w1] eqn:E.
  rewrite (makedirs_run _ _ _ _ E) in V. simpl in *.
  destruct r as [e0|[]].
  - now exists [], path.
  - destruct (Hr w1 e V) as (pre & p & ->).
    now exists (Makedirs path :: pre), p.
Qed.

Lemma inner_loop_returns (course : Course) (token : json)
    (chapter dir : pystr) (l : list pystr) (w : W) :
  exists e, value_of (for_each l (download_video course token chapter dir)) w
            = inr e.
Proof.
  destruct (for_each_steps (fun _ _ _ _ => True)
              (download_video course token chapter dir) l) with (w := w)
    as (t & w' & R & _).
  - intros video w3 _.
    destruct (download_video_run course token chapter dir video w3)
      as (t & w' & R & _).
    now exists t, w'.
  - exists tt. unfold value_of. now rewrite R.
Qed.

Lemma download_chapter_raises (course : Course) (token : json)
    (root chapter : pystr) (w : W) (e : pyexc) :
  value_of (download_chapter course token root chapter) w = inl e ->
  exists pre c,
    trace_of (download_chapter course token root chapter) w = pre ++ [c] /\
    exists p, c = Makedirs p.
Proof.
  intros V.
  destruct (after_makedirs_raises
              (path_join root
                 (numbered (list_index chapter (Dict.keys course) + 1)
                           (sanitize_filename chapter)))
              (for_each (Dict.keys (at_key [] course chapter))
                 (download_video course token chapter
                    (path_join root
                       (numbered (list_index chapter (Dict.keys course) + 1)
                                 (sanitize_filename chapter)))))
              w e) as (pre & p & E).
  - intros w0 e0 V0.
    destruct (inner_loop_returns course token chapter
                (path_join root
                   (numbered (list_index chapter (Dict.keys course) + 1)
                             (sanitize_filename chapter)))
                (Dict.keys (at_key [] course chapter)) w0) as [u U].
    rewrite U in V0. discriminate V0.
  - exact V.
  - exists pre, (Makedirs p). split; [exact E | now exists p].
Qed.

(** The download loop raises only when a directory cannot be created, and
    then it ends with that attempt. *)
Lemma downloader_raises (course : Course) (args : list pystr) (token : json)
    (w : W) (e : pyexc) :
  value_of (downloader course args token) w = inl e ->
  exists pre p,
    trace_of (downloader course args token) w = pre ++ [Makedirs p].
Proof.
  apply after_makedirs_raises. intros w0 e0 V.
  destruct (for_each_raises (fun c => exists p, c = Makedirs p)
              (download_chapter course token (download_path_of args))
              (Dict.keys course)) with (w := w0) (e := e0)
    as (pre & c & E & p & ->).
  - intros chapter w1 e1 _. apply download_chapter_raises.
  - exact V.
  - now exists pre, p.
Qed.

(** X14.  Every run of [main] ends in one of three ways.  Either it falls
    off its end, and then the last thing it did was to print "Download
    complete!"; or it returns [-1], and then the last thing it did was to
    print one of its four failure messages, and it has created no
    directory and attempted no download; or an exception escapes, and
    then the last thing it did was a call outside every [try] block (a
    prompt or the creation of a directory), and the exit status is 1. *)
Theorem main_outcomes (args : list pystr) (w : W) :
  (value_of (main args) w = inr None /\
   exists pre,
     trace_of (main args) w = pre ++ [Print (str "Download complete!")]) \/
  (value_of (main args) w = inr (Some (-1)%Z) /\
   flat_map made (trace_of (main args) w) = [] /\
   filter is_download (trace_of (main args) w) = [] /\
   exists pre msg,
     trace_of (main args) w = pre ++ [Print msg] /\
     In msg failure_messages) \/
  (exists e : pyexc,
     value_of (main args) w = inl e /\
     value_of (script args) w = inr 1%Z /\
     exists pre c,
       trace_of (main args) w = pre ++ [c] /\ is_unguarded c = true).
Proof.
  assert (escapes : forall (e : pyexc) (w' : W) (pre : list event)
                           (c : event),
            run (main args) w = (inl e, w', pre ++ [c]) ->
            is_unguarded c = true ->
            exists e : pyexc,
              value_of (main args) w = inl e /\
              value_of (script args) w = inr 1%Z /\
              exists pre c,
                trace_of (main args) w = pre ++ [c] /\
                is_unguarded c = true).
  { intros e w' pre c R U. exists e. unfold value_of, trace_of.
    rewrite (script_run _ _ _ _ _ R), R. simpl.
    split; [reflexivity|]. split; [reflexivity|]. now exists pre, c. }
  destruct (negb (existsb (Nat.eqb (length args)) [2; 3])) eqn:A.
  - right. left. unfold value_of, trace_of, main. rewrite A.
    repeat split. exists [], (str "usage: submeta-dl.py <URL> <download path(optional)>").
    split; [reflexivity | now left].
  - apply args_accepted in A.
    destruct (get_json_quiet (nth 1 args []) w) as ((json_data & V1) & Q1).
    destruct (run (get_json (nth 1 args [])) w) as [[r1 w1] t1] eqn:J.
    unfold value_of, trace_of in V1, Q1. rewrite J in V1, Q1.
    simpl in V1, Q1. subst r1. destruct Q1 as [M1 D1].
    destruct (truthy json_data) eqn:T.
    2:{ right. left. unfold value_of, trace_of.
        rewrite (main_no_json args w w1 json_data t1 A J T). simpl.
        split; [reflexivity|].
        destruct (quiet_append t1 [Print (str "Failed to retrieve JSON data. Check the URL or logs for more information.")] M1 D1 eq_refl eq_refl) as [M D].
        split; [exact M|]. split; [exact D|].
        eexists _, _. split; [reflexivity|]. right. now left. }
    assert (parse_failed : forall (course : option Course) (t2 : list event),
              run (get_course json_data) w1 = (inr course, w1, t2) ->
              course = None \/ course = Some [] ->
              flat_map made t2 = [] -> filter is_download t2 = [] ->
              value_of (main args) w = inr (Some (-1)%Z) /\
              flat_map made (trace_of (main args) w) = [] /\
              filter is_download (trace_of (main args) w) = [] /\
              exists pre msg,
                trace_of (main args) w = pre ++ [Print msg] /\
                In msg failure_messages).
    { intros course t2 C E M2 D2. unfold value_of, trace_of.
      rewrite (main_no_course args w w1 json_data t1 t2 course A J T C E).
      simpl. split; [reflexivity|].
      destruct (quiet_append t2 [Print (str "Failed to parse course data. Check logs for more information.")] M2 D2 eq_refl eq_refl) as [M D].
      destruct (quiet_append t1 _ M1 D1 M D) as [M' D'].
      split; [exact M'|]. split; [exact D'|].
      exists (t1 ++ t2), (str "Failed to parse course data. Check logs for more information.").
      split; [now rewrite <- app_assoc | right; right; now left]. }
    destruct (parse_course json_data) as [e|course] eqn:P.
    { right. left. destruct (get_course_fails json_data e w1 P) as [msg C].
      apply (parse_failed None _ C); auto. }
    destruct course as [|entry course].
    { right. left. apply (parse_failed (Some []) []); auto.
      now apply get_course_returns. }
    pose proof (main_prompts args w w1 json_data t1 (entry :: course)
                  A J T P ltac:(discriminate)) as R0.
    destruct (console_input (str "Enter username: ") w1)
      as [[e|username] w2] eqn:U.
    { right. right.
      apply (escapes e w2 t1 (Input (str "Enter username: ")));
        [|reflexivity].
      rewrite R0, run_bind, (input_run _ _ _ _ U). reflexivity. }
    destruct (console_getpass (str "Enter password: ") w2)
      as [[e|password] w3] eqn:G.
    { right. right.
      apply (escapes e w3 (t1 ++ [Input (str "Enter username: ")])
               (Getpass (str "Enter password: ")));
        [|reflexivity].
      rewrite R0, run_bind, (input_run _ _ _ _ U). cbv beta iota.
      rewrite run_bind, (getpass_run _ _ _ _ G). cbv beta iota.
      now rewrite <- app_assoc. }
    destruct (get_token_quiet username password w3) as ((token & V4) & Q4).
    destruct (run (get_token username password) w3) as [[r4 w4] t4] eqn:K.
    unfold value_of, trace_of in V4, Q4. rewrite K in V4, Q4.
    simpl in V4, Q4. subst r4. destruct Q4 as [M4 D4].
    pose proof (main_login args w w1 w2 w3 w4 json_data t1 t4
                  (entry :: course) username password token A J T P
                  ltac:(discriminate) U G K) as R.
    destruct (truthy token).
    + destruct (run (downloader (entry :: course) args token) w4)
        as [[[e|[]] w5] td] eqn:Dn.
      * right. right.
        destruct (downloader_raises (entry :: course) args token w4 e)
          as (pre & p & E).
        { unfold value_of. now rewrite Dn. }
        unfold trace_of in E. rewrite Dn in E. simpl in E. subst td.
        apply (escapes e w5
                 (t1 ++ [Input (str "Enter username: ");
                         Getpass (str "Enter password: ")] ++ t4 ++ pre)
                 (Makedirs p)); [|reflexivity].
        rewrite R, app_nil_r. now rewrite <- !app_assoc.
      * left. unfold value_of, trace_of. rewrite R. simpl fst. simpl snd.
        split; [reflexivity|].
        exists (t1 ++ [Input (str "Enter username: ");
                       Getpass (str "Enter password: ")] ++ t4 ++ td).
        now rewrite <- !app_assoc.
    + right. left. unfold value_of, trace_of. rewrite R. simpl.
      split; [reflexivity|].
      destruct (quiet_append t4 [Print (str "Failed to login. Check credentials or logs for more information.")] M4 D4 eq_refl eq_refl) as [M D].
      destruct (quiet_append
                  [Input (str "Enter username: ");
                   Getpass (str "Enter password: ")] _
                  eq_refl eq_refl M D) as [M' D'].
      destruct (quiet_append t1 _ M1 D1 M' D') as [M'' D''].
      split; [exact M''|]. split; [exact D''|].
      exists (t1 ++ [Input (str "Enter username: ");
                     Getpass (str "Enter password: ")] ++ t4),
             (str "Failed to login. Check credentials or logs for more information.").
      split; [now rewrite <- !app_assoc | right; right; right; now left].
Qed.

(** X15.  On a well-formed payload whose sanitized titles are pairwise
    distinct (chapters among themselves, Video items within a chapter),
    parsing and then downloading, when the directories can be created,
    asks the platform for every Video item of the page exactly once, in
    document order, whatever the platform answers. *)
Theorem requests_follow_document_order (json_data : json)
    (chapters : list chapter) (args : list pystr) (token : json)
    (w w' : W) :
  is_payload json_data chapters ->
  NoDup (map fst (course_spec chapters)) ->
  Forall (fun e => NoDup (map fst (snd e))) (course_spec chapters) ->
  creatable (download_path_of args) (course_spec chapters) ->
  exists course : Course,
    run (get_course json_data) w = (inr (Some course), w, []) /\
    value_of (downloader course args token) w' = inr tt /\
    flat_map attempted (trace_of (downloader course args token) w') =
      flat_map (fun c => item_ids (chapter_contents c)) chapters.
Proof.
  intros P N1 N2 Mk. exists (course_spec chapters). split.
  - apply get_course_returns. rewrite (parse_course_ok _ _ P).
    rewrite course_entries_NoDup by assumption.
    now rewrite of_entries_NoDup.
  - destruct (downloader_run (course_spec chapters) args token w'
                (conj N1 N2) Mk) as (t & w'' & R & S).
    unfold value_of, trace_of. rewrite R. simpl. split; [reflexivity|].
    rewrite <- video_ids_spec. exact (course_plan_attempted _ _ _ _ _ _ S).
Qed.

End MainMore.

Section GetJsonMore.
Context `{UnicodeData} {W : Type} `{World W}.

Arguments soup_find : simpl never.
Arguments node_string : simpl never.

(** X2.  [get_json] reads the first element of the page, in document
    order, whose [type] attribute is [application/json], and of it only the
    first child.  When that element is empty the function fails, whatever
    follows in the page; when its first child holds text that parses, the
    parsed value is returned and the other children are ignored. *)
Theorem get_json_reads_first_element (url : pystr) (w w' : W)
    (soup : list node) (data : node) :
  session_get url w = (inr soup, w') ->
  find (is_typed (str "application/json")) (flat_map preorder soup)
    = Some data ->
  (children data = [] ->
   run (get_json url) w =
     (inr JNull, w',
      [HttpGet url;
       LogError (str "No JSON data found at URL: " ++ url) NoDetail])) /\
  (forall child rest text v,
     children data = child :: rest ->
     node_string child = Some text ->
     json_loads text = inr v ->
     run (get_json url) w = (inr v, w', [HttpGet url])).
Proof.
  intros G F. rewrite <- soup_find_document_order in F. split.
  - intros C. unfold get_json, get, logging_error, emit, call. cbn.
    rewrite G. cbn. now rewrite F, C.
  - intros child rest text v C S L.
    unfold get_json, get, emit, call. cbn.
    rewrite G. cbn. rewrite F, C, S. cbn. now rewrite L.
Qed.

End GetJsonMore.

(** ** Instances *)

Lemma get_json_reads_first_element_witness :
  run (@get_json unit
         (scripted {| page := inr page_two_scripts;
                      loads := fun _ => inr three_videos;
                      login := inr login_ok;
                      authorize := fun _ => inr (watch_auth "s");
                      fetch := fun _ => inr tt;
                      mkdir := fun _ => inr tt |})
         course_url) tt =
    (inr JNull, tt,
     [HttpGet course_url;
      LogError (str "No JSON data found at URL: " ++ course_url) NoDetail]).
Proof.
  destruct (@get_json_reads_first_element unit
              (scripted {| page := inr page_two_scripts;
                           loads := fun _ => inr three_videos;
                           login := inr login_ok;
                           authorize := fun _ => inr (watch_auth "s");
                           fetch := fun _ => inr tt;
                      mkdir := fun _ => inr tt |})
              course_url tt tt page_two_scripts
              (Tag (str "script") [(str "type", str "application/json")] []))
    as [E _]; [reflexivity | reflexivity |].
  apply E. reflexivity.
Defined.

Lemma main_falsy_json_witness :
  run (@main sample_unicode unit
         (scripted {| page := inr (page_with_script "{}");
                      loads := fun _ => inr (JObj []);
                      login := inr login_ok;
                      authorize := fun _ => inr (watch_auth "s");
                      fetch := fun _ => inr tt;
                      mkdir := fun _ => inr tt |})
         [prog; course_url]) tt =
    (inr (Some (-1)%Z), tt,
     [HttpGet (nth 1 [prog; course_url] []);
      Print (str "Failed to retrieve JSON data. Check the URL or logs for more information.")]).
Proof.
  eapply (@main_falsy_json sample_unicode unit _ [prog; course_url] tt tt).
  - left. reflexivity.
  - reflexivity.
  - reflexivity.
  - reflexivity.
  - reflexivity.
  - reflexivity.
  - reflexivity.
Defined.

Lemma get_token_falsy_token_witness :
  run (@get_token unit (world_of_run three_videos login_with_empty_token false)
         (str "user") (str "secret")) tt =
    (inr JNull, tt,
     [HttpPost (Login (str "user") (str "secret"));
      LogError (str "Login failed. Response: ") (Body login_with_empty_token)]).
Proof.
  apply (@get_token_falsy_token unit
           (world_of_run three_videos login_with_empty_token false)
           (str "user") (str "secret") tt tt login_with_empty_token (JStr [])).
  - reflexivity.
  - reflexivity.
  - reflexivity.
Defined.

Lemma get_course_all_or_nothing_witness :
  exists msg e,
    run (@get_course sample_unicode unit payload_without_title) tt =
      (inr None, tt, [LogError msg (Exc e)]).
Proof.
  apply (@get_course_all_or_nothing sample_unicode unit payload_without_title
           [chapter_item "Ok" [video_item "a" 1];
            obj [("contents", JArr [video_item "b" 2])]%string]
           (obj [("contents", JArr [video_item "b" 2])]%string) tt).
  - reflexivity.
  - right. left. reflexivity.
  - apply (no_title _ (KeyError (str "title"))). reflexivity.
Defined.

Lemma get_course_key_order_witness :
  exists course : Course,
    run (@get_course sample_unicode unit colliding_payload) tt =
      (inr (Some course), tt, []) /\
    Dict.keys course =
      first_occurrences
        (map (fun c => @sanitize_filename sample_unicode (chapter_title c))
             colliding_chapters) /\
    forall k ch, Dict.get k course = Some ch ->
      exists c, In c colliding_chapters /\
        @sanitize_filename sample_unicode (chapter_title c) = k /\
        Dict.keys ch =
          first_occurrences
            (map fst (@video_entries sample_unicode (chapter_contents c))).
Proof.
  exact (@get_course_key_order sample_unicode unit colliding_payload
           colliding_chapters tt colliding_is_payload).
Defined.

Lemma downloader_distinct_templates_witness :
  NoDup (flat_map outtmpl
           (trace_of (@downloader sample_unicode unit
                        (world_all_ok three_videos) sample_course
                        [prog; course_url] (JStr (str "tok"))) tt)).
Proof.
  exact (@downloader_distinct_templates sample_unicode unit
           (world_all_ok three_videos) sample_course [prog; course_url]
           (JStr (str "tok")) tt sample_course_wf).
Defined.

Lemma downloader_without_stream_token_witness :
  Forall (fun e => match e with
                   | YdlDownload _ _ | LogInfo _ => False
                   | _ => True
                   end)
         (trace_of (@downloader sample_unicode unit
                      (world_unauthorized three_videos) sample_course
                      [prog; course_url] (JStr (str "tok"))) tt).
Proof.
  apply (@downloader_without_stream_token sample_unicode unit
           (world_unauthorized three_videos)).
  intros tok id w0 data E. discriminate E.
Defined.

Lemma downloader_all_succeed_witness :
  value_of (@downloader sample_unicode unit (world_all_ok three_videos)
              sample_course [prog; course_url] (JStr (str "tok"))) tt
    = inr tt /\
  flat_map outtmpl
    (trace_of (@downloader sample_unicode unit (world_all_ok three_videos)
                 sample_course [prog; course_url] (JStr (str "tok"))) tt) =
    @templates sample_unicode (download_path_of [prog; course_url])
      sample_course /\
  filter is_log
    (trace_of (@downloader sample_unicode unit (world_all_ok three_videos)
                 sample_course [prog; course_url] (JStr (str "tok"))) tt) =
    map (fun stem => LogInfo (str "Successfully downloaded: " ++ stem))
        (flat_map (fun e => @video_stems sample_unicode (snd e))
                  sample_course).
Proof.
  apply (@downloader_all_succeed sample_unicode unit
           (world_all_ok three_videos) sample_course [prog; course_url]
           (JStr (str "tok")) tt sample_course_wf).
  - intros p w0 _. reflexivity.
  - intros tok id w0. exists (watch_auth "s"), (JStr (str "s")).
    split; reflexivity.
  - intros vt o w0. reflexivity.
Defined.

Lemma requests_follow_document_order_witness :
  exists course : Course,
    run (@get_course sample_unicode unit sample_payload) tt =
      (inr (Some course), tt, []) /\
    value_of (@downloader sample_unicode unit
                (world_unauthorized sample_payload) course
                [prog; course_url] (JStr (str "tok"))) tt = inr tt /\
    flat_map attempted
      (trace_of (@downloader sample_unicode unit
                   (world_unauthorized sample_payload) course
                   [prog; course_url] (JStr (str "tok"))) tt) =
      flat_map (fun c => item_ids (chapter_contents c)) sample_chapters.
Proof.
  apply (@requests_follow_document_order sample_unicode unit
           (world_unauthorized sample_payload) sample_payload sample_chapters
           [prog; course_url] (JStr (str "tok")) tt tt sample_is_payload).
  - apply nodupb_NoDup. vm_compute. reflexivity.
  - constructor; [apply nodupb_NoDup; vm_compute; reflexivity|].
    constructor; [apply nodupb_NoDup; vm_compute; reflexivity|].
    constructor.
  - intros p w0 _. reflexivity.
Defined.
